(** * Run orchestration engine of the agentic SDLC assistant

    A shallow embedding of the orchestration core of the repository:
    the workflow state and its reducer ([schemas/workflow_state.py]), the
    stage bodies ([agents/*.py]), the routing function, the stage graph and
    the run entry point ([agents/supervisor.py]), the run repository
    ([persistence/repository.py], [persistence/models.py],
    [persistence/database.py]) and the KPI collector
    ([metrics/poc_metrics.py]).

    Conventions of the embedding.
    - A Python call that may raise returns a [Result]: [Ok v] or
      [Raised exc], where [exc] is the text [str(exc)] of the exception.
    - A [TypedDict(total=False)] is a record of optional fields; [None]
      stands for "key absent or value None", which is all that
      [state.get(key)] can observe.  The three audit lists are plain lists
      (an absent key reads as the empty list).
    - What a stage obtains from its collaborators (ticket tracker,
      language model, code host, settings, clock) is supplied by a [World]
      record, so every stage body is a function.
    - Python floats that are only compared or divided once are rationals
      ([Q]); timestamps are integers (microseconds). *)

From stdpp Require Import base strings list gmap sorting.
From Stdlib Require Import ZArith QArith Lia.

Close Scope Q_scope.

Open Scope string_scope.
Open Scope list_scope.

(** ** Python results and truthiness *)

Module Py.

Inductive Result (A : Type) : Type :=
| Ok (a : A)
| Raised (exc : string).
Arguments Ok {A} a.
Arguments Raised {A} exc.

Definition bind {A B} (r : Result A) (k : A -> Result B) : Result B :=
  match r with
  | Ok a => k a
  | Raised exc => Raised exc
  end.

(** [bool(x)] for an [Optional[bool]]. *)
Definition truthy (x : option bool) : bool :=
  match x with
  | Some true => true
  | _ => false
  end.

(** [bool(s)] for an [Optional[str]]: [None] and the empty string are falsy. *)
Definition truthy_str (x : option string) : bool :=
  match x with
  | Some "" => false
  | Some _ => true
  | None => false
  end.

(** [x / y] on integers: true division, [ZeroDivisionError] on a zero
    divisor. *)
Definition truediv (x y : nat) : Result Q :=
  match y with
  | O => Raised "division by zero"
  | S _ => Ok (Z.of_nat x # Pos.of_nat y)%Q
  end.

End Py.

Import Py.

(** ** Schemas *)

Module WorkflowPhase.
Inductive t : Set :=
| FETCHING_TICKET
| CHECKING_COMPLETENESS
| POSTING_CLARIFICATION
| SCOUTING_REPO
| FETCHING_CONFLUENCE_DOCS
| PLANNING
| PROPOSING_CODE
| SUGGESTING_TESTS
| COMPOSING_PR
| COMPLETED
| FAILED.

(** [str(phase)] as used for the [error_phase] column. *)
Definition str (p : t) : string :=
  match p with
  | FETCHING_TICKET => "WorkflowPhase.FETCHING_TICKET"
  | CHECKING_COMPLETENESS => "WorkflowPhase.CHECKING_COMPLETENESS"
  | POSTING_CLARIFICATION => "WorkflowPhase.POSTING_CLARIFICATION"
  | SCOUTING_REPO => "WorkflowPhase.SCOUTING_REPO"
  | FETCHING_CONFLUENCE_DOCS => "WorkflowPhase.FETCHING_CONFLUENCE_DOCS"
  | PLANNING => "WorkflowPhase.PLANNING"
  | PROPOSING_CODE => "WorkflowPhase.PROPOSING_CODE"
  | SUGGESTING_TESTS => "WorkflowPhase.SUGGESTING_TESTS"
  | COMPOSING_PR => "WorkflowPhase.COMPOSING_PR"
  | COMPLETED => "WorkflowPhase.COMPLETED"
  | FAILED => "WorkflowPhase.FAILED"
  end.
End WorkflowPhase.

Module CompletenessDecision.
Inductive t : Set := COMPLETE | INCOMPLETE.

Definition value (d : t) : string :=
  match d with
  | COMPLETE => "complete"
  | INCOMPLETE => "incomplete"
  end.

Definition eqb (a b : t) : bool :=
  match a, b with
  | COMPLETE, COMPLETE | INCOMPLETE, INCOMPLETE => true
  | _, _ => false
  end.
End CompletenessDecision.

Module CompletenessResult.
Record t : Type := mk {
  ticket_id : string;
  decision : CompletenessDecision.t;
  completeness_score : Q;
  clarification_questions : list string;
  jira_comment_posted : bool;
  jira_comment_id : option string
}.

Definition set_ticket_id (v : string) (r : t) : t :=
  mk v (decision r) (completeness_score r) (clarification_questions r)
     (jira_comment_posted r) (jira_comment_id r).

(** The two assignments [jira_comment_posted = True; jira_comment_id = id]. *)
Definition set_comment (id : string) (r : t) : t :=
  mk (ticket_id r) (decision r) (completeness_score r)
     (clarification_questions r) true (Some id).
End CompletenessResult.

Module PRCompositionResult.
Record t : Type := mk {
  ticket_id : string;
  pr_url : option string;
  pr_number : option Z;
  branch_name : option string;
  pr_title : string
}.
End PRCompositionResult.

(** The payloads of the other stages are opaque to the orchestration core:
    it only stores them and tests them for presence. *)
Record TicketContext : Type := { tc_ticket_id : string; tc_title : string }.
Record RepoContext : Type := { rc_summary : string }.
Record ConfluenceContext : Type := { cc_summary : string }.
Record ImplementationPlan : Type := { ip_ticket_id : string; ip_summary : string }.
Record CodeProposal : Type := { cp_ticket_id : string; cp_summary : string }.
Record TestSuggestions : Type := { ts_ticket_id : string; ts_summary : string }.

(** Entries of [mcp_tool_calls]. *)
Inductive ToolCall : Type :=
| jira_get_issue (ticket_id : string)
| jira_add_comment (ticket_id : string)
| github_get_contents (paths : list string)
| confluence_search (queries : list string) (pages_retrieved : nat)
| other_tool (name : string).  (* calls logged by other stages *)

Module WorkflowState.
Record t : Type := mk {
  run_id : option string;
  ticket_id : option string;
  started_at : option string;
  ticket_context : option TicketContext;
  completeness_result : option CompletenessResult.t;
  repo_context : option RepoContext;
  confluence_context : option ConfluenceContext;
  implementation_plan : option ImplementationPlan;
  code_proposal : option CodeProposal;
  test_suggestions : option TestSuggestions;
  pr_result : option PRCompositionResult.t;
  current_phase : option WorkflowPhase.t;
  is_complete_ticket : option bool;
  should_stop : option bool;
  errors : list string;
  llm_call_ids : list string;
  mcp_tool_calls : list ToolCall;
  completed_at : option string;
  total_llm_calls : option Z;
  total_tokens_used : option Z
}.

(** The empty dict [{}]. *)
Definition empty : t :=
  mk None None None None None None None None None None None None None None
     [] [] [] None None None.

(** Single-key dict displays, [{**d, key: v}]. *)
Definition with_run_id v (d : t) : t :=
  mk (Some v) (ticket_id d) (started_at d) (ticket_context d)
     (completeness_result d) (repo_context d) (confluence_context d)
     (implementation_plan d) (code_proposal d) (test_suggestions d)
     (pr_result d) (current_phase d) (is_complete_ticket d) (should_stop d)
     (errors d) (llm_call_ids d) (mcp_tool_calls d) (completed_at d)
     (total_llm_calls d) (total_tokens_used d).
Definition with_ticket_id v (d : t) : t :=
  mk (run_id d) (Some v) (started_at d) (ticket_context d)
     (completeness_result d) (repo_context d) (confluence_context d)
     (implementation_plan d) (code_proposal d) (test_suggestions d)
     (pr_result d) (current_phase d) (is_complete_ticket d) (should_stop d)
     (errors d) (llm_call_ids d) (mcp_tool_calls d) (completed_at d)
     (total_llm_calls d) (total_tokens_used d).
Definition with_started_at v (d : t) : t :=
  mk (run_id d) (ticket_id d) (Some v) (ticket_context d)
     (completeness_result d) (repo_context d) (confluence_context d)
     (implementation_plan d) (code_proposal d) (test_suggestions d)
     (pr_result d) (current_phase d) (is_complete_ticket d) (should_stop d)
     (errors d) (llm_call_ids d) (mcp_tool_calls d) (completed_at d)
     (total_llm_calls d) (total_tokens_used d).
Definition with_ticket_context v (d : t) : t :=
  mk (run_id d) (ticket_id d) (started_at d) (Some v)
     (completeness_result d) (repo_context d) (confluence_context d)
     (implementation_plan d) (code_proposal d) (test_suggestions d)
     (pr_result d) (current_phase d) (is_complete_ticket d) (should_stop d)
     (errors d) (llm_call_ids d) (mcp_tool_calls d) (completed_at d)
     (total_llm_calls d) (total_tokens_used d).
Definition with_completeness_result v (d : t) : t :=
  mk (run_id d) (ticket_id d) (started_at d) (ticket_context d)
     (Some v) (repo_context d) (confluence_context d)
     (implementation_plan d) (code_proposal d) (test_suggestions d)
     (pr_result d) (current_phase d) (is_complete_ticket d) (should_stop d)
     (errors d) (llm_call_ids d) (mcp_tool_calls d) (completed_at d)
     (total_llm_calls d) (total_tokens_used d).
Definition with_repo_context v (d : t) : t :=
  mk (run_id d) (ticket_id d) (started_at d) (ticket_context d)
     (completeness_result d) (Some v) (confluence_context d)
     (implementation_plan d) (code_proposal d) (test_suggestions d)
     (pr_result d) (current_phase d) (is_complete_ticket d) (should_stop d)
     (errors d) (llm_call_ids d) (mcp_tool_calls d) (completed_at d)
     (total_llm_calls d) (total_tokens_used d).
Definition with_confluence_context v (d : t) : t :=
  mk (run_id d) (ticket_id d) (started_at d) (ticket_context d)
     (completeness_result d) (repo_context d) (Some v)
     (implementation_plan d) (code_proposal d) (test_suggestions d)
     (pr_result d) (current_phase d) (is_complete_ticket d) (should_stop d)
     (errors d) (llm_call_ids d) (mcp_tool_calls d) (completed_at d)
     (total_llm_calls d) (total_tokens_used d).
Definition with_implementation_plan v (d : t) : t :=
  mk (run_id d) (ticket_id d) (started_at d) (ticket_context d)
     (completeness_result d) (repo_context d) (confluence_context d)
     (Some v) (code_proposal d) (test_suggestions d)
     (pr_result d) (current_phase d) (is_complete_ticket d) (should_stop d)
     (errors d) (llm_call_ids d) (mcp_tool_calls d) (completed_at d)
     (total_llm_calls d) (total_tokens_used d).
Definition with_code_proposal v (d : t) : t :=
  mk (run_id d) (ticket_id d) (started_at d) (ticket_context d)
     (completeness_result d) (repo_context d) (confluence_context d)
     (implementation_plan d) (Some v) (test_suggestions d)
     (pr_result d) (current_phase d) (is_complete_ticket d) (should_stop d)
     (errors d) (llm_call_ids d) (mcp_tool_calls d) (completed_at d)
     (total_llm_calls d) (total_tokens_used d).
Definition with_test_suggestions v (d : t) : t :=
  mk (run_id d) (ticket_id d) (started_at d) (ticket_context d)
     (completeness_result d) (repo_context d) (confluence_context d)
     (implementation_plan d) (code_proposal d) (Some v)
     (pr_result d) (current_phase d) (is_complete_ticket d) (should_stop d)
     (errors d) (llm_call_ids d) (mcp_tool_calls d) (completed_at d)
     (total_llm_calls d) (total_tokens_used d).
Definition with_pr_result v (d : t) : t :=
  mk (run_id d) (ticket_id d) (started_at d) (ticket_context d)
     (completeness_result d) (repo_context d) (confluence_context d)
     (implementation_plan d) (code_proposal d) (test_suggestions d)
     (Some v) (current_phase d) (is_complete_ticket d) (should_stop d)
     (errors d) (llm_call_ids d) (mcp_tool_calls d) (completed_at d)
     (total_llm_calls d) (total_tokens_used d).
Definition with_current_phase v (d : t) : t :=
  mk (run_id d) (ticket_id d) (started_at d) (ticket_context d)
     (completeness_result d) (repo_context d) (confluence_context d)
     (implementation_plan d) (code_proposal d) (test_suggestions d)
     (pr_result d) (Some v) (is_complete_ticket d) (should_stop d)
     (errors d) (llm_call_ids d) (mcp_tool_calls d) (completed_at d)
     (total_llm_calls d) (total_tokens_used d).
Definition with_is_complete_ticket (v : option bool) (d : t) : t :=
  mk (run_id d) (ticket_id d) (started_at d) (ticket_context d)
     (completeness_result d) (repo_context d) (confluence_context d)
     (implementation_plan d) (code_proposal d) (test_suggestions d)
     (pr_result d) (current_phase d) v (should_stop d)
     (errors d) (llm_call_ids d) (mcp_tool_calls d) (completed_at d)
     (total_llm_calls d) (total_tokens_used d).
Definition with_should_stop v (d : t) : t :=
  mk (run_id d) (ticket_id d) (started_at d) (ticket_context d)
     (completeness_result d) (repo_context d) (confluence_context d)
     (implementation_plan d) (code_proposal d) (test_suggestions d)
     (pr_result d) (current_phase d) (is_complete_ticket d) (Some v)
     (errors d) (llm_call_ids d) (mcp_tool_calls d) (completed_at d)
     (total_llm_calls d) (total_tokens_used d).
Definition with_errors v (d : t) : t :=
  mk (run_id d) (ticket_id d) (started_at d) (ticket_context d)
     (completeness_result d) (repo_context d) (confluence_context d)
     (implementation_plan d) (code_proposal d) (test_suggestions d)
     (pr_result d) (current_phase d) (is_complete_ticket d) (should_stop d)
     v (llm_call_ids d) (mcp_tool_calls d) (completed_at d)
     (total_llm_calls d) (total_tokens_used d).
Definition with_llm_call_ids v (d : t) : t :=
  mk (run_id d) (ticket_id d) (started_at d) (ticket_context d)
     (completeness_result d) (repo_context d) (confluence_context d)
     (implementation_plan d) (code_proposal d) (test_suggestions d)
     (pr_result d) (current_phase d) (is_complete_ticket d) (should_stop d)
     (errors d) v (mcp_tool_calls d) (completed_at d)
     (total_llm_calls d) (total_tokens_used d).
Definition with_mcp_tool_calls v (d : t) : t :=
  mk (run_id d) (ticket_id d) (started_at d) (ticket_context d)
     (completeness_result d) (repo_context d) (confluence_context d)
     (implementation_plan d) (code_proposal d) (test_suggestions d)
     (pr_result d) (current_phase d) (is_complete_ticket d) (should_stop d)
     (errors d) (llm_call_ids d) v (completed_at d)
     (total_llm_calls d) (total_tokens_used d).
Definition with_completed_at v (d : t) : t :=
  mk (run_id d) (ticket_id d) (started_at d) (ticket_context d)
     (completeness_result d) (repo_context d) (confluence_context d)
     (implementation_plan d) (code_proposal d) (test_suggestions d)
     (pr_result d) (current_phase d) (is_complete_ticket d) (should_stop d)
     (errors d) (llm_call_ids d) (mcp_tool_calls d) (Some v)
     (total_llm_calls d) (total_tokens_used d).
Definition with_total_llm_calls v (d : t) : t :=
  mk (run_id d) (ticket_id d) (started_at d) (ticket_context d)
     (completeness_result d) (repo_context d) (confluence_context d)
     (implementation_plan d) (code_proposal d) (test_suggestions d)
     (pr_result d) (current_phase d) (is_complete_ticket d) (should_stop d)
     (errors d) (llm_call_ids d) (mcp_tool_calls d) (completed_at d)
     (Some v) (total_tokens_used d).
Definition with_total_tokens_used v (d : t) : t :=
  mk (run_id d) (ticket_id d) (started_at d) (ticket_context d)
     (completeness_result d) (repo_context d) (confluence_context d)
     (implementation_plan d) (code_proposal d) (test_suggestions d)
     (pr_result d) (current_phase d) (is_complete_ticket d) (should_stop d)
     (errors d) (llm_call_ids d) (mcp_tool_calls d) (completed_at d)
     (total_llm_calls d) (Some v).

(** *** The reducer

    Every key without an annotation is a last-value channel: a key present
    in the update overwrites.  [errors], [llm_call_ids] and
    [mcp_tool_calls] are annotated with [operator.add]: the update is
    concatenated to the right of the accumulated list. *)
Definition overwrite {A} (old new : option A) : option A :=
  match new with
  | Some v => Some v
  | None => old
  end.

Definition merge (s u : t) : t :=
  mk (overwrite (run_id s) (run_id u))
     (overwrite (ticket_id s) (ticket_id u))
     (overwrite (started_at s) (started_at u))
     (overwrite (ticket_context s) (ticket_context u))
     (overwrite (completeness_result s) (completeness_result u))
     (overwrite (repo_context s) (repo_context u))
     (overwrite (confluence_context s) (confluence_context u))
     (overwrite (implementation_plan s) (implementation_plan u))
     (overwrite (code_proposal s) (code_proposal u))
     (overwrite (test_suggestions s) (test_suggestions u))
     (overwrite (pr_result s) (pr_result u))
     (overwrite (current_phase s) (current_phase u))
     (overwrite (is_complete_ticket s) (is_complete_ticket u))
     (overwrite (should_stop s) (should_stop u))
     (errors s ++ errors u)
     (llm_call_ids s ++ llm_call_ids u)
     (mcp_tool_calls s ++ mcp_tool_calls u)
     (overwrite (completed_at s) (completed_at u))
     (overwrite (total_llm_calls s) (total_llm_calls u))
     (overwrite (total_tokens_used s) (total_tokens_used u)).

End WorkflowState.

(** ** Stage bodies ([agents/*.py]) *)

(** What the collaborators and the settings supply to the stages of one
    run.  A [Raised] answer stands for an exception raised anywhere inside
    the stage's [try] block. *)
Record World : Type := {
  (* settings *)
  completeness_threshold : Q;
  dry_run : bool;
  confluence_url : string;
  (* ticket tracker *)
  _fetch_ticket_via_mcp : string -> Result TicketContext;
  _post_jira_comment : string -> CompletenessResult.t -> Result (option string);
  _apply_jira_label : string -> string -> Result unit;
  (* language model, with the data gathered for its prompt *)
  llm_completeness :
    TicketContext -> Result (option CompletenessResult.t * string);
  llm_repo_scout :
    TicketContext -> Result (option RepoContext * string * list string);
  llm_confluence :
    TicketContext ->
    Result (option ConfluenceContext * string * list string * nat);
  llm_planner :
    TicketContext -> RepoContext -> option ConfluenceContext ->
    Result (option ImplementationPlan * string);
  llm_code_proposal :
    TicketContext -> ImplementationPlan -> option RepoContext ->
    Result (option CodeProposal * string);
  llm_tests :
    TicketContext -> ImplementationPlan -> option CodeProposal ->
    Result (option TestSuggestions * string);
  (* the body of the pr_composer stage (agents/pr_composer_agent.py),
     taken as given *)
  pr_composer_node : WorkflowState.t -> Result WorkflowState.t;
  (* datetime.now(timezone.utc).isoformat() at run start and at the end *)
  now_at_start : string;
  now_at_end : string
}.

Module Agents.
Import WorkflowState.

(** [state[key]]: [KeyError] when the key is absent. *)
Definition getitem {A} (key : string) (v : option A) : Result A :=
  match v with
  | Some a => Ok a
  | None => Raised ("'" ++ key ++ "'")
  end.

(** The dict every stage returns on an expected failure:
    [{"current_phase": FAILED, "errors": [entry], "should_stop": True}]. *)
Definition failed_update (entry : string) : WorkflowState.t :=
  with_current_phase WorkflowPhase.FAILED
    (with_errors [entry] (with_should_stop true empty)).

Definition next_llm_calls (state : WorkflowState.t) : Z :=
  (default 0 (total_llm_calls state) + 1)%Z.

(** [TicketFetcherAgent.run] *)
Definition fetch_ticket_node (w : World) (state : WorkflowState.t)
  : Result WorkflowState.t :=
  bind (getitem "ticket_id" (ticket_id state)) (fun ticket_id =>
  bind (getitem "run_id" (run_id state)) (fun _ =>
  match _fetch_ticket_via_mcp w ticket_id with
  | Ok ticket_context =>
      Ok (with_ticket_context ticket_context
         (with_current_phase WorkflowPhase.CHECKING_COMPLETENESS
         (with_mcp_tool_calls [jira_get_issue ticket_id] empty)))
  | Raised exc => Ok (failed_update ("ticket_fetcher: " ++ exc))
  end)).

(** [CompletenessAgent.run] *)
Definition completeness_check_node (w : World) (state : WorkflowState.t)
  : Result WorkflowState.t :=
  let ticket_context := ticket_context state in
  bind (getitem "run_id" (run_id state)) (fun _ =>
  bind (getitem "ticket_id" (WorkflowState.ticket_id state)) (fun ticket_id =>
  match ticket_context with
  | None => Ok (failed_update "completeness_agent: ticket_context is None")
  | Some ticket_context =>
      match llm_completeness w ticket_context with
      | Ok (Some result, call_id) =>
          let result := CompletenessResult.set_ticket_id ticket_id result in
          let is_complete :=
            Qle_bool (completeness_threshold w)
                     (CompletenessResult.completeness_score result)
            && CompletenessDecision.eqb (CompletenessResult.decision result)
                                        CompletenessDecision.COMPLETE in
          Ok (with_completeness_result result
             (with_is_complete_ticket (Some is_complete)
             (with_current_phase WorkflowPhase.CHECKING_COMPLETENESS
             (with_llm_call_ids [call_id]
             (with_total_llm_calls (next_llm_calls state) empty)))))
      | Ok (None, _) =>
          Ok (failed_update
                ("completeness_agent: "
                 ++ "LLM returned None for CompletenessResult"))
      | Raised exc => Ok (failed_update ("completeness_agent: " ++ exc))
      end
  end)).

(** [PostClarificationAgent.run].  The comment id is recorded on the
    completeness result in place, so the result returned after a failed
    labelling already carries it. *)
Definition post_clarification_node (w : World) (state : WorkflowState.t)
  : Result WorkflowState.t :=
  let completeness_result := completeness_result state in
  bind (getitem "ticket_id" (WorkflowState.ticket_id state)) (fun ticket_id =>
  bind (getitem "run_id" (run_id state)) (fun _ =>
  match completeness_result with
  | None =>
      Ok (with_current_phase WorkflowPhase.POSTING_CLARIFICATION
         (with_errors ["post_clarification: completeness_result is None"]
            empty))
  | Some completeness_result =>
      if dry_run w then Ok (with_current_phase WorkflowPhase.COMPLETED empty)
      else
        match _post_jira_comment w ticket_id completeness_result with
        | Raised exc =>
            Ok (with_current_phase WorkflowPhase.POSTING_CLARIFICATION
               (with_errors [("post_clarification: " ++ exc)%string]
               (with_completeness_result completeness_result empty)))
        | Ok comment_id =>
            let completeness_result :=
              if truthy_str comment_id
              then CompletenessResult.set_comment (default "" comment_id)
                     completeness_result
              else completeness_result in
            match _apply_jira_label w ticket_id "needs-clarification" with
            | Raised exc =>
                Ok (with_current_phase WorkflowPhase.POSTING_CLARIFICATION
                   (with_errors [("post_clarification: " ++ exc)%string]
                   (with_completeness_result completeness_result empty)))
            | Ok _ =>
                Ok (with_completeness_result completeness_result
                   (with_current_phase WorkflowPhase.COMPLETED
                   (with_mcp_tool_calls [jira_add_comment ticket_id] empty)))
            end
        end
  end)).

(** [RepoScoutAgent.run] *)
Definition repo_scout_node (w : World) (state : WorkflowState.t)
  : Result WorkflowState.t :=
  let ticket_context := ticket_context state in
  bind (getitem "run_id" (run_id state)) (fun _ =>
  bind (getitem "ticket_id" (WorkflowState.ticket_id state)) (fun _ =>
  match ticket_context with
  | None => Ok (failed_update "repo_scout: ticket_context is None")
  | Some ticket_context =>
      match llm_repo_scout w ticket_context with
      | Ok (Some result, call_id, relevant_paths) =>
          Ok (with_repo_context result
             (with_current_phase WorkflowPhase.PLANNING
             (with_llm_call_ids [call_id]
             (with_total_llm_calls (next_llm_calls state)
             (with_mcp_tool_calls [github_get_contents relevant_paths]
                empty)))))
      | Ok (None, _, _) =>
          Ok (failed_update
                ("repo_scout: " ++ "LLM returned None for RepoContext"))
      | Raised exc => Ok (failed_update ("repo_scout: " ++ exc))
      end
  end)).

(** [ConfluenceAgent.run] *)
Definition confluence_agent_node (w : World) (state : WorkflowState.t)
  : Result WorkflowState.t :=
  let ticket_context := ticket_context state in
  bind (getitem "run_id" (run_id state)) (fun _ =>
  bind (getitem "ticket_id" (WorkflowState.ticket_id state)) (fun _ =>
  match ticket_context with
  | None => Ok (failed_update "confluence_agent: ticket_context is None")
  | Some ticket_context =>
      if negb (truthy_str (Some (confluence_url w))) then
        Ok (with_confluence_context
              {| cc_summary :=
                   "Confluence not configured - no documentation context retrieved." |}
           (with_current_phase WorkflowPhase.PLANNING empty))
      else
        match llm_confluence w ticket_context with
        | Ok (Some result, call_id, queries_used, pages_retrieved) =>
            Ok (with_confluence_context result
               (with_current_phase WorkflowPhase.PLANNING
               (with_llm_call_ids [call_id]
               (with_total_llm_calls (next_llm_calls state)
               (with_mcp_tool_calls
                  [confluence_search queries_used pages_retrieved] empty)))))
        | Ok (None, _, _, _) =>
            Ok (failed_update
                  ("confluence_agent: "
                   ++ "LLM returned None for ConfluenceContext"))
        | Raised exc => Ok (failed_update ("confluence_agent: " ++ exc))
        end
  end)).

(** [PlannerAgent.run] *)
Definition planner_node (w : World) (state : WorkflowState.t)
  : Result WorkflowState.t :=
  let ticket_context := ticket_context state in
  let repo_context := repo_context state in
  bind (getitem "run_id" (run_id state)) (fun _ =>
  bind (getitem "ticket_id" (WorkflowState.ticket_id state)) (fun ticket_id =>
  match ticket_context, repo_context with
  | Some ticket_context, Some repo_context =>
      match llm_planner w ticket_context repo_context
              (confluence_context state) with
      | Ok (Some result, call_id) =>
          let result :=
            {| ip_ticket_id := ticket_id; ip_summary := ip_summary result |} in
          Ok (with_implementation_plan result
             (with_current_phase WorkflowPhase.PROPOSING_CODE
             (with_llm_call_ids [call_id]
             (with_total_llm_calls (next_llm_calls state) empty))))
      | Ok (None, _) =>
          Ok (failed_update
                ("planner: " ++ "LLM returned None for ImplementationPlan"))
      | Raised exc => Ok (failed_update ("planner: " ++ exc))
      end
  | _, _ =>
      Ok (failed_update "planner: missing ticket_context or repo_context")
  end)).

(** [CodeProposalAgent.run] *)
Definition code_proposal_node (w : World) (state : WorkflowState.t)
  : Result WorkflowState.t :=
  let ticket_context := ticket_context state in
  let repo_context := repo_context state in
  let implementation_plan := implementation_plan state in
  bind (getitem "run_id" (run_id state)) (fun _ =>
  bind (getitem "ticket_id" (WorkflowState.ticket_id state)) (fun ticket_id =>
  match ticket_context, implementation_plan with
  | Some ticket_context, Some implementation_plan =>
      match llm_code_proposal w ticket_context implementation_plan
              repo_context with
      | Ok (Some result, call_id) =>
          let result :=
            {| cp_ticket_id := ticket_id; cp_summary := cp_summary result |} in
          Ok (with_code_proposal result
             (with_current_phase WorkflowPhase.SUGGESTING_TESTS
             (with_llm_call_ids [call_id]
             (with_total_llm_calls (next_llm_calls state) empty))))
      | Ok (None, _) =>
          Ok (failed_update
                ("code_proposal: " ++ "LLM returned None for CodeProposal"))
      | Raised exc => Ok (failed_update ("code_proposal: " ++ exc))
      end
  | _, _ => Ok (failed_update "code_proposal: missing required state")
  end)).

(** [TestAgent.run] *)
Definition test_suggestion_node (w : World) (state : WorkflowState.t)
  : Result WorkflowState.t :=
  let ticket_context := ticket_context state in
  let implementation_plan := implementation_plan state in
  let code_proposal := code_proposal state in
  bind (getitem "run_id" (run_id state)) (fun _ =>
  bind (getitem "ticket_id" (WorkflowState.ticket_id state)) (fun ticket_id =>
  match ticket_context, implementation_plan with
  | Some ticket_context, Some implementation_plan =>
      match llm_tests w ticket_context implementation_plan code_proposal with
      | Ok (Some result, call_id) =>
          let result :=
            {| ts_ticket_id := ticket_id; ts_summary := ts_summary result |} in
          Ok (with_test_suggestions result
             (with_current_phase WorkflowPhase.COMPOSING_PR
             (with_llm_call_ids [call_id]
             (with_total_llm_calls (next_llm_calls state) empty))))
      | Ok (None, _) =>
          Ok (failed_update
                ("test_agent: " ++ "LLM returned None for TestSuggestions"))
      | Raised exc => Ok (failed_update ("test_agent: " ++ exc))
      end
  | _, _ => Ok (failed_update "test_agent: missing required state")
  end)).

End Agents.

(** ** Routing and the stage graph ([agents/supervisor.py]) *)

Module Node.
Inductive t : Set :=
| fetch_ticket
| completeness_check
| post_clarification
| repo_scout
| confluence_docs
| planner
| code_proposal
| test_suggestion
| pr_composer
| end_workflow.
End Node.

(** The two labels [route_after_completeness] can return. *)
Module Branch.
Inductive t : Set := post_clarification | repo_scout.
End Branch.

Definition route_after_completeness (state : WorkflowState.t) : Branch.t :=
  if truthy (WorkflowState.should_stop state) then Branch.post_clarification
  else if truthy (WorkflowState.is_complete_ticket state) then Branch.repo_scout
  else Branch.post_clarification.

(** [end_workflow_node] *)
Definition end_workflow_node (w : World) (state : WorkflowState.t)
  : WorkflowState.t :=
  WorkflowState.with_current_phase WorkflowPhase.COMPLETED
    (WorkflowState.with_completed_at (now_at_end w) WorkflowState.empty).

(** The bodies registered for the nine stages; [end_workflow] is always the
    terminal node above. *)
Definition Stages : Type := Node.t -> WorkflowState.t -> Result WorkflowState.t.

(** The bodies as [build_graph] registers them. *)
Definition source_stages (w : World) : Stages :=
  fun n =>
    match n with
    | Node.fetch_ticket => Agents.fetch_ticket_node w
    | Node.completeness_check => Agents.completeness_check_node w
    | Node.post_clarification => Agents.post_clarification_node w
    | Node.repo_scout => Agents.repo_scout_node w
    | Node.confluence_docs => Agents.confluence_agent_node w
    | Node.planner => Agents.planner_node w
    | Node.code_proposal => Agents.code_proposal_node w
    | Node.test_suggestion => Agents.test_suggestion_node w
    | Node.pr_composer => pr_composer_node w
    | Node.end_workflow => fun state => Ok (end_workflow_node w state)
    end.

Definition node_fn (w : World) (stages : Stages) (n : Node.t)
  (state : WorkflowState.t) : Result WorkflowState.t :=
  match n with
  | Node.end_workflow => Ok (end_workflow_node w state)
  | _ => stages n state
  end.

(** The mapping given to [add_conditional_edges]. *)
Definition path_map (b : Branch.t) : Node.t :=
  match b with
  | Branch.post_clarification => Node.post_clarification
  | Branch.repo_scout => Node.repo_scout
  end.

(** The edges of [build_graph]; [None] is [END].  The conditional edge is
    evaluated on the state merged after [completeness_check]. *)
Definition edges (n : Node.t) (state : WorkflowState.t) : option Node.t :=
  match n with
  | Node.fetch_ticket => Some Node.completeness_check
  | Node.completeness_check => Some (path_map (route_after_completeness state))
  | Node.post_clarification => Some Node.end_workflow
  | Node.repo_scout => Some Node.confluence_docs
  | Node.confluence_docs => Some Node.planner
  | Node.planner => Some Node.code_proposal
  | Node.code_proposal => Some Node.test_suggestion
  | Node.test_suggestion => Some Node.pr_composer
  | Node.pr_composer => Some Node.end_workflow
  | Node.end_workflow => None
  end.

(** The executor: run the node, merge its update, follow the edge.  The
    first component lists the nodes executed with the state merged after
    each; the second is what [invoke] returns or raises.  [limit] is the
    executor's recursion limit (a [GraphRecursionError] when exhausted). *)
Fixpoint walk (w : World) (stages : Stages) (limit : nat) (n : Node.t)
  (state : WorkflowState.t)
  : list (Node.t * WorkflowState.t) * Result WorkflowState.t :=
  match limit with
  | O => ([], Raised "Recursion limit reached without hitting a stop condition")
  | S limit =>
      match node_fn w stages n state with
      | Raised exc => ([], Raised exc)
      | Ok update =>
          let state := WorkflowState.merge state update in
          match edges n state with
          | None => ([(n, state)], Ok state)
          | Some next =>
              let '(trace, result) := walk w stages limit next state in
              ((n, state) :: trace, result)
          end
      end
  end.

Definition recursion_limit : nat := 25.

(** [graph.invoke(initial_state)]: the input is written to the channels,
    then the graph is walked from the entry node. *)
Definition invoke_trace (w : World) (stages : Stages) (input : WorkflowState.t)
  : list (Node.t * WorkflowState.t) * Result WorkflowState.t :=
  walk w stages recursion_limit Node.fetch_ticket
       (WorkflowState.merge WorkflowState.empty input).

Definition invoke (w : World) (stages : Stages) (input : WorkflowState.t)
  : Result WorkflowState.t :=
  snd (invoke_trace w stages input).

(** ** Persistence ([persistence/models.py], [persistence/database.py],
    [persistence/repository.py]) *)

Module RunStatus.
Inductive t : Set := RUNNING | COMPLETED_COMPLETE | COMPLETED_INCOMPLETE | FAILED.

Definition eqb (a b : t) : bool :=
  match a, b with
  | RUNNING, RUNNING
  | COMPLETED_COMPLETE, COMPLETED_COMPLETE
  | COMPLETED_INCOMPLETE, COMPLETED_INCOMPLETE
  | FAILED, FAILED => true
  | _, _ => false
  end.
End RunStatus.

Module PROutcome.
Inductive t : Set := PENDING | APPROVED | REJECTED | MERGED | NOT_CREATED.
End PROutcome.

(** Keyword arguments of [update_run]: a column of [ticket_runs] with the
    value to assign. *)
Module Kwarg.
Inductive t : Type :=
| status (v : RunStatus.t)
| completed_at (v : option Z)
| completeness_score (v : option Q)
| ticket_deemed_incomplete (v : option bool)
| clarification_comment_posted (v : bool)
| implementation_plan_generated (v : bool)
| code_proposal_generated (v : bool)
| tests_suggested (v : bool)
| pr_url (v : option string)
| pr_number (v : option Z)
| pr_branch (v : option string)
| pr_outcome (v : PROutcome.t)
| total_duration_seconds (v : option Q)
| total_llm_calls (v : Z)
| total_tokens_used (v : Z)
| error_occurred (v : bool)
| error_phase (v : option string)
| error_message (v : option string)
| final_state_snapshot (v : option WorkflowState.t).
End Kwarg.

Module TicketRun.
Record t : Type := mk {
  id : string;
  ticket_id : string;
  status : RunStatus.t;
  started_at : Z;
  completed_at : option Z;
  completeness_score : option Q;
  ticket_deemed_incomplete : option bool;
  clarification_comment_posted : bool;
  implementation_plan_generated : bool;
  code_proposal_generated : bool;
  tests_suggested : bool;
  pr_url : option string;
  pr_number : option Z;
  pr_branch : option string;
  pr_outcome : PROutcome.t;
  total_duration_seconds : option Q;
  total_llm_calls : Z;
  total_tokens_used : Z;
  error_occurred : bool;
  error_phase : option string;
  error_message : option string;
  final_state_snapshot : option WorkflowState.t
}.

(** [setattr(run, k, v)] *)
Definition setattr (run : t) (kw : Kwarg.t) : t :=
  match kw with
  | Kwarg.status v =>
      mk (id run) (ticket_id run) v (started_at run) (completed_at
         run) (completeness_score run) (ticket_deemed_incomplete run)
         (clarification_comment_posted run)
         (implementation_plan_generated run) (code_proposal_generated
         run) (tests_suggested run) (pr_url run) (pr_number run)
         (pr_branch run) (pr_outcome run) (total_duration_seconds run)
         (total_llm_calls run) (total_tokens_used run) (error_occurred
         run) (error_phase run) (error_message run)
         (final_state_snapshot run)
  | Kwarg.completed_at v =>
      mk (id run) (ticket_id run) (status run) (started_at run) v
         (completeness_score run) (ticket_deemed_incomplete run)
         (clarification_comment_posted run)
         (implementation_plan_generated run) (code_proposal_generated
         run) (tests_suggested run) (pr_url run) (pr_number run)
         (pr_branch run) (pr_outcome run) (total_duration_seconds run)
         (total_llm_calls run) (total_tokens_used run) (error_occurred
         run) (error_phase run) (error_message run)
         (final_state_snapshot run)
  | Kwarg.completeness_score v =>
      mk (id run) (ticket_id run) (status run) (started_at run)
         (completed_at run) v (ticket_deemed_incomplete run)
         (clarification_comment_posted run)
         (implementation_plan_generated run) (code_proposal_generated
         run) (tests_suggested run) (pr_url run) (pr_number run)
         (pr_branch run) (pr_outcome run) (total_duration_seconds run)
         (total_llm_calls run) (total_tokens_used run) (error_occurred
         run) (error_phase run) (error_message run)
         (final_state_snapshot run)
  | Kwarg.ticket_deemed_incomplete v =>
      mk (id run) (ticket_id run) (status run) (started_at run)
         (completed_at run) (completeness_score run) v
         (clarification_comment_posted run)
         (implementation_plan_generated run) (code_proposal_generated
         run) (tests_suggested run) (pr_url run) (pr_number run)
         (pr_branch run) (pr_outcome run) (total_duration_seconds run)
         (total_llm_calls run) (total_tokens_used run) (error_occurred
         run) (error_phase run) (error_message run)
         (final_state_snapshot run)
  | Kwarg.clarification_comment_posted v =>
      mk (id run) (ticket_id run) (status run) (started_at run)
         (completed_at run) (completeness_score run)
         (ticket_deemed_incomplete run) v
         (implementation_plan_generated run) (code_proposal_generated
         run) (tests_suggested run) (pr_url run) (pr_number run)
         (pr_branch run) (pr_outcome run) (total_duration_seconds run)
         (total_llm_calls run) (total_tokens_used run) (error_occurred
         run) (error_phase run) (error_message run)
         (final_state_snapshot run)
  | Kwarg.implementation_plan_generated v =>
      mk (id run) (ticket_id run) (status run) (started_at run)
         (completed_at run) (completeness_score run)
         (ticket_deemed_incomplete run) (clarification_comment_posted
         run) v (code_proposal_generated run) (tests_suggested run)
         (pr_url run) (pr_number run) (pr_branch run) (pr_outcome run)
         (total_duration_seconds run) (total_llm_calls run)
         (total_tokens_used run) (error_occurred run) (error_phase
         run) (error_message run) (final_state_snapshot run)
  | Kwarg.code_proposal_generated v =>
      mk (id run) (ticket_id run) (status run) (started_at run)
         (completed_at run) (completeness_score run)
         (ticket_deemed_incomplete run) (clarification_comment_posted
         run) (implementation_plan_generated run) v (tests_suggested
         run) (pr_url run) (pr_number run) (pr_branch run) (pr_outcome
         run) (total_duration_seconds run) (total_llm_calls run)
         (total_tokens_used run) (error_occurred run) (error_phase
         run) (error_message run) (final_state_snapshot run)
  | Kwarg.tests_suggested v =>
      mk (id run) (ticket_id run) (status run) (started_at run)
         (completed_at run) (completeness_score run)
         (ticket_deemed_incomplete run) (clarification_comment_posted
         run) (implementation_plan_generated run)
         (code_proposal_generated run) v (pr_url run) (pr_number run)
         (pr_branch run) (pr_outcome run) (total_duration_seconds run)
         (total_llm_calls run) (total_tokens_used run) (error_occurred
         run) (error_phase run) (error_message run)
         (final_state_snapshot run)
  | Kwarg.pr_url v =>
      mk (id run) (ticket_id run) (status run) (started_at run)
         (completed_at run) (completeness_score run)
         (ticket_deemed_incomplete run) (clarification_comment_posted
         run) (implementation_plan_generated run)
         (code_proposal_generated run) (tests_suggested run) v
         (pr_number run) (pr_branch run) (pr_outcome run)
         (total_duration_seconds run) (total_llm_calls run)
         (total_tokens_used run) (error_occurred run) (error_phase
         run) (error_message run) (final_state_snapshot run)
  | Kwarg.pr_number v =>
      mk (id run) (ticket_id run) (status run) (started_at run)
         (completed_at run) (completeness_score run)
         (ticket_deemed_incomplete run) (clarification_comment_posted
         run) (implementation_plan_generated run)
         (code_proposal_generated run) (tests_suggested run) (pr_url
         run) v (pr_branch run) (pr_outcome run)
         (total_duration_seconds run) (total_llm_calls run)
         (total_tokens_used run) (error_occurred run) (error_phase
         run) (error_message run) (final_state_snapshot run)
  | Kwarg.pr_branch v =>
      mk (id run) (ticket_id run) (status run) (started_at run)
         (completed_at run) (completeness_score run)
         (ticket_deemed_incomplete run) (clarification_comment_posted
         run) (implementation_plan_generated run)
         (code_proposal_generated run) (tests_suggested run) (pr_url
         run) (pr_number run) v (pr_outcome run)
         (total_duration_seconds run) (total_llm_calls run)
         (total_tokens_used run) (error_occurred run) (error_phase
         run) (error_message run) (final_state_snapshot run)
  | Kwarg.pr_outcome v =>
      mk (id run) (ticket_id run) (status run) (started_at run)
         (completed_at run) (completeness_score run)
         (ticket_deemed_incomplete run) (clarification_comment_posted
         run) (implementation_plan_generated run)
         (code_proposal_generated run) (tests_suggested run) (pr_url
         run) (pr_number run) (pr_branch run) v
         (total_duration_seconds run) (total_llm_calls run)
         (total_tokens_used run) (error_occurred run) (error_phase
         run) (error_message run) (final_state_snapshot run)
  | Kwarg.total_duration_seconds v =>
      mk (id run) (ticket_id run) (status run) (started_at run)
         (completed_at run) (completeness_score run)
         (ticket_deemed_incomplete run) (clarification_comment_posted
         run) (implementation_plan_generated run)
         (code_proposal_generated run) (tests_suggested run) (pr_url
         run) (pr_number run) (pr_branch run) (pr_outcome run) v
         (total_llm_calls run) (total_tokens_used run) (error_occurred
         run) (error_phase run) (error_message run)
         (final_state_snapshot run)
  | Kwarg.total_llm_calls v =>
      mk (id run) (ticket_id run) (status run) (started_at run)
         (completed_at run) (completeness_score run)
         (ticket_deemed_incomplete run) (clarification_comment_posted
         run) (implementation_plan_generated run)
         (code_proposal_generated run) (tests_suggested run) (pr_url
         run) (pr_number run) (pr_branch run) (pr_outcome run)
         (total_duration_seconds run) v (total_tokens_used run)
         (error_occurred run) (error_phase run) (error_message run)
         (final_state_snapshot run)
  | Kwarg.total_tokens_used v =>
      mk (id run) (ticket_id run) (status run) (started_at run)
         (completed_at run) (completeness_score run)
         (ticket_deemed_incomplete run) (clarification_comment_posted
         run) (implementation_plan_generated run)
         (code_proposal_generated run) (tests_suggested run) (pr_url
         run) (pr_number run) (pr_branch run) (pr_outcome run)
         (total_duration_seconds run) (total_llm_calls run) v
         (error_occurred run) (error_phase run) (error_message run)
         (final_state_snapshot run)
  | Kwarg.error_occurred v =>
      mk (id run) (ticket_id run) (status run) (started_at run)
         (completed_at run) (completeness_score run)
         (ticket_deemed_incomplete run) (clarification_comment_posted
         run) (implementation_plan_generated run)
         (code_proposal_generated run) (tests_suggested run) (pr_url
         run) (pr_number run) (pr_branch run) (pr_outcome run)
         (total_duration_seconds run) (total_llm_calls run)
         (total_tokens_used run) v (error_phase run) (error_message
         run) (final_state_snapshot run)
  | Kwarg.error_phase v =>
      mk (id run) (ticket_id run) (status run) (started_at run)
         (completed_at run) (completeness_score run)
         (ticket_deemed_incomplete run) (clarification_comment_posted
         run) (implementation_plan_generated run)
         (code_proposal_generated run) (tests_suggested run) (pr_url
         run) (pr_number run) (pr_branch run) (pr_outcome run)
         (total_duration_seconds run) (total_llm_calls run)
         (total_tokens_used run) (error_occurred run) v (error_message
         run) (final_state_snapshot run)
  | Kwarg.error_message v =>
      mk (id run) (ticket_id run) (status run) (started_at run)
         (completed_at run) (completeness_score run)
         (ticket_deemed_incomplete run) (clarification_comment_posted
         run) (implementation_plan_generated run)
         (code_proposal_generated run) (tests_suggested run) (pr_url
         run) (pr_number run) (pr_branch run) (pr_outcome run)
         (total_duration_seconds run) (total_llm_calls run)
         (total_tokens_used run) (error_occurred run) (error_phase
         run) v (final_state_snapshot run)
  | Kwarg.final_state_snapshot v =>
      mk (id run) (ticket_id run) (status run) (started_at run)
         (completed_at run) (completeness_score run)
         (ticket_deemed_incomplete run) (clarification_comment_posted
         run) (implementation_plan_generated run)
         (code_proposal_generated run) (tests_suggested run) (pr_url
         run) (pr_number run) (pr_branch run) (pr_outcome run)
         (total_duration_seconds run) (total_llm_calls run)
         (total_tokens_used run) (error_occurred run) (error_phase
         run) (error_message run) v
  end.
End TicketRun.

Module ProcessedTicket.
Record t : Type := mk {
  ticket_id : string;
  first_seen_at : Z;
  last_run_id : option string;
  reprocess_requested : bool
}.
End ProcessedTicket.

Module TicketGroundTruth.
Record t : Type := mk {
  ticket_id : string;
  truly_incomplete : bool;
  labeled_by : option string;
  labeled_at : Z;
  notes : option string
}.
End TicketGroundTruth.

(** The tables of the database, each keyed by its primary key.  (The table
    of language-model call logs is written by the model client only and is
    left out.) *)
Record Store : Type := {
  ticket_runs : gmap string TicketRun.t;
  processed_tickets : gmap string ProcessedTicket.t;
  ticket_ground_truth : gmap string TicketGroundTruth.t
}.

Definition empty_store : Store :=
  {| ticket_runs := ∅; processed_tickets := ∅; ticket_ground_truth := ∅ |}.

(** [datetime.utcnow()] for one repository call, and
    [datetime.fromisoformat] ([None]: [ValueError]). *)
Record Clock : Type := {
  utcnow : Z;
  fromisoformat : string -> option Z
}.

(** [get_db_session]: the body runs in a transaction that is committed when
    the body returns and rolled back when it raises.  [fault] is an
    exception raised by the database itself while the session is open
    (connection, query or commit failure); it rolls the transaction back
    too and is re-raised. *)
Definition get_db_session {A} (fault : option string)
  (body : Store -> Result (A * Store)) (db : Store) : Result A * Store :=
  match fault with
  | Some exc => (Raised exc, db)
  | None =>
      match body db with
      | Ok (a, db') => (Ok a, db')
      | Raised exc => (Raised exc, db)
      end
  end.

Definition with_ticket_runs (v : gmap string TicketRun.t) (db : Store) : Store :=
  {| ticket_runs := v;
     processed_tickets := processed_tickets db;
     ticket_ground_truth := ticket_ground_truth db |}.

Definition with_processed_tickets (v : gmap string ProcessedTicket.t)
  (db : Store) : Store :=
  {| ticket_runs := ticket_runs db;
     processed_tickets := v;
     ticket_ground_truth := ticket_ground_truth db |}.

Definition with_ticket_ground_truth (v : gmap string TicketGroundTruth.t)
  (db : Store) : Store :=
  {| ticket_runs := ticket_runs db;
     processed_tickets := processed_tickets db;
     ticket_ground_truth := v |}.

(** [init_db]: creates the tables when they do not exist yet. *)
Definition init_db (fault : option string) (db : Store) : Result unit * Store :=
  match fault with
  | Some exc => (Raised exc, db)
  | None => (Ok tt, db)
  end.

Module TicketRepository.

Definition is_ticket_processed (fault : option string) (ticket_id : string)
  : Store -> Result bool * Store :=
  get_db_session fault (fun session =>
    match processed_tickets session !! ticket_id with
    | None => Ok (false, session)
    | Some row => Ok (negb (ProcessedTicket.reprocess_requested row), session)
    end).

Definition mark_ticket_queued (fault : option string) (clock : Clock)
  (ticket_id run_id : string) : Store -> Result unit * Store :=
  get_db_session fault (fun session =>
    match processed_tickets session !! ticket_id with
    | Some existing =>
        let existing :=
          ProcessedTicket.mk (ProcessedTicket.ticket_id existing)
            (ProcessedTicket.first_seen_at existing) (Some run_id) false in
        Ok (tt, with_processed_tickets
                  (<[ticket_id := existing]> (processed_tickets session))
                  session)
    | None =>
        let row := ProcessedTicket.mk ticket_id (utcnow clock) (Some run_id) false in
        Ok (tt, with_processed_tickets
                  (<[ticket_id := row]> (processed_tickets session)) session)
    end).

(** A second row with the same primary key fails at commit. *)
Definition create_run (fault : option string) (clock : Clock)
  (run_id ticket_id : string) : Store -> Result unit * Store :=
  get_db_session fault (fun session =>
    match ticket_runs session !! run_id with
    | Some _ => Raised "UNIQUE constraint failed: ticket_runs.id"
    | None =>
        let row :=
          TicketRun.mk run_id ticket_id RunStatus.RUNNING (utcnow clock) None
            None None false false false false None None None
            PROutcome.NOT_CREATED None 0%Z 0%Z false None None None in
        Ok (tt, with_ticket_runs (<[run_id := row]> (ticket_runs session))
                  session)
    end).

Definition update_run (fault : option string) (run_id : string)
  (kwargs : list Kwarg.t) : Store -> Result unit * Store :=
  get_db_session fault (fun session =>
    match ticket_runs session !! run_id with
    | Some run =>
        let run := foldl TicketRun.setattr run kwargs in
        Ok (tt, with_ticket_runs (<[run_id := run]> (ticket_runs session))
                  session)
    | None => Ok (tt, session)
    end).

(** [_serialise_state]: the state with every payload dumped to plain data;
    the records of this embedding are plain data already. *)
Definition _serialise_state (state : WorkflowState.t) : WorkflowState.t := state.

(** The keyword arguments [finalize_run] builds ([updates]); parsing
    [started_at] may raise. *)
Definition finalize_updates (clock : Clock) (state : WorkflowState.t)
  : Result (list Kwarg.t) :=
  let phase := default WorkflowPhase.COMPLETED (WorkflowState.current_phase state) in
  let errors := WorkflowState.errors state in
  let error_occurred := match errors with [] => false | _ => true end in
  let completeness := WorkflowState.completeness_result state in
  let pr_result := WorkflowState.pr_result state in
  let started_at_str := WorkflowState.started_at state in
  bind (if truthy_str started_at_str
        then match fromisoformat clock (default "" started_at_str) with
             | Some dt => Ok dt
             | None => Raised "Invalid isoformat string"
             end
        else Ok (utcnow clock)) (fun started_dt =>
  let duration := ((utcnow clock - started_dt) # 1000000)%Q in
  let status :=
    if error_occurred then RunStatus.FAILED
    else match WorkflowState.is_complete_ticket state with
         | Some false => RunStatus.COMPLETED_INCOMPLETE
         | _ => RunStatus.COMPLETED_COMPLETE
         end in
  let '(pr_url, pr_number, pr_branch, pr_outcome) :=
    match pr_result with
    | Some pr_result =>
        (PRCompositionResult.pr_url pr_result,
         PRCompositionResult.pr_number pr_result,
         PRCompositionResult.branch_name pr_result,
         if truthy_str (PRCompositionResult.pr_url pr_result)
         then PROutcome.PENDING else PROutcome.NOT_CREATED)
    | None => (None, None, None, PROutcome.NOT_CREATED)
    end in
  Ok [ Kwarg.status status;
       Kwarg.completed_at (Some (utcnow clock));
       Kwarg.completeness_score
         (CompletenessResult.completeness_score <$> completeness);
       Kwarg.ticket_deemed_incomplete
         ((fun c => String.eqb
                      (CompletenessDecision.value (CompletenessResult.decision c))
                      "incomplete") <$> completeness);
       Kwarg.clarification_comment_posted
         (from_option CompletenessResult.jira_comment_posted false completeness);
       Kwarg.implementation_plan_generated
         (bool_decide (is_Some (WorkflowState.implementation_plan state)));
       Kwarg.code_proposal_generated
         (bool_decide (is_Some (WorkflowState.code_proposal state)));
       Kwarg.tests_suggested
         (bool_decide (is_Some (WorkflowState.test_suggestions state)));
       Kwarg.pr_url pr_url;
       Kwarg.pr_number pr_number;
       Kwarg.pr_branch pr_branch;
       Kwarg.pr_outcome pr_outcome;
       Kwarg.total_duration_seconds (Some duration);
       Kwarg.total_llm_calls (default 0%Z (WorkflowState.total_llm_calls state));
       Kwarg.total_tokens_used (default 0%Z (WorkflowState.total_tokens_used state));
       Kwarg.error_occurred error_occurred;
       Kwarg.error_phase
         (if error_occurred then Some (WorkflowPhase.str phase) else None);
       Kwarg.error_message
         (match errors with
          | [] => None
          | _ => Some (String.concat "; " errors)
          end);
       Kwarg.final_state_snapshot (Some (_serialise_state state)) ]).

Definition finalize_run (fault : option string) (clock : Clock)
  (run_id : string) (state : WorkflowState.t) (db : Store)
  : Result unit * Store :=
  match finalize_updates clock state with
  | Raised exc => (Raised exc, db)
  | Ok updates => update_run fault run_id updates db
  end.

Definition request_reprocess (fault : option string) (ticket_id : string)
  : Store -> Result unit * Store :=
  get_db_session fault (fun session =>
    match processed_tickets session !! ticket_id with
    | Some row =>
        let row :=
          ProcessedTicket.mk (ProcessedTicket.ticket_id row)
            (ProcessedTicket.first_seen_at row)
            (ProcessedTicket.last_run_id row) true in
        Ok (tt, with_processed_tickets
                  (<[ticket_id := row]> (processed_tickets session)) session)
    | None => Ok (tt, session)
    end).

Definition set_pr_outcome (fault : option string) (run_id : string)
  (outcome : PROutcome.t) : Store -> Result unit * Store :=
  update_run fault run_id [Kwarg.pr_outcome outcome].

Definition set_ground_truth (fault : option string) (clock : Clock)
  (ticket_id : string) (truly_incomplete : bool)
  (labeled_by notes : option string) : Store -> Result unit * Store :=
  get_db_session fault (fun session =>
    let row :=
      TicketGroundTruth.mk ticket_id truly_incomplete labeled_by
        (utcnow clock) notes in
    Ok (tt, with_ticket_ground_truth
              (<[ticket_id := row]> (ticket_ground_truth session)) session)).

(** [select(TicketRun).where(TicketRun.pr_outcome == PROutcome.PENDING)];
    the rows are detached copies. *)
Definition get_pending_pr_runs (fault : option string)
  : Store -> Result (list TicketRun.t) * Store :=
  get_db_session fault (fun session =>
    Ok (List.filter
          (fun run =>
             match TicketRun.pr_outcome run with
             | PROutcome.PENDING => true
             | _ => false
             end)
          (map_to_list (ticket_runs session)).*2,
        session)).

End TicketRepository.

(** ** The run entry point ([agents/supervisor.py]) *)

(** What the process environment supplies to one call of [run_workflow]:
    the fresh run id, the clock readings of the two repository phases and
    the database failures, if any, met by each repository call. *)
Record Env : Type := {
  uuid4 : string;
  clock_at_start : Clock;
  clock_at_end : Clock;
  init_db_fault : option string;
  create_run_fault : option string;
  mark_ticket_queued_fault : option string;
  finalize_run_fault : option string
}.

Definition initial_state (w : World) (run_id ticket_id : string)
  : WorkflowState.t :=
  WorkflowState.mk (Some run_id) (Some ticket_id) (Some (now_at_start w))
    None None None None None None None None
    (Some WorkflowPhase.FETCHING_TICKET) None (Some false)
    [] [] [] None (Some 0%Z) (Some 0%Z).

(** The first [try] block: the state the graph returns, or the failed
    state built from the initial one when [invoke] raises. *)
Definition try_invoke (w : World) (stages : Stages)
  (initial_state : WorkflowState.t) : WorkflowState.t :=
  match invoke w stages initial_state with
  | Ok final_state => final_state
  | Raised exc =>
      WorkflowState.with_completed_at (now_at_end w)
        (WorkflowState.with_errors [exc]
           (WorkflowState.with_current_phase WorkflowPhase.FAILED
              initial_state))
  end.

Definition run_workflow (env : Env) (w : World) (stages : Stages)
  (ticket_id : string) (db : Store) : Result WorkflowState.t * Store :=
  let run_id := uuid4 env in
  match init_db (init_db_fault env) db with
  | (Raised exc, db) => (Raised exc, db)
  | (Ok _, db) =>
  match TicketRepository.create_run (create_run_fault env)
          (clock_at_start env) run_id ticket_id db with
  | (Raised exc, db) => (Raised exc, db)
  | (Ok _, db) =>
  match TicketRepository.mark_ticket_queued (mark_ticket_queued_fault env)
          (clock_at_start env) ticket_id run_id db with
  | (Raised exc, db) => (Raised exc, db)
  | (Ok _, db) =>
      let initial_state := initial_state w run_id ticket_id in
      let final_state := try_invoke w stages initial_state in
      (* try: finalize_run(...)  except Exception: log *)
      let db :=
        snd (TicketRepository.finalize_run (finalize_run_fault env)
               (clock_at_end env) run_id final_state db) in
      (Ok final_state, db)
  end end end.

(** ** The KPI collector ([metrics/poc_metrics.py]) *)

Module POCMetrics.
Record t : Type := mk {
  total_prs_created : nat;
  total_prs_resolved : nat;
  total_prs_approved : nat;
  pr_approval_rate : Q;
  kpi1_met : bool;
  total_tickets_processed : nat;
  total_detected_incomplete : nat;
  total_ground_truth_incomplete : nat;
  true_positive_detections : nat;
  incomplete_detection_rate : Q;
  kpi2_met : bool;
  kpi2_note : string;
  total_runs : nat;
  total_error_runs : nat;
  consecutive_error_free_runs : nat;
  kpi3_met : bool
}.

(** [POCMetrics()] *)
Definition new : t :=
  mk 0 0 0 0%Q false 0 0 0 0 0%Q false "" 0 0 0 false.
End POCMetrics.

Module POCMetricsCollector.

(** The rows of a table. *)
Definition rows {V} (table : gmap string V) : list V :=
  (map_to_list table).*2.

(** [select(func.count(...)).where(p)] *)
Definition count_where {V} (p : V -> bool) (table : gmap string V) : nat :=
  length (List.filter p (rows table)).

Definition _compute_kpi2 (session : Store) (m : POCMetrics.t)
  : Result POCMetrics.t :=
  let total_tickets_processed := count_where (fun _ => true) (ticket_runs session) in
  let total_detected_incomplete :=
    count_where (fun tr => truthy (TicketRun.ticket_deemed_incomplete tr))
      (ticket_runs session) in
  let total_ground_truth_incomplete :=
    count_where TicketGroundTruth.truly_incomplete
      (ticket_ground_truth session) in
  bind
    (match total_ground_truth_incomplete with
     | O =>
         Ok (POCMetrics.true_positive_detections m, 0%Q,
             ("No ground-truth labels found. "
              ++ "Use 'python -m metrics.label_ticket TICKET-ID --truly-incomplete' to add labels.")%string)
     | _ =>
         (* SELECT COUNT(DISTINCT tr.ticket_id) FROM ticket_runs tr
            JOIN ticket_ground_truth gt ON tr.ticket_id = gt.ticket_id
            WHERE tr.ticket_deemed_incomplete = 1 AND gt.truly_incomplete = 1 *)
         let joined :=
           List.filter
             (fun tr =>
                truthy (TicketRun.ticket_deemed_incomplete tr)
                && match ticket_ground_truth session !! TicketRun.ticket_id tr with
                   | Some gt => TicketGroundTruth.truly_incomplete gt
                   | None => false
                   end)
             (rows (ticket_runs session)) in
         let true_positive_detections :=
           size (list_to_set (TicketRun.ticket_id <$> joined) : gset string) in
         bind (truediv true_positive_detections total_ground_truth_incomplete)
              (fun rate => Ok (true_positive_detections, rate, ""))
     end)
    (fun '(true_positive_detections, incomplete_detection_rate, kpi2_note) =>
       Ok (POCMetrics.mk
             (POCMetrics.total_prs_created m) (POCMetrics.total_prs_resolved m)
             (POCMetrics.total_prs_approved m) (POCMetrics.pr_approval_rate m)
             (POCMetrics.kpi1_met m)
             total_tickets_processed total_detected_incomplete
             total_ground_truth_incomplete true_positive_detections
             incomplete_detection_rate
             (Qle_bool (1 # 2)%Q incomplete_detection_rate)
             kpi2_note
             (POCMetrics.total_runs m) (POCMetrics.total_error_runs m)
             (POCMetrics.consecutive_error_free_runs m)
             (POCMetrics.kpi3_met m))).

(** [select(error_occurred, status).order_by(started_at.asc())]: the rows
    in ascending start time (rows with equal start times come in an order
    the database chooses). *)
Definition started_le (a b : TicketRun.t) : Prop :=
  (TicketRun.started_at a <= TicketRun.started_at b)%Z.

#[global] Instance started_le_dec (a b : TicketRun.t) : Decision (started_le a b) :=
  Z_le_dec (TicketRun.started_at a) (TicketRun.started_at b).

Definition runs_by_start (session : Store) : list TicketRun.t :=
  merge_sort started_le (rows (ticket_runs session)).

Definition select_error_status (session : Store) : list (bool * RunStatus.t) :=
  (fun tr => (TicketRun.error_occurred tr, TicketRun.status tr))
    <$> runs_by_start session.

(** [not run.error_occurred and run.status != RunStatus.FAILED] *)
Definition error_free (run : bool * RunStatus.t) : bool :=
  negb run.1 && negb (RunStatus.eqb run.2 RunStatus.FAILED).

(** The loop over [reversed(runs)]: count until the first run with an
    error, then [break]. *)
Fixpoint count_trailing (reversed_runs : list (bool * RunStatus.t))
  (consecutive : nat) : nat :=
  match reversed_runs with
  | [] => consecutive
  | run :: rest =>
      if error_free run then count_trailing rest (S consecutive)
      else consecutive
  end.

(** [_compute_kpi3] on the rows the query returned. *)
Definition kpi3_of_runs (runs : list (bool * RunStatus.t)) (m : POCMetrics.t)
  : POCMetrics.t :=
  let total_runs := length runs in
  let total_error_runs :=
    length (List.filter
              (fun r => r.1 || RunStatus.eqb r.2 RunStatus.FAILED) runs) in
  let consecutive := count_trailing (rev runs) 0 in
  POCMetrics.mk
    (POCMetrics.total_prs_created m) (POCMetrics.total_prs_resolved m)
    (POCMetrics.total_prs_approved m) (POCMetrics.pr_approval_rate m)
    (POCMetrics.kpi1_met m)
    (POCMetrics.total_tickets_processed m)
    (POCMetrics.total_detected_incomplete m)
    (POCMetrics.total_ground_truth_incomplete m)
    (POCMetrics.true_positive_detections m)
    (POCMetrics.incomplete_detection_rate m)
    (POCMetrics.kpi2_met m) (POCMetrics.kpi2_note m)
    total_runs total_error_runs consecutive (10 <=? consecutive)%nat.

Definition _compute_kpi3 (session : Store) (m : POCMetrics.t) : POCMetrics.t :=
  kpi3_of_runs (select_error_status session) m.

(** [_compute_kpi1].  The rate is the exact quotient; the test against
    the float literal [0.33] is the test against 33/100 (the two agree as
    long as the counts stay below 2^49). *)
Definition _compute_kpi1 (session : Store) (m : POCMetrics.t)
  : Result POCMetrics.t :=
  let total_prs_created :=
    count_where (fun tr => bool_decide (is_Some (TicketRun.pr_url tr)))
      (ticket_runs session) in
  let total_prs_approved :=
    count_where
      (fun tr => match TicketRun.pr_outcome tr with
                 | PROutcome.APPROVED | PROutcome.MERGED => true
                 | _ => false
                 end)
      (ticket_runs session) in
  let total_prs_resolved :=
    count_where
      (fun tr => match TicketRun.pr_outcome tr with
                 | PROutcome.APPROVED | PROutcome.MERGED
                 | PROutcome.REJECTED => true
                 | _ => false
                 end)
      (ticket_runs session) in
  bind (if (0 <? total_prs_resolved)%nat
        then truediv total_prs_approved total_prs_resolved
        else Ok 0%Q) (fun pr_approval_rate =>
  Ok (POCMetrics.mk total_prs_created total_prs_resolved total_prs_approved
        pr_approval_rate (Qle_bool (33 # 100)%Q pr_approval_rate)
        (POCMetrics.total_tickets_processed m)
        (POCMetrics.total_detected_incomplete m)
        (POCMetrics.total_ground_truth_incomplete m)
        (POCMetrics.true_positive_detections m)
        (POCMetrics.incomplete_detection_rate m)
        (POCMetrics.kpi2_met m) (POCMetrics.kpi2_note m)
        (POCMetrics.total_runs m) (POCMetrics.total_error_runs m)
        (POCMetrics.consecutive_error_free_runs m)
        (POCMetrics.kpi3_met m))).

End POCMetricsCollector.

(** The longest path of the graph from each node, in nodes. *)
Definition rank (n : Node.t) : nat :=
  match n with
  | Node.fetch_ticket => 9
  | Node.completeness_check => 8
  | Node.repo_scout => 7
  | Node.confluence_docs => 6
  | Node.planner => 5
  | Node.code_proposal => 4
  | Node.test_suggestion => 3
  | Node.pr_composer => 2
  | Node.post_clarification => 2
  | Node.end_workflow => 1
  end.

(** ** Well-formedness of the inputs *)

(** [started_at] is absent, empty or an ISO-8601 timestamp, as the
    declaration of [WorkflowState] says it is. *)
Definition started_at_iso8601 (clock : Clock) (state : WorkflowState.t) : bool :=
  negb (truthy_str (WorkflowState.started_at state))
  || bool_decide
       (is_Some (fromisoformat clock
                   (default "" (WorkflowState.started_at state)))).

(** ** Concrete inputs used by the examples *)

Definition demo_clock : Clock :=
  {| utcnow := 1700000060000000;
     fromisoformat := fun _ => Some 1700000000000000%Z |}.

Definition healthy_env : Env :=
  {| uuid4 := "run-0001";
     clock_at_start := demo_clock;
     clock_at_end := demo_clock;
     init_db_fault := None;
     create_run_fault := None;
     mark_ticket_queued_fault := None;
     finalize_run_fault := None |}.

(** A world whose ticket tracker does not know the ticket. *)
Definition ticket_not_found_world : World :=
  {| completeness_threshold := (65 # 100)%Q;
     dry_run := false;
     confluence_url := "";
     _fetch_ticket_via_mcp := fun ticket_id =>
       Raised ("Ticket " ++ ticket_id ++ " not found via JQL search");
     _post_jira_comment := fun _ _ => Ok (Some "10001");
     _apply_jira_label := fun _ _ => Ok tt;
     llm_completeness := fun _ => Raised "model unavailable";
     llm_repo_scout := fun _ => Raised "model unavailable";
     llm_confluence := fun _ => Raised "model unavailable";
     llm_planner := fun _ _ _ => Raised "model unavailable";
     llm_code_proposal := fun _ _ _ => Raised "model unavailable";
     llm_tests := fun _ _ _ => Raised "model unavailable";
     pr_composer_node := fun _ =>
       Ok (Agents.failed_update "pr_composer: missing required state");
     now_at_start := "2023-11-14T22:13:20+00:00";
     now_at_end := "2023-11-14T22:14:20+00:00" |}.


(** A store holding the record of one running run. *)
Definition one_run_store : Store :=
  snd (TicketRepository.create_run None demo_clock "run-0001" "PROJ-1"
         empty_store).

(** Final states of a run that recorded an error, of one that judged the
    ticket incomplete, and of one that completed the pipeline. *)
Definition errored_state : WorkflowState.t :=
  WorkflowState.with_errors ["ticket_fetcher: timeout"]
    (WorkflowState.with_is_complete_ticket (Some false)
       (WorkflowState.with_started_at "2023-11-14T22:13:20+00:00"
          WorkflowState.empty)).

(** Four persisted runs, in start-time order: failed, ok, ok, ok. *)
Definition run_row (id : string) (started_at : Z) (status : RunStatus.t)
  (error_occurred : bool) : TicketRun.t :=
  TicketRun.mk id ("T-" ++ id) status started_at None None None false false
    false false None None None PROutcome.NOT_CREATED None 0%Z 0%Z
    error_occurred None None None.

Definition kpi3_scenario_store : Store :=
  with_ticket_runs
    (<["r3" := run_row "r3" 40 RunStatus.COMPLETED_COMPLETE false]>
       (<["r0" := run_row "r0" 10 RunStatus.FAILED true]>
          (<["r2" := run_row "r2" 30 RunStatus.COMPLETED_INCOMPLETE false]>
             (<["r1" := run_row "r1" 20 RunStatus.COMPLETED_COMPLETE false]> ∅))))
    empty_store.

(** ** Notions of the specification *)

(** A true positive of the incomplete-detection KPI: a ticket some run
    flagged incomplete and the ground truth labels truly incomplete. *)
Definition true_positive (session : Store) (ticket_id : string) : Prop :=
  (exists tr, tr ∈ POCMetricsCollector.rows (ticket_runs session)
     /\ TicketRun.ticket_id tr = ticket_id
     /\ TicketRun.ticket_deemed_incomplete tr = Some true)
  /\ (exists gt, ticket_ground_truth session !! ticket_id = Some gt
        /\ TicketGroundTruth.truly_incomplete gt = true).

(** The environment [env] with the database failing, or not, at
    [create_run] and at [finalize_run]. *)
Definition with_create_run_fault (fault : option string) (env : Env) : Env :=
  {| uuid4 := uuid4 env;
     clock_at_start := clock_at_start env;
     clock_at_end := clock_at_end env;
     init_db_fault := init_db_fault env;
     create_run_fault := fault;
     mark_ticket_queued_fault := mark_ticket_queued_fault env;
     finalize_run_fault := finalize_run_fault env |}.

Definition with_finalize_run_fault (fault : option string) (env : Env) : Env :=
  {| uuid4 := uuid4 env;
     clock_at_start := clock_at_start env;
     clock_at_end := clock_at_end env;
     init_db_fault := init_db_fault env;
     create_run_fault := create_run_fault env;
     mark_ticket_queued_fault := mark_ticket_queued_fault env;
     finalize_run_fault := fault |}.

(** The start-up of [run_workflow] meets no database failure and the run
    id is fresh. *)
Definition startup_ok (env : Env) (db : Store) : Prop :=
  init_db_fault env = None
  /\ create_run_fault env = None
  /\ mark_ticket_queued_fault env = None
  /\ ticket_runs db !! uuid4 env = None.

(** The terminal phases. *)
Definition terminal_phase (phase : option WorkflowPhase.t) : Prop :=
  phase = Some WorkflowPhase.COMPLETED \/ phase = Some WorkflowPhase.FAILED.

(** Stage bodies that raise an unexpected exception. *)
Definition raising_stages : Stages :=
  fun _ _ => Raised "'NoneType' object has no attribute 'title'".

(** The database is locked when the run record is to be inserted. *)
Definition locked_at_create_env : Env :=
  with_create_run_fault (Some "(sqlite3.OperationalError) database is locked")
    healthy_env.

(** The database is locked when the run is to be finalized. *)
Definition locked_at_finalize_env : Env :=
  with_finalize_run_fault (Some "(sqlite3.OperationalError) database is locked")
    healthy_env.

(** The result slots of the stages after the ticket fetch. *)
Definition later_slots_empty (state : WorkflowState.t) : Prop :=
  WorkflowState.completeness_result state = None
  /\ WorkflowState.repo_context state = None
  /\ WorkflowState.confluence_context state = None
  /\ WorkflowState.implementation_plan state = None
  /\ WorkflowState.code_proposal state = None
  /\ WorkflowState.test_suggestions state = None
  /\ WorkflowState.pr_result state = None.

(** The entries of [errors] that start with [prefix]. *)
Definition entries_prefixed (prefix : string) (errors : list string)
  : list string :=
  List.filter (String.prefix prefix) errors.

(** What the end-to-end failure scenario expects of the final state of a
    run whose ticket fetch failed. *)
Definition failed_fetch_report (final : WorkflowState.t) : Prop :=
  WorkflowState.current_phase final = Some WorkflowPhase.FAILED
  /\ WorkflowState.should_stop final = Some true
  /\ length (entries_prefixed "ticket_fetcher" (WorkflowState.errors final)) = 1
  /\ later_slots_empty final.

(** The stage contract, as far as [should_stop] goes, for the one stage
    body that comes from the world: it never resets the flag. *)
Definition pr_composer_contract (w : World) : Prop :=
  forall state update,
    pr_composer_node w state = Ok update ->
    WorkflowState.should_stop update <> Some false.

(** The stages of the pipeline behind the scouting branch. *)
Definition pipeline_stages : list Node.t :=
  [Node.repo_scout; Node.confluence_docs; Node.planner; Node.code_proposal;
   Node.test_suggestion; Node.pr_composer].

(** ** Further notions used by the properties of the executor *)

(** The static successors of a node in [build_graph]. *)
Definition successors (n : Node.t) : list Node.t :=
  match n with
  | Node.fetch_ticket => [Node.completeness_check]
  | Node.completeness_check => [Node.post_clarification; Node.repo_scout]
  | Node.post_clarification => [Node.end_workflow]
  | Node.repo_scout => [Node.confluence_docs]
  | Node.confluence_docs => [Node.planner]
  | Node.planner => [Node.code_proposal]
  | Node.code_proposal => [Node.test_suggestion]
  | Node.test_suggestion => [Node.pr_composer]
  | Node.pr_composer => [Node.end_workflow]
  | Node.end_workflow => []
  end.

(** The node sequences from [n] to [END], following [successors]. *)
Fixpoint paths_from (fuel : nat) (n : Node.t) : list (list Node.t) :=
  match fuel with
  | O => []
  | S fuel =>
      match successors n with
      | [] => [[n]]
      | nexts => (cons n) <$> concat (paths_from fuel <$> nexts)
      end
  end.

Definition clarification_path : list Node.t :=
  [Node.fetch_ticket; Node.completeness_check; Node.post_clarification;
   Node.end_workflow].

Definition pipeline_path : list Node.t :=
  [Node.fetch_ticket; Node.completeness_check; Node.repo_scout;
   Node.confluence_docs; Node.planner; Node.code_proposal;
   Node.test_suggestion; Node.pr_composer; Node.end_workflow].

(** The path of the run that a routing decision selects. *)
Definition routed_path (b : Branch.t) : list Node.t :=
  match b with
  | Branch.post_clarification => clarification_path
  | Branch.repo_scout => pipeline_path
  end.

(** The audit lists of [later] extend those of [earlier]. *)
Definition audit_extends (earlier later : WorkflowState.t) : Prop :=
  WorkflowState.errors earlier `prefix_of` WorkflowState.errors later
  /\ WorkflowState.llm_call_ids earlier `prefix_of` WorkflowState.llm_call_ids later
  /\ WorkflowState.mcp_tool_calls earlier `prefix_of` WorkflowState.mcp_tool_calls later.

(** The name each stage of the sources puts in front of its error
    entries ([None]: the stage writes no such entry or is not in the
    sources). *)
Definition stage_name (n : Node.t) : option string :=
  match n with
  | Node.fetch_ticket => Some "ticket_fetcher"
  | Node.completeness_check => Some "completeness_agent"
  | Node.post_clarification => Some "post_clarification"
  | Node.repo_scout => Some "repo_scout"
  | Node.confluence_docs => Some "confluence_agent"
  | Node.planner => Some "planner"
  | Node.code_proposal => Some "code_proposal"
  | Node.test_suggestion => Some "test_agent"
  | Node.pr_composer => None
  | Node.end_workflow => None
  end.

(** The stages that report an expected failure by stopping the run. *)
Definition stopping_stages : list Node.t :=
  [Node.fetch_ticket; Node.completeness_check; Node.repo_scout;
   Node.confluence_docs; Node.planner; Node.code_proposal;
   Node.test_suggestion].

(** No result slot is written by the update. *)
Definition no_slot_written (update : WorkflowState.t) : Prop :=
  WorkflowState.ticket_context update = None /\ later_slots_empty update.

(** The update leaves the identity of the run alone. *)
Definition keeps_identity (update : WorkflowState.t) : Prop :=
  WorkflowState.run_id update = None
  /\ WorkflowState.ticket_id update = None
  /\ WorkflowState.started_at update = None.

(** The call counter agrees with the list of call ids. *)
Definition calls_counted (state : WorkflowState.t) : Prop :=
  default 0%Z (WorkflowState.total_llm_calls state)
  = Z.of_nat (length (WorkflowState.llm_call_ids state)).

(** A ticket context and a completeness verdict for the examples. *)
Definition demo_ticket : TicketContext :=
  {| tc_ticket_id := "PROJ-1"; tc_title := "Add user authentication" |}.

Definition demo_verdict (decision : CompletenessDecision.t) (score : Q)
  : CompletenessResult.t :=
  CompletenessResult.mk "" decision score [] false None.

(** A world in which the ticket is found and judged complete, while the
    model fails in the later stages. *)
Definition complete_ticket_world : World :=
  {| completeness_threshold := (65 # 100)%Q;
     dry_run := false;
     confluence_url := "";
     _fetch_ticket_via_mcp := fun _ => Ok demo_ticket;
     _post_jira_comment := fun _ _ => Ok (Some "10001");
     _apply_jira_label := fun _ _ => Raised "label rejected";
     llm_completeness := fun _ =>
       Ok (Some (demo_verdict CompletenessDecision.COMPLETE (9 # 10)%Q),
           "call-1");
     llm_repo_scout := fun _ => Raised "Bedrock timeout";
     llm_confluence := fun _ => Raised "Bedrock timeout";
     llm_planner := fun _ _ _ => Raised "Bedrock timeout";
     llm_code_proposal := fun _ _ _ => Raised "Bedrock timeout";
     llm_tests := fun _ _ _ => Raised "Bedrock timeout";
     pr_composer_node := fun _ =>
       Ok (Agents.failed_update "pr_composer: missing required state");
     now_at_start := "2023-11-14T22:13:20+00:00";
     now_at_end := "2023-11-14T22:14:20+00:00" |}.

(** The state handed to the completeness stage once the ticket is there. *)
Definition fetched_state : WorkflowState.t :=
  WorkflowState.with_ticket_context demo_ticket
    (initial_state complete_ticket_world "run-0001" "PROJ-1").

(** ** Further notions used by the properties of the repository *)

(** Every run record is stored under its own id (the primary key). *)
Definition store_wf (db : Store) : Prop :=
  forall key run, ticket_runs db !! key = Some run -> TicketRun.id run = key.

(** The two stores differ at most in the run record [run_id]. *)
Definition same_but_run (run_id : string) (db db' : Store) : Prop :=
  (forall other, other <> run_id ->
     ticket_runs db' !! other = ticket_runs db !! other)
  /\ processed_tickets db' = processed_tickets db
  /\ ticket_ground_truth db' = ticket_ground_truth db.

(** The two stores differ at most in the marker of [ticket_id]. *)
Definition same_but_marker (ticket_id : string) (db db' : Store) : Prop :=
  (forall other, other <> ticket_id ->
     processed_tickets db' !! other = processed_tickets db !! other)
  /\ ticket_runs db' = ticket_runs db
  /\ ticket_ground_truth db' = ticket_ground_truth db.

(** The record a run starts with. *)
Definition running_record (clock : Clock) (run_id ticket_id : string)
  : TicketRun.t :=
  TicketRun.mk run_id ticket_id RunStatus.RUNNING (utcnow clock) None None
    None false false false false None None None PROutcome.NOT_CREATED None
    0%Z 0%Z false None None None.

(** A final state with a created pull request. *)
Definition demo_pr : PRCompositionResult.t :=
  PRCompositionResult.mk "PROJ-1" (Some "https://github.com/org/repo/pull/7")
    (Some 7%Z) (Some "feature/PROJ-1") "PROJ-1: Add user authentication".

Definition pr_created_state : WorkflowState.t :=
  WorkflowState.with_pr_result demo_pr
    (WorkflowState.with_is_complete_ticket (Some true)
       (WorkflowState.with_started_at "2023-11-14T22:13:20+00:00"
          WorkflowState.empty)).

(** ** The pull-request reconciler ([scheduler/pr_reconciler.py]) *)

(** The fields of the code host's answer that [_check_pr_state] reads:
    the truth value of ["merged"], ["state"], and the ["state"] of each
    review. *)
Record PullRequestData : Type := {
  merged : bool;
  state : string;
  reviews : list (option string)
}.

(** The tool whose name contains [get_pull_request], when there is one;
    its answer is [Ok None] when it is not a dict. *)
Definition GetPullRequest : Type :=
  option (Z -> Result (option PullRequestData)).

Module PRReconciler.

Definition _check_pr_state (get_pr_tool : GetPullRequest) (pr_number : Z)
  : PROutcome.t :=
  match get_pr_tool with
  | None => PROutcome.PENDING
  | Some get_pr_tool =>
      match get_pr_tool pr_number with
      | Ok (Some pr_data) =>
          if merged pr_data then PROutcome.MERGED
          else if String.eqb (state pr_data) "closed" then PROutcome.REJECTED
          else if existsb
                    (fun r => match r with
                              | Some s => String.eqb s "APPROVED"
                              | None => false
                              end)
                    (reviews pr_data)
               then PROutcome.APPROVED
               else PROutcome.PENDING
      | Ok None => PROutcome.PENDING
      | Raised _ => PROutcome.PENDING
      end
  end.

(** The loop of [_reconcile_all] over the pending runs; [set_fault] tells
    for each run whether the database fails when its outcome is written. *)
Fixpoint reconcile_loop (get_pr_tool : GetPullRequest)
  (set_fault : string -> option string) (pending_runs : list TicketRun.t)
  (db : Store) : Result unit * Store :=
  match pending_runs with
  | [] => (Ok tt, db)
  | run :: pending_runs =>
      match TicketRun.pr_number run with
      | None | Some 0%Z => reconcile_loop get_pr_tool set_fault pending_runs db
      | Some pr_number =>
          let outcome := _check_pr_state get_pr_tool pr_number in
          match outcome with
          | PROutcome.PENDING =>
              reconcile_loop get_pr_tool set_fault pending_runs db
          | _ =>
              match TicketRepository.set_pr_outcome
                      (set_fault (TicketRun.id run)) (TicketRun.id run)
                      outcome db with
              | (Raised exc, db) => (Raised exc, db)
              | (Ok _, db) =>
                  reconcile_loop get_pr_tool set_fault pending_runs db
              end
          end
      end
  end.

(** [mcp] is what opening the tool client gives: the pull-request tool, or
    an exception. *)
Definition _reconcile_all (pending_fault : option string)
  (mcp : Result GetPullRequest) (set_fault : string -> option string)
  (db : Store) : Result unit * Store :=
  match TicketRepository.get_pending_pr_runs pending_fault db with
  | (Raised exc, db) => (Raised exc, db)
  | (Ok [], db) => (Ok tt, db)
  | (Ok pending_runs, db) =>
      match mcp with
      | Raised exc => (Raised exc, db)
      | Ok get_pr_tool => reconcile_loop get_pr_tool set_fault pending_runs db
      end
  end.

(** [reconcile_pr_outcomes]: every exception is caught and logged. *)
Definition reconcile_pr_outcomes (pending_fault : option string)
  (mcp : Result GetPullRequest) (set_fault : string -> option string)
  (db : Store) : Store :=
  (_reconcile_all pending_fault mcp set_fault db).2.

End PRReconciler.

(** A resolved outcome of a pull request. *)
Definition resolved (outcome : PROutcome.t) : Prop :=
  outcome = PROutcome.MERGED \/ outcome = PROutcome.REJECTED
  \/ outcome = PROutcome.APPROVED.

(** A code host on which pull request 7 is merged and closed. *)
Definition merged_pr_tool : GetPullRequest :=
  Some (fun pr_number =>
          if (pr_number =? 7)%Z
          then Ok (Some {| merged := true; state := "closed";
                           reviews := [Some "APPROVED"] |})
          else Raised "Not Found").

(** A store with one finalized run whose pull request is pending. *)
Definition pending_pr_store : Store :=
  (TicketRepository.finalize_run None demo_clock "run-0001" pr_created_state
     one_run_store).2.

(** [db'] is [db] with some pending pull requests resolved as the code
    host says: each record is unchanged, or it was pending with a non-zero
    pull-request number and now carries the resolved outcome
    [_check_pr_state] gave for it, all other columns being the same. *)
Definition reconciled_from (get_pr_tool : GetPullRequest) (db db' : Store)
  : Prop :=
  processed_tickets db' = processed_tickets db
  /\ ticket_ground_truth db' = ticket_ground_truth db
  /\ forall key,
       match ticket_runs db !! key with
       | None => ticket_runs db' !! key = None
       | Some run =>
           ticket_runs db' !! key = Some run
           \/ (TicketRun.pr_outcome run = PROutcome.PENDING
               /\ exists pr_number outcome,
                    TicketRun.pr_number run = Some pr_number
                    /\ pr_number <> 0%Z
                    /\ outcome
                       = PRReconciler._check_pr_state get_pr_tool pr_number
                    /\ resolved outcome
                    /\ ticket_runs db' !! key
                       = Some (TicketRun.setattr run
                                 (Kwarg.pr_outcome outcome)))
       end.

(** ** Stores used by the examples of the KPI properties *)

(** Two approved pull requests and a rejected one. *)
Definition pr_row (id : string) (outcome : PROutcome.t) : TicketRun.t :=
  TicketRun.mk id ("T-" ++ id) RunStatus.COMPLETED_COMPLETE 10 None None None
    false true true true (Some ("https://github.com/pr/" ++ id)%string) (Some 1%Z)
    None outcome None 0%Z 0%Z false None None None.

Definition kpi1_scenario_store : Store :=
  with_ticket_runs
    (<["r1" := pr_row "r1" PROutcome.APPROVED]>
       (<["r2" := pr_row "r2" PROutcome.APPROVED]>
          (<["r3" := pr_row "r3" PROutcome.REJECTED]> ∅)))
    empty_store.

(** Two tickets labelled truly incomplete, one of them flagged by a run. *)
Definition flagged_row (id ticket_id : string) (flagged : option bool)
  : TicketRun.t :=
  TicketRun.mk id ticket_id RunStatus.COMPLETED_INCOMPLETE 10 None None
    flagged false false false false None None None PROutcome.NOT_CREATED None
    0%Z 0%Z false None None None.

Definition kpi2_scenario_store : Store :=
  {| ticket_runs :=
       <["r1" := flagged_row "r1" "T-1" (Some true)]>
         (<["r2" := flagged_row "r2" "T-1" (Some true)]>
            (<["r3" := flagged_row "r3" "T-2" (Some false)]> ∅));
     processed_tickets := ∅;
     ticket_ground_truth :=
       <["T-1" := TicketGroundTruth.mk "T-1" true None 0 None]>
         (<["T-2" := TicketGroundTruth.mk "T-2" true None 0 None]> ∅) |}.

(** ** The poller ([scheduler/poller.py]) *)

(** What the search for ready tickets gives: no search tool among the
    tools, an exception (from the client or the tool), an answer that is no
    dict, or the issues of the answer with their ["key"] fields. *)
Inductive SearchAnswer : Type :=
| no_search_tool
| search_raised (exc : string)
| not_a_dict
| issues (keys : list (option string)).

Module Poller.

(** [[tid for tid in all_ids if not _repo.is_ticket_processed(tid)]];
    [fault] tells for each ticket whether the database fails on it. *)
Fixpoint unprocessed (fault : string -> option string) (db : Store)
  (all_ids : list string) : Result (list string) :=
  match all_ids with
  | [] => Ok []
  | tid :: all_ids =>
      match TicketRepository.is_ticket_processed (fault tid) tid db with
      | (Raised exc, _) => Raised exc
      | (Ok processed, _) =>
          bind (unprocessed fault db all_ids) (fun rest =>
          Ok (if processed then rest else tid :: rest))
      end
  end.

(** [[issue.get("key", "") for issue in issues if issue.get("key")]] *)
Definition all_ids (keys : list (option string)) : list string :=
  omap (fun key => if truthy_str key then key else None) keys.

Definition _fetch_ready_ticket_ids (search : SearchAnswer)
  (fault : string -> option string) (db : Store) : Result (list string) :=
  match search with
  | no_search_tool => Ok []
  | search_raised exc => Raised exc
  | not_a_dict => unprocessed fault db (all_ids [])
  | issues keys => unprocessed fault db (all_ids keys)
  end.

(** The loop of [poll_and_trigger]: one run per ticket, each in its own
    environment and world; an exception of [run_workflow] is caught and
    logged. *)
Fixpoint trigger (run_of : nat -> Env * World) (k : nat)
  (ticket_ids : list string) (db : Store) : Store :=
  match ticket_ids with
  | [] => db
  | ticket_id :: ticket_ids =>
      let '(env, w) := run_of k in
      let db := (run_workflow env w (source_stages w) ticket_id db).2 in
      trigger run_of (S k) ticket_ids db
  end.

Definition poll_and_trigger (search : SearchAnswer)
  (fault : string -> option string) (run_of : nat -> Env * World)
  (db : Store) : Result unit * Store :=
  match _fetch_ready_ticket_ids search fault db with
  | Raised exc => (Raised exc, db)
  | Ok ticket_ids => (Ok tt, trigger run_of 0 ticket_ids db)
  end.

End Poller.

(** The ticket counts as processed in the store. *)
Definition processed (db : Store) (ticket_id : string) : Prop :=
  exists marker,
    processed_tickets db !! ticket_id = Some marker
    /\ ProcessedTicket.reprocess_requested marker = false.

(** The runs of a poll start without a database failure, under run ids
    that are new to the store and differ from each other. *)
Definition fresh_runs (run_of : nat -> Env * World) (db : Store) : Prop :=
  (forall k, init_db_fault (run_of k).1 = None
             /\ create_run_fault (run_of k).1 = None
             /\ mark_ticket_queued_fault (run_of k).1 = None)
  /\ (forall k, ticket_runs db !! uuid4 (run_of k).1 = None)
  /\ (forall j k, uuid4 (run_of j).1 = uuid4 (run_of k).1 -> j = k).

(** Environments with run ids [run-0], [run-00], [run-000], ... *)
Fixpoint zeros (k : nat) : string :=
  match k with
  | O => "0"
  | S k => ("0" ++ zeros k)%string
  end.

Definition numbered_runs (k : nat) : Env * World :=
  ({| uuid4 := "run-" ++ zeros k;
      clock_at_start := demo_clock;
      clock_at_end := demo_clock;
      init_db_fault := None;
      create_run_fault := None;
      mark_ticket_queued_fault := None;
      finalize_run_fault := None |},
   ticket_not_found_world).

(** A store in which ticket PROJ-1 is marked as processed. *)
Definition queued_store : Store :=
  snd (TicketRepository.mark_ticket_queued None demo_clock "PROJ-1" "run-0001"
         empty_store).

(** ** Gathering Confluence pages ([agents/confluence_agent.py]) *)

(** A search hit: a dict, each value by its [str]. *)
Definition Page : Type := gmap string string.

Module ConfluenceAgent.

(** [str(page.get("id", page.get("page_id", "")))] *)
Definition pid (page : Page) : string :=
  default (default "" (page !! "page_id")) (page !! "id").

(** The loop of [_gather_confluence_data] that de-duplicates the search
    hits by page id and limits their number; the test of the limit comes
    after the hit has been looked at. *)
Fixpoint unique_pages_loop (max_pages : Z) (search_results : list Page)
  (seen_ids : gset string) (unique_pages : list Page) : list Page :=
  match search_results with
  | [] => unique_pages
  | page :: search_results =>
      let pid := pid page in
      let '(seen_ids, unique_pages) :=
        if truthy_str (Some pid) && bool_decide (pid ∉ seen_ids)
        then ({[pid]} ∪ seen_ids, unique_pages ++ [page])
        else (seen_ids, unique_pages) in
      if (max_pages <=? Z.of_nat (length unique_pages))%Z
      then unique_pages
      else unique_pages_loop max_pages search_results seen_ids unique_pages
  end.

Definition unique_pages (max_pages : Z) (search_results : list Page)
  : list Page :=
  unique_pages_loop max_pages search_results ∅ [].

End ConfluenceAgent.
(** * Properties *)

(** ** Routing *)

(** C3. After the completeness check: a true [should_stop] selects the
    clarification branch whatever [is_complete_ticket] is; otherwise a true
    [is_complete_ticket] selects the scouting branch; otherwise the
    clarification branch is selected. *)
Theorem route_after_completeness_order (state : WorkflowState.t) :
  (WorkflowState.should_stop state = Some true ->
   route_after_completeness state = Branch.post_clarification) /\
  (WorkflowState.should_stop state <> Some true ->
   WorkflowState.is_complete_ticket state = Some true ->
   route_after_completeness state = Branch.repo_scout) /\
  (WorkflowState.should_stop state <> Some true ->
   WorkflowState.is_complete_ticket state <> Some true ->
   route_after_completeness state = Branch.post_clarification).
Proof.
  unfold route_after_completeness.
  destruct (WorkflowState.should_stop state) as [[|]|];
    destruct (WorkflowState.is_complete_ticket state) as [[|]|];
    cbn; repeat split; intros; congruence.
Qed.

(** Both flags true at once: the clarification branch. *)
Lemma route_after_completeness_order_witness :
  route_after_completeness
    (WorkflowState.with_should_stop true
       (WorkflowState.with_is_complete_ticket (Some true) WorkflowState.empty))
  = Branch.post_clarification.
Proof.
  apply (proj1 (route_after_completeness_order
                  (WorkflowState.with_should_stop true
                     (WorkflowState.with_is_complete_ticket (Some true)
                        WorkflowState.empty)))).
  reflexivity.
Defined.

(** ** The run repository *)

Section Repository.
Import TicketRepository.

(** A healthy session commits what its body returns. *)
Lemma get_db_session_healthy {A} (body : Store -> Result (A * Store))
  (db db' : Store) (a : A) :
  body db = Ok (a, db') -> get_db_session None body db = (Ok a, db').
Proof. intros H. unfold get_db_session. by rewrite H. Qed.

(** Whatever happens, a raising session leaves the store as it was. *)
Lemma get_db_session_raised {A} fault (body : Store -> Result (A * Store))
  (db db' : Store) (exc : string) :
  get_db_session fault body db = (Raised exc, db') -> db' = db.
Proof.
  unfold get_db_session. destruct fault; [congruence|].
  destruct (body db) as [[a d]|e]; congruence.
Qed.

Lemma update_run_missing fault run_id kwargs (db : Store) :
  ticket_runs db !! run_id = None ->
  snd (update_run fault run_id kwargs db) = db /\
  (fault = None -> update_run fault run_id kwargs db = (Ok tt, db)).
Proof.
  intros Hnone. unfold update_run, get_db_session. rewrite Hnone.
  destruct fault; split; try reflexivity; intros; congruence.
Qed.

Lemma finalize_run_store_missing fault clock run_id state (db : Store) :
  ticket_runs db !! run_id = None ->
  snd (finalize_run fault clock run_id state db) = db.
Proof.
  intros Hnone. unfold finalize_run.
  destruct (finalize_updates clock state); [|reflexivity].
  by apply update_run_missing.
Qed.

Lemma finalize_updates_ok clock state :
  started_at_iso8601 clock state = true ->
  exists updates, finalize_updates clock state = Ok updates
    /\ exists status rest, updates = Kwarg.status status :: rest
    /\ Forall (fun kw => match kw with Kwarg.status _ => False | _ => True end)
              rest
    /\ status =
       match WorkflowState.errors state with
       | _ :: _ => RunStatus.FAILED
       | [] => match WorkflowState.is_complete_ticket state with
               | Some false => RunStatus.COMPLETED_INCOMPLETE
               | _ => RunStatus.COMPLETED_COMPLETE
               end
       end.
Proof.
  unfold started_at_iso8601, finalize_updates. intros Hiso.
  destruct (truthy_str (WorkflowState.started_at state)) eqn:Ht; cbn in Hiso.
  - apply bool_decide_eq_true in Hiso. destruct Hiso as [dt ->]. cbn.
    destruct (WorkflowState.pr_result state); cbn;
      eexists; (split; [reflexivity|]); do 2 eexists;
      (split; [reflexivity|]); (split; [repeat constructor|]);
      destruct (WorkflowState.errors state); reflexivity.
  - cbn.
    destruct (WorkflowState.pr_result state); cbn;
      eexists; (split; [reflexivity|]); do 2 eexists;
      (split; [reflexivity|]); (split; [repeat constructor|]);
      destruct (WorkflowState.errors state); reflexivity.
Qed.

(** Assignments to other columns leave [status] alone. *)
Lemma foldl_setattr_status (rest : list Kwarg.t) (run : TicketRun.t) :
  Forall (fun kw => match kw with Kwarg.status _ => False | _ => True end) rest ->
  TicketRun.status (foldl TicketRun.setattr run rest) = TicketRun.status run.
Proof.
  intros H. revert run. induction H as [|kw rest Hkw _ IH]; intros run.
  - reflexivity.
  - cbn. rewrite IH. destruct kw; try reflexivity. contradiction.
Qed.

End Repository.

(** C6. Marking the same ticket as queued twice, with run ids [r1] then
    [r2], leaves the ticket processed, the marker's last run id equal to
    [r2] and the reprocess flag cleared (whatever the marker was before, and
    whether or not the two ids differ). *)
Theorem mark_ticket_queued_twice (clock1 clock2 : Clock)
  (ticket_id r1 r2 : string) (db : Store) :
  exists db1 db2 row,
    TicketRepository.mark_ticket_queued None clock1 ticket_id r1 db = (Ok tt, db1)
    /\ TicketRepository.mark_ticket_queued None clock2 ticket_id r2 db1 = (Ok tt, db2)
    /\ TicketRepository.is_ticket_processed None ticket_id db2 = (Ok true, db2)
    /\ processed_tickets db2 !! ticket_id = Some row
    /\ ProcessedTicket.last_run_id row = Some r2
    /\ ProcessedTicket.reprocess_requested row = false.
Proof.
  unfold TicketRepository.mark_ticket_queued,
    TicketRepository.is_ticket_processed, get_db_session.
  destruct (processed_tickets db !! ticket_id) as [existing|] eqn:Hdb;
    do 3 eexists; (split; [reflexivity|]); cbn;
    rewrite lookup_insert_eq; (split; [reflexivity|]); cbn;
    rewrite lookup_insert_eq; cbn; repeat split; reflexivity.
Qed.

(** C4. [finalize_run] persists the status [failed] when the state's
    [errors] list is non-empty; else [completed_incomplete] when
    [is_complete_ticket] is [False]; else [completed_complete]. *)
Theorem finalize_run_status (clock : Clock) (run_id : string)
  (state : WorkflowState.t) (db : Store) (run : TicketRun.t) :
  ticket_runs db !! run_id = Some run ->
  started_at_iso8601 clock state = true ->
  exists db' run',
    TicketRepository.finalize_run None clock run_id state db = (Ok tt, db')
    /\ ticket_runs db' !! run_id = Some run'
    /\ (WorkflowState.errors state <> [] ->
        TicketRun.status run' = RunStatus.FAILED)
    /\ (WorkflowState.errors state = [] ->
        WorkflowState.is_complete_ticket state = Some false ->
        TicketRun.status run' = RunStatus.COMPLETED_INCOMPLETE)
    /\ (WorkflowState.errors state = [] ->
        WorkflowState.is_complete_ticket state <> Some false ->
        TicketRun.status run' = RunStatus.COMPLETED_COMPLETE).
Proof.
  intros Hrun Hiso.
  destruct (finalize_updates_ok clock state Hiso)
    as (updates & Hupd & status & rest & -> & Hrest & Hstatus).
  unfold TicketRepository.finalize_run, TicketRepository.update_run,
    get_db_session.
  rewrite Hupd, Hrun.
  do 2 eexists. split; [reflexivity|]. cbn.
  rewrite lookup_insert_eq. split; [reflexivity|].
  rewrite foldl_setattr_status by assumption. cbn. subst status.
  destruct (WorkflowState.errors state) as [|e es];
    destruct (WorkflowState.is_complete_ticket state) as [[|]|];
    repeat split; intros; congruence.
Qed.

Lemma finalize_run_status_witness :
  exists db' run',
    TicketRepository.finalize_run None demo_clock "run-0001" errored_state
      one_run_store = (Ok tt, db')
    /\ ticket_runs db' !! "run-0001" = Some run'
    /\ TicketRun.status run' = RunStatus.FAILED.
Proof.
  destruct (finalize_run_status demo_clock "run-0001" errored_state
              one_run_store
              (TicketRun.mk "run-0001" "PROJ-1" RunStatus.RUNNING
                 (utcnow demo_clock) None None None false false false false
                 None None None PROutcome.NOT_CREATED None 0%Z 0%Z false
                 None None None))
    as (db' & run' & Hfin & Hrow & Hfailed & _).
  - vm_compute. reflexivity.
  - vm_compute. reflexivity.
  - exists db', run'. split; [exact Hfin|]. split; [exact Hrow|].
    apply Hfailed. discriminate.
Defined.

(** C10. For a run id without a persisted record, [update_run] is a silent
    no-op, and so are [set_pr_outcome] and [finalize_run], which go through
    it: no exception, no new row, the store is left as it was. *)
Theorem update_run_without_record (run_id : string) (db : Store) :
  ticket_runs db !! run_id = None ->
  (forall kwargs,
     TicketRepository.update_run None run_id kwargs db = (Ok tt, db))
  /\ (forall outcome,
        TicketRepository.set_pr_outcome None run_id outcome db = (Ok tt, db))
  /\ (forall clock state,
        started_at_iso8601 clock state = true ->
        TicketRepository.finalize_run None clock run_id state db = (Ok tt, db)).
Proof.
  intros Hnone. repeat split.
  - intros kwargs. by apply update_run_missing.
  - intros outcome. unfold TicketRepository.set_pr_outcome.
    by apply update_run_missing.
  - intros clock state Hiso.
    destruct (finalize_updates_ok clock state Hiso) as (updates & Hupd & _).
    unfold TicketRepository.finalize_run. rewrite Hupd.
    by apply update_run_missing.
Qed.

Lemma update_run_without_record_witness :
  TicketRepository.update_run None "run-9999"
    [Kwarg.status RunStatus.FAILED] one_run_store = (Ok tt, one_run_store)
  /\ TicketRepository.set_pr_outcome None "run-9999" PROutcome.MERGED
       one_run_store = (Ok tt, one_run_store)
  /\ TicketRepository.finalize_run None demo_clock "run-9999" errored_state
       one_run_store = (Ok tt, one_run_store).
Proof.
  destruct (update_run_without_record "run-9999" one_run_store)
    as (Hupdate & Hpr & Hfinalize).
  - vm_compute. reflexivity.
  - split; [apply Hupdate|]. split; [apply Hpr|].
    apply Hfinalize. vm_compute. reflexivity.
Defined.

(** ** The KPI collector *)

Section KPI3.
Import POCMetricsCollector.

Lemma count_trailing_acc (l : list (bool * RunStatus.t)) (k : nat) :
  count_trailing l k = k + count_trailing l 0.
Proof.
  revert k. induction l as [|r l IH]; intros k; cbn.
  - lia.
  - destruct (error_free r); [|lia].
    rewrite (IH (S k)), (IH 1). lia.
Qed.

(** The loop counts a prefix of the reversed list made of error-free runs. *)
Lemma count_trailing_prefix (l : list (bool * RunStatus.t)) :
  exists p q, l = p ++ q
    /\ length p = count_trailing l 0
    /\ Forall (fun r => error_free r = true) p.
Proof.
  induction l as [|r l (p & q & Hl & Hlen & Hall)]; cbn.
  - exists [], []. repeat split; constructor.
  - destruct (error_free r) eqn:Hr.
    + exists (r :: p), q. rewrite count_trailing_acc. cbn.
      split; [by rewrite Hl|]. split; [by rewrite Hlen|].
      by constructor.
    + exists [], (r :: l). repeat split; constructor.
Qed.

(** No longer error-free prefix exists. *)
Lemma count_trailing_longest (l p q : list (bool * RunStatus.t)) :
  l = p ++ q -> Forall (fun r => error_free r = true) p ->
  length p <= count_trailing l 0.
Proof.
  intros -> Hall. induction Hall as [|r p Hr _ IH]; cbn.
  - lia.
  - rewrite Hr, count_trailing_acc. lia.
Qed.

End KPI3.

#[global] Instance started_le_total : Total POCMetricsCollector.started_le.
Proof. intros a b. unfold POCMetricsCollector.started_le. lia. Qed.

(** C7. KPI3 is the length of the longest suffix, in ascending start time,
    of the persisted runs without a recorded error; the outcomes
    [failed, ok, ok, ok] give a streak of 3; the KPI is met exactly when
    the streak is at least 10. *)
Theorem kpi3_trailing_streak (session : Store) (m : POCMetrics.t) :
  let ordered := POCMetricsCollector.runs_by_start session in
  let runs := POCMetricsCollector.select_error_status session in
  let m' := POCMetricsCollector._compute_kpi3 session m in
  let streak := POCMetrics.consecutive_error_free_runs m' in
  let ok := fun r => POCMetricsCollector.error_free r = true in
  Sorted POCMetricsCollector.started_le ordered
  /\ ordered ≡ₚ POCMetricsCollector.rows (ticket_runs session)
  /\ (exists pre suf, runs = pre ++ suf /\ length suf = streak /\ Forall ok suf)
  /\ (forall pre suf, runs = pre ++ suf -> Forall ok suf -> length suf <= streak)
  /\ (POCMetrics.kpi3_met m' = true <-> 10 <= streak)
  /\ POCMetrics.consecutive_error_free_runs
       (POCMetricsCollector.kpi3_of_runs
          [(true, RunStatus.FAILED); (false, RunStatus.COMPLETED_COMPLETE);
           (false, RunStatus.COMPLETED_COMPLETE);
           (false, RunStatus.COMPLETED_COMPLETE)] m) = 3.
Proof.
  cbn zeta. unfold POCMetricsCollector._compute_kpi3,
    POCMetricsCollector.kpi3_of_runs. cbn [POCMetrics.consecutive_error_free_runs
    POCMetrics.kpi3_met].
  set (runs := POCMetricsCollector.select_error_status session).
  split; [apply Sorted_merge_sort; apply _|].
  split; [apply merge_sort_Permutation|].
  split; [|split; [|split; [|reflexivity]]].
  - destruct (count_trailing_prefix (rev runs)) as (p & q & Hrev & Hlen & Hall).
    exists (rev q), (rev p).
    split; [by rewrite <- rev_app_distr, <- Hrev, rev_involutive|].
    split; [by rewrite length_rev|].
    by apply Forall_rev.
  - intros pre suf Hruns Hall.
    rewrite <- (length_rev suf).
    apply (count_trailing_longest (rev runs) (rev suf) (rev pre)).
    + by rewrite Hruns, rev_app_distr.
    + by apply Forall_rev.
  - split; intros H.
    + by apply Nat.leb_le.
    + by apply Nat.leb_le.
Qed.

(** The scenario read back from a store: the streak is at least, and in
    fact exactly, 3. *)
Lemma kpi3_trailing_streak_witness :
  3 <= POCMetrics.consecutive_error_free_runs
         (POCMetricsCollector._compute_kpi3 kpi3_scenario_store POCMetrics.new)
  /\ POCMetrics.consecutive_error_free_runs
       (POCMetricsCollector._compute_kpi3 kpi3_scenario_store POCMetrics.new) = 3.
Proof.
  split; [|vm_compute; reflexivity].
  destruct (kpi3_trailing_streak kpi3_scenario_store POCMetrics.new)
    as (_ & _ & _ & Hlongest & _).
  apply (Hlongest [(true, RunStatus.FAILED)]
           [(false, RunStatus.COMPLETED_COMPLETE);
            (false, RunStatus.COMPLETED_INCOMPLETE);
            (false, RunStatus.COMPLETED_COMPLETE)]).
  - vm_compute. reflexivity.
  - repeat constructor.
Defined.

Lemma Qmake_of_nat (a : Z) (n : nat) :
  (a # Pos.of_nat (S n) == inject_Z a / inject_Z (Z.of_nat (S n)))%Q.
Proof.
  rewrite Qmake_Qdiv.
  replace (Z.pos (Pos.of_nat (S n))) with (Z.of_nat (S n)); [reflexivity|].
  rewrite <- Pos.of_nat_succ, Zpos_P_of_succ_nat. lia.
Qed.

(** The tickets counted by the join of [_compute_kpi2] are the true
    positives. *)
Lemma joined_true_positive (session : Store) (ticket_id : string) :
  ticket_id ∈
    (list_to_set
       (TicketRun.ticket_id <$>
          List.filter
            (fun tr =>
               truthy (TicketRun.ticket_deemed_incomplete tr)
               && match ticket_ground_truth session !! TicketRun.ticket_id tr with
                  | Some gt => TicketGroundTruth.truly_incomplete gt
                  | None => false
                  end)
            (POCMetricsCollector.rows (ticket_runs session))) : gset string)
  <-> true_positive session ticket_id.
Proof.
  rewrite elem_of_list_to_set, list_elem_of_fmap. unfold true_positive.
  split.
  - intros (tr & -> & Hin). apply list_elem_of_In, filter_In in Hin.
    destruct Hin as [Hin Hp]. apply andb_prop in Hp as [Hflag Hgt].
    split.
    + exists tr. split; [by apply list_elem_of_In|]. split; [done|].
      by destruct (TicketRun.ticket_deemed_incomplete tr) as [[|]|].
    + destruct (ticket_ground_truth session !! TicketRun.ticket_id tr) as [gt|];
        [|done]. by exists gt.
  - intros [(tr & Hin & <- & Hflag) (gt & Hgt & Htrue)].
    exists tr. split; [done|]. apply list_elem_of_In, filter_In.
    split; [by apply list_elem_of_In|].
    by rewrite Hflag, Hgt, Htrue.
Qed.

(** C8. With no ground-truth label, [_compute_kpi2] raises nothing and
    reports rate 0 with a non-empty note; with at least one
    ground-truth-incomplete label the rate is the number of true positives
    divided by the number of ground-truth-incomplete labels. *)
Theorem kpi2_detection_rate (session : Store) (m : POCMetrics.t) :
  let labels :=
    POCMetricsCollector.count_where TicketGroundTruth.truly_incomplete
      (ticket_ground_truth session) in
  exists m',
    POCMetricsCollector._compute_kpi2 session m = Ok m'
    /\ POCMetrics.total_ground_truth_incomplete m' = labels
    /\ (ticket_ground_truth session = ∅ -> labels = 0)
    /\ (labels = 0 ->
        POCMetrics.incomplete_detection_rate m' = 0%Q
        /\ POCMetrics.kpi2_note m' <> "")
    /\ (0 < labels ->
        (POCMetrics.incomplete_detection_rate m'
         == inject_Z (Z.of_nat (POCMetrics.true_positive_detections m'))
            / inject_Z (Z.of_nat labels))%Q
        /\ exists tickets : gset string,
             POCMetrics.true_positive_detections m' = size tickets
             /\ forall ticket_id,
                  ticket_id ∈ tickets <-> true_positive session ticket_id).
Proof.
  cbn zeta. unfold POCMetricsCollector._compute_kpi2.
  destruct (POCMetricsCollector.count_where TicketGroundTruth.truly_incomplete
              (ticket_ground_truth session)) as [|n] eqn:Hlabels.
  - eexists. split; [reflexivity|]. cbn.
    split; [reflexivity|]. split; [reflexivity|].
    split; [intros _; split; [reflexivity|discriminate]|lia].
  - eexists. split; [reflexivity|]. cbn.
    split; [reflexivity|].
    split.
    { intros Hempty. unfold POCMetricsCollector.count_where,
        POCMetricsCollector.rows in Hlabels.
      rewrite Hempty, map_to_list_empty in Hlabels. discriminate. }
    split; [discriminate|]. intros _. split.
    + apply Qmake_of_nat.
    + eexists. split; [reflexivity|]. apply joined_true_positive.
Qed.

(** A store without ground-truth labels. *)
Lemma kpi2_detection_rate_witness :
  exists m',
    POCMetricsCollector._compute_kpi2 kpi3_scenario_store POCMetrics.new = Ok m'
    /\ POCMetrics.incomplete_detection_rate m' = 0%Q
    /\ POCMetrics.kpi2_note m' <> "".
Proof.
  destruct (kpi2_detection_rate kpi3_scenario_store POCMetrics.new)
    as (m' & Hcompute & _ & _ & Hzero & _).
  exists m'. split; [exact Hcompute|].
  apply Hzero. vm_compute. reflexivity.
Defined.

(** ** The executor and the run entry point *)

Lemma overwrite_None_l {A} (x : option A) : WorkflowState.overwrite None x = x.
Proof. by destruct x. Qed.

Lemma merge_empty_l (s : WorkflowState.t) :
  WorkflowState.merge WorkflowState.empty s = s.
Proof.
  destruct s. unfold WorkflowState.merge. cbn.
  by rewrite !overwrite_None_l.
Qed.

(** Every edge leads to a node of lower rank, so the graph is acyclic. *)
Lemma edges_rank (n next : Node.t) (state : WorkflowState.t) :
  edges n state = Some next -> rank next < rank n.
Proof.
  destruct n; cbn; try (intros [= <-]; cbn; lia).
  destruct (route_after_completeness state); intros [= <-]; cbn; lia.
Qed.

Lemma walk_S (w : World) (stages : Stages) (limit : nat) (n : Node.t)
  (state : WorkflowState.t) :
  walk w stages (S limit) n state
  = match node_fn w stages n state with
    | Raised exc => ([], Raised exc)
    | Ok update =>
        match edges n (WorkflowState.merge state update) with
        | None =>
            ([(n, WorkflowState.merge state update)],
             Ok (WorkflowState.merge state update))
        | Some next =>
            let '(trace, result) :=
              walk w stages limit next (WorkflowState.merge state update) in
            ((n, WorkflowState.merge state update) :: trace, result)
        end
    end.
Proof. reflexivity. Qed.

(** The recursion limit is never the reason why a walk stops: any limit
    that covers the rank of the start node gives the same walk. *)
Lemma walk_limit_enough (w : World) (stages : Stages) (limit : nat) :
  forall n state,
    rank n <= limit ->
    walk w stages (S limit) n state = walk w stages limit n state.
Proof.
  induction limit as [|limit IH]; intros n state Hrank.
  - destruct n; cbn in Hrank; lia.
  - rewrite (walk_S w stages (S limit)), (walk_S w stages limit).
    destruct (node_fn w stages n state) as [update|exc]; [|reflexivity].
    destruct (edges n (WorkflowState.merge state update)) as [next|] eqn:Hedge;
      [|reflexivity].
    rewrite IH; [reflexivity|]. apply edges_rank in Hedge. lia.
Qed.

Lemma invoke_trace_limit (w : World) (stages : Stages)
  (input : WorkflowState.t) (extra : nat) :
  walk w stages (rank Node.fetch_ticket + extra) Node.fetch_ticket
    (WorkflowState.merge WorkflowState.empty input)
  = walk w stages (rank Node.fetch_ticket) Node.fetch_ticket
      (WorkflowState.merge WorkflowState.empty input).
Proof.
  induction extra as [|extra IH].
  - by rewrite Nat.add_0_r.
  - rewrite Nat.add_succ_r, walk_limit_enough; [exact IH|lia].
Qed.

Lemma invoke_trace_rank (w : World) (stages : Stages)
  (input : WorkflowState.t) :
  invoke_trace w stages input
  = walk w stages (rank Node.fetch_ticket) Node.fetch_ticket
      (WorkflowState.merge WorkflowState.empty input).
Proof. exact (invoke_trace_limit w stages input 16). Qed.

(** With a limit that covers the rank, the walk raises only what a stage
    body raised. *)
Lemma walk_raised_by_stage (w : World) (stages : Stages) (limit : nat) :
  forall n state trace exc,
    rank n <= limit ->
    walk w stages limit n state = (trace, Raised exc) ->
    exists n' state', node_fn w stages n' state' = Raised exc.
Proof.
  induction limit as [|limit IH]; intros n state trace exc Hrank.
  - destruct n; cbn in Hrank; lia.
  - rewrite walk_S.
    destruct (node_fn w stages n state) as [update|exc'] eqn:Hnode.
    + destruct (edges n (WorkflowState.merge state update)) as [next|] eqn:Hedge;
        [|intros [=]].
      destruct (walk w stages limit next (WorkflowState.merge state update))
        as [trace' result] eqn:Hwalk.
      intros [= _ ->]. apply edges_rank in Hedge.
      eapply IH; [|exact Hwalk]. lia.
    + intros [= _ <-]. eauto.
Qed.

(** The graph only returns from its terminal node, which sets the phase. *)
Lemma walk_ok_completed (w : World) (stages : Stages) (limit : nat) :
  forall n state trace final,
    walk w stages limit n state = (trace, Ok final) ->
    WorkflowState.current_phase final = Some WorkflowPhase.COMPLETED.
Proof.
  induction limit as [|limit IH]; intros n state trace final; cbn.
  - intros [=].
  - destruct (node_fn w stages n state) as [update|exc] eqn:Hnode; [|intros [=]].
    destruct (edges n (WorkflowState.merge state update)) as [next|] eqn:Hedge.
    + destruct (walk w stages limit next (WorkflowState.merge state update))
        as [trace' result] eqn:Hwalk.
      intros [= _ ->]. by eapply IH.
    + intros [= _ <-].
      destruct n; try discriminate Hedge. cbn in Hnode.
      injection Hnode as <-. reflexivity.
Qed.

Lemma try_invoke_terminal (w : World) (stages : Stages)
  (initial : WorkflowState.t) :
  terminal_phase (WorkflowState.current_phase (try_invoke w stages initial)).
Proof.
  unfold try_invoke, invoke, invoke_trace.
  destruct (walk w stages recursion_limit Node.fetch_ticket
              (WorkflowState.merge WorkflowState.empty initial))
    as [trace [final|exc]] eqn:Hwalk; cbn.
  - left. by eapply walk_ok_completed.
  - right. reflexivity.
Qed.

(** Once the start-up went through, [run_workflow] returns the state of the
    first [try] block, whatever the stages and [finalize_run] do. *)
Lemma run_workflow_after_startup (env : Env) (w : World) (stages : Stages)
  (ticket_id : string) (db : Store) :
  startup_ok env db ->
  exists db',
    run_workflow env w stages ticket_id db
    = (Ok (try_invoke w stages (initial_state w (uuid4 env) ticket_id)), db').
Proof.
  intros (Hinit & Hcreate & Hmark & Hfresh).
  unfold run_workflow, init_db, TicketRepository.create_run,
    TicketRepository.mark_ticket_queued, get_db_session.
  rewrite Hinit, Hcreate, Hmark, Hfresh. cbn.
  destruct (processed_tickets db !! ticket_id); cbn; eexists; reflexivity.
Qed.

(** The store handed to [finalize_run] does not depend on how that call
    fares. *)
Lemma run_workflow_finalize (env : Env) (w : World) (stages : Stages)
  (ticket_id : string) (db : Store) :
  startup_ok env db ->
  exists db1, forall fault,
    run_workflow (with_finalize_run_fault fault env) w stages ticket_id db
    = (Ok (try_invoke w stages (initial_state w (uuid4 env) ticket_id)),
       snd (TicketRepository.finalize_run fault (clock_at_end env) (uuid4 env)
              (try_invoke w stages (initial_state w (uuid4 env) ticket_id))
              db1)).
Proof.
  intros (Hinit & Hcreate & Hmark & Hfresh).
  unfold run_workflow, init_db, TicketRepository.create_run,
    TicketRepository.mark_ticket_queued, get_db_session. cbn.
  rewrite Hinit, Hcreate, Hmark, Hfresh. cbn.
  destruct (processed_tickets db !! ticket_id); cbn; eexists; reflexivity.
Qed.

(** C2, as the code has it.  When the start-up of the run (creating the
    tables, the run record and the dedup marker) succeeds, [run_workflow]
    lets no exception escape, whichever stage body, the graph executor or
    [finalize_run] raises: it returns a state whose phase is [completed] or
    [failed], with its [errors] list. *)
Theorem run_workflow_returns_terminal_state (env : Env) (w : World)
  (stages : Stages) (ticket_id : string) (db : Store) :
  startup_ok env db ->
  exists final db',
    run_workflow env w stages ticket_id db = (Ok final, db')
    /\ terminal_phase (WorkflowState.current_phase final)
    /\ (forall exc,
          invoke w stages (initial_state w (uuid4 env) ticket_id) = Raised exc ->
          WorkflowState.current_phase final = Some WorkflowPhase.FAILED
          /\ WorkflowState.errors final = [exc]).
Proof.
  intros Hstart.
  destruct (run_workflow_after_startup env w stages ticket_id db Hstart)
    as [db' Hrun].
  do 2 eexists. split; [exact Hrun|]. split; [apply try_invoke_terminal|].
  intros exc Hexc. unfold try_invoke. rewrite Hexc. by split.
Qed.

Lemma run_workflow_returns_terminal_state_witness :
  exists final db',
    run_workflow healthy_env ticket_not_found_world raising_stages "PROJ-1"
      empty_store = (Ok final, db')
    /\ terminal_phase (WorkflowState.current_phase final).
Proof.
  destruct (run_workflow_returns_terminal_state healthy_env
              ticket_not_found_world raising_stages "PROJ-1" empty_store)
    as (final & db' & Hrun & Hphase & _).
  - unfold startup_ok. cbn. auto.
  - exists final, db'. split; [exact Hrun | exact Hphase].
Defined.

(** C2, as stated, fails: a database failure while the run record is
    inserted escapes [run_workflow]; no state is returned. *)
Lemma run_workflow_exception_escapes :
  run_workflow locked_at_create_env ticket_not_found_world
    (source_stages ticket_not_found_world) "PROJ-1" empty_store
  = (Raised "(sqlite3.OperationalError) database is locked", empty_store)
  /\ ~ (exists final db',
          run_workflow locked_at_create_env ticket_not_found_world
            (source_stages ticket_not_found_world) "PROJ-1" empty_store
          = (Ok final, db')
          /\ terminal_phase (WorkflowState.current_phase final)).
Proof.
  assert (Hrun :
    run_workflow locked_at_create_env ticket_not_found_world
      (source_stages ticket_not_found_world) "PROJ-1" empty_store
    = (Raised "(sqlite3.OperationalError) database is locked", empty_store))
    by reflexivity.
  split; [exact Hrun|].
  intros (final & db' & Hok & _). rewrite Hrun in Hok. discriminate.
Qed.

Lemma finalize_run_fault_raises (exc : string) (clock : Clock)
  (run_id : string) (state : WorkflowState.t) (db : Store) :
  exists raised,
    TicketRepository.finalize_run (Some exc) clock run_id state db
    = (Raised raised, db).
Proof.
  unfold TicketRepository.finalize_run, TicketRepository.update_run,
    get_db_session.
  destruct (TicketRepository.finalize_updates clock state); eauto.
Qed.

(** C9. When the write of [finalize_run] raises, the failure is not fatal:
    [run_workflow] returns the final state it had computed, the same state
    it returns when the write succeeds. *)
Theorem finalize_failure_is_not_fatal (env : Env) (w : World)
  (stages : Stages) (ticket_id : string) (db : Store) (exc : string) :
  startup_ok env db ->
  finalize_run_fault env = Some exc ->
  let run_id := uuid4 env in
  let final := try_invoke w stages (initial_state w run_id ticket_id) in
  exists db1 raised,
    (* the write raises and is rolled back *)
    TicketRepository.finalize_run (finalize_run_fault env) (clock_at_end env)
      run_id final db1 = (Raised raised, db1)
    (* the caller still gets the computed state *)
    /\ run_workflow env w stages ticket_id db = (Ok final, db1)
    /\ fst (run_workflow (with_finalize_run_fault None env) w stages
              ticket_id db) = Ok final.
Proof.
  intros Hstart Hfault. cbn zeta.
  destruct (run_workflow_finalize env w stages ticket_id db Hstart)
    as [db1 Hrun].
  destruct (finalize_run_fault_raises exc (clock_at_end env) (uuid4 env)
              (try_invoke w stages (initial_state w (uuid4 env) ticket_id))
              db1) as [raised Hraise].
  assert (Henv : env = with_finalize_run_fault (Some exc) env).
  { destruct env. unfold with_finalize_run_fault. cbn in *. by rewrite Hfault. }
  exists db1, raised. rewrite Hfault. split; [exact Hraise|]. split.
  - rewrite Henv at 1. by rewrite Hrun, Hraise.
  - by rewrite Hrun.
Qed.

Lemma finalize_failure_is_not_fatal_witness :
  exists db1,
    run_workflow locked_at_finalize_env ticket_not_found_world
      (source_stages ticket_not_found_world) "PROJ-1" empty_store
    = (Ok (try_invoke ticket_not_found_world
             (source_stages ticket_not_found_world)
             (initial_state ticket_not_found_world "run-0001" "PROJ-1")),
       db1)
    /\ ticket_runs db1 !! "run-0001"
       = Some (TicketRun.mk "run-0001" "PROJ-1" RunStatus.RUNNING
                 (utcnow demo_clock) None None None false false false false
                 None None None PROutcome.NOT_CREATED None 0%Z 0%Z false
                 None None None).
Proof.
  destruct (finalize_failure_is_not_fatal locked_at_finalize_env
              ticket_not_found_world (source_stages ticket_not_found_world)
              "PROJ-1" empty_store
              "(sqlite3.OperationalError) database is locked")
    as (db1 & raised & _ & Hrun & _).
  - unfold startup_ok. cbn. auto.
  - reflexivity.
  - exists db1. split; [exact Hrun|].
    assert (Hdb1 : db1 = snd (run_workflow locked_at_finalize_env
                               ticket_not_found_world
                               (source_stages ticket_not_found_world)
                               "PROJ-1" empty_store))
      by (rewrite Hrun; reflexivity).
    rewrite Hdb1. vm_compute. reflexivity.
Defined.

(** ** The paths of the graph *)

Lemma edges_successors (n next : Node.t) (state : WorkflowState.t) :
  edges n state = Some next -> next ∈ successors n.
Proof.
  destruct n; cbn; try (intros [= <-]; apply elem_of_cons; by left).
  destruct (route_after_completeness state); intros [= <-]; cbn;
    rewrite !elem_of_cons; tauto.
Qed.

Lemma edges_end (n : Node.t) (state : WorkflowState.t) :
  edges n state = None -> successors n = [].
Proof. destruct n; cbn; congruence. Qed.

Lemma paths_from_cons (fuel : nat) (n next : Node.t) (p : list Node.t) :
  next ∈ successors n -> p ∈ paths_from fuel next ->
  n :: p ∈ paths_from (S fuel) n.
Proof.
  intros Hnext Hp. cbn [paths_from].
  destruct (successors n) as [|s ss] eqn:Hs; [by apply elem_of_nil in Hnext|].
  apply list_elem_of_fmap. exists p. split; [done|].
  apply list_elem_of_In, in_concat. exists (paths_from fuel next).
  split; [|by apply list_elem_of_In].
  apply list_elem_of_In, list_elem_of_fmap. by exists next.
Qed.

(** A walk runs along a path of the graph: its nodes are a prefix of the
    path, the whole path when the walk returns, a proper prefix when it
    raises. *)
Lemma walk_on_path (w : World) (stages : Stages) (limit : nat) :
  forall n state trace result,
    rank n <= limit ->
    walk w stages limit n state = (trace, result) ->
    exists p, p ∈ paths_from limit n
      /\ trace.*1 `prefix_of` p
      /\ match result with
         | Ok final => trace.*1 = p /\ (snd <$> last trace) = Some final
         | Raised _ => length trace < length p
         end.
Proof.
  induction limit as [|limit IH]; intros n state trace result Hrank.
  - destruct n; cbn in Hrank; lia.
  - rewrite walk_S.
    destruct (node_fn w stages n state) as [update|exc] eqn:Hnode.
    + destruct (edges n (WorkflowState.merge state update)) as [next|] eqn:Hedge.
      * destruct (walk w stages limit next (WorkflowState.merge state update))
          as [trace' result'] eqn:Hwalk.
        intros [= <- <-].
        pose proof (edges_rank _ _ _ Hedge) as Hlt.
        destruct (IH next _ trace' result' ltac:(lia) Hwalk)
          as (p & Hp & Hpre & Hres).
        exists (n :: p). split.
        { eapply paths_from_cons; [by eapply edges_successors|done]. }
        split; [cbn; by apply prefix_cons|].
        destruct result' as [final|exc].
        -- destruct Hres as [Heq Hlast]. split; [cbn; by rewrite Heq|].
           destruct trace' as [|x trace']; [done|]. exact Hlast.
        -- cbn. lia.
      * intros [= <- <-]. exists [n]. cbn [paths_from].
        rewrite (edges_end _ _ Hedge). split; [apply list_elem_of_singleton; done|].
        split; done.
    + intros [= <- <-].
      assert (Hex : exists p, p ∈ paths_from (S limit) n).
      { clear -Hrank. revert n Hrank.
        induction (S limit) as [|k IHk]; intros n Hrank.
        - destruct n; cbn in Hrank; lia.
        - destruct (successors n) as [|s ss] eqn:Hs.
          + exists [n]. cbn [paths_from]. rewrite Hs.
            by apply list_elem_of_singleton.
          + destruct (IHk s) as [p Hp].
            { destruct n; cbn in Hs; simplify_eq; cbn in *; lia. }
            exists (n :: p). eapply paths_from_cons; [|done].
            rewrite Hs. apply elem_of_cons. by left. }
      destruct Hex as [p Hp]. exists p. split; [done|].
      split; [apply prefix_nil|].
      cbn. destruct p; [|cbn; lia].
      exfalso. clear -Hp. cbn [paths_from] in Hp.
      destruct (successors n); [by apply list_elem_of_singleton in Hp|].
      apply list_elem_of_fmap in Hp as (q & [=] & _).
Qed.

(** ** The stop flag *)

(** No stage of the sources writes [should_stop = False]; for the one
    stage body that comes from the world this is its contract. *)
Lemma stage_keeps_stop (w : World) (n : Node.t)
  (state update : WorkflowState.t) :
  pr_composer_contract w \/ n <> Node.pr_composer ->
  node_fn w (source_stages w) n state = Ok update ->
  WorkflowState.should_stop update <> Some false.
Proof.
  intros Hpr Hnode.
  destruct n; cbn in Hnode;
    try (destruct Hpr as [Hpr|Hne]; [by eapply Hpr | by destruct Hne]);
    unfold Agents.fetch_ticket_node, Agents.completeness_check_node,
      Agents.post_clarification_node, Agents.repo_scout_node,
      Agents.confluence_agent_node, Agents.planner_node,
      Agents.code_proposal_node, Agents.test_suggestion_node,
      Agents.getitem, bind in Hnode;
    repeat case_match; simplify_eq; cbn; congruence.
Qed.

(** The reducer itself overwrites the flag with whatever an update
    carries: the flag is sticky because of what the stages write, not
    because of the merge operator. *)
Remark merge_overwrites_stop (state update : WorkflowState.t) (b : bool) :
  WorkflowState.should_stop update = Some b ->
  WorkflowState.should_stop (WorkflowState.merge state update) = Some b.
Proof. intros Hu. cbn. by rewrite Hu. Qed.

Lemma merge_keeps_stop (state update : WorkflowState.t) :
  WorkflowState.should_stop state = Some true ->
  WorkflowState.should_stop update <> Some false ->
  WorkflowState.should_stop (WorkflowState.merge state update) = Some true.
Proof.
  intros Hs Hu. cbn. rewrite Hs.
  by destruct (WorkflowState.should_stop update) as [[|]|].
Qed.

(** A walk that starts with the flag set keeps it set in every state it
    merges, up to the stage that is not in the sources. *)
Lemma walk_all_stopped (w : World) (limit : nat) :
  forall n state trace result,
    walk w (source_stages w) limit n state = (trace, result) ->
    WorkflowState.should_stop state = Some true ->
    forall j nj sj,
      trace !! j = Some (nj, sj) ->
      pr_composer_contract w
      \/ (forall k nk sk,
            k <= j -> trace !! k = Some (nk, sk) -> nk <> Node.pr_composer) ->
      WorkflowState.should_stop sj = Some true.
Proof.
  induction limit as [|limit IH]; intros n state trace result.
  - intros [= <- <-] _ j nj sj [=].
  - rewrite walk_S.
    destruct (node_fn w (source_stages w) n state) as [update|exc] eqn:Hnode;
      [|by intros [= <- <-] _ j nj sj [=]].
    assert (Hmerged : forall j (trace' : list (Node.t * WorkflowState.t)),
      WorkflowState.should_stop state = Some true ->
      pr_composer_contract w
      \/ (forall k nk sk,
            k <= j ->
            ((n, WorkflowState.merge state update) :: trace') !! k
            = Some (nk, sk) ->
            nk <> Node.pr_composer) ->
      WorkflowState.should_stop (WorkflowState.merge state update) = Some true).
    { intros j trace' Hstop Hcond. apply merge_keeps_stop; [done|].
      eapply stage_keeps_stop; [|exact Hnode].
      destruct Hcond as [Hc|Hno]; [by left|right].
      by eapply (Hno 0 n _ (Nat.le_0_l j)). }
    destruct (edges n (WorkflowState.merge state update)) as [next|].
    + destruct (walk w (source_stages w) limit next
                  (WorkflowState.merge state update))
        as [trace' result'] eqn:Hwalk.
      intros [= <- <-] Hstop j nj sj Hj Hcond.
      pose proof (Hmerged j trace' Hstop Hcond) as Hm.
      destruct j as [|j]; cbn in Hj.
      * by injection Hj as <- <-.
      * eapply (IH _ _ _ _ Hwalk Hm j nj sj Hj).
        destruct Hcond as [Hc|Hno]; [by left|right].
        intros k nk sk Hk Hlk. eapply (Hno (S k)); [lia|exact Hlk].
    + intros [= <- <-] Hstop j nj sj Hj Hcond.
      pose proof (Hmerged j [] Hstop Hcond) as Hm.
      destruct j as [|j]; cbn in Hj; [|done].
      by injection Hj as <- <-.
Qed.

(** Along a walk the flag, once set, stays set. *)
Lemma walk_sticky (w : World) (limit : nat) :
  forall n state trace result,
    walk w (source_stages w) limit n state = (trace, result) ->
    forall i j ni si nj sj,
      i <= j ->
      trace !! i = Some (ni, si) ->
      trace !! j = Some (nj, sj) ->
      pr_composer_contract w
      \/ (forall k nk sk,
            i < k <= j -> trace !! k = Some (nk, sk) ->
            nk <> Node.pr_composer) ->
      WorkflowState.should_stop si = Some true ->
      WorkflowState.should_stop sj = Some true.
Proof.
  induction limit as [|limit IH]; intros n state trace result.
  - intros [= <- <-] i j ni si nj sj _ [=].
  - rewrite walk_S.
    destruct (node_fn w (source_stages w) n state) as [update|exc];
      [|by intros [= <- <-] i j ni si nj sj _ [=]].
    destruct (edges n (WorkflowState.merge state update)) as [next|].
    + destruct (walk w (source_stages w) limit next
                  (WorkflowState.merge state update))
        as [trace' result'] eqn:Hwalk.
      intros [= <- <-] i j ni si nj sj Hij Hi Hj Hcond Hstop.
      destruct i as [|i], j as [|j]; cbn in Hi, Hj; try lia.
      * injection Hi as <- <-. by injection Hj as <- <-.
      * injection Hi as <- <-.
        eapply (walk_all_stopped w limit _ _ _ _ Hwalk Hstop j nj sj Hj).
        destruct Hcond as [Hc|Hno]; [by left|right].
        intros k nk sk Hk Hlk. eapply (Hno (S k)); [lia|exact Hlk].
      * eapply (IH _ _ _ _ Hwalk i j ni si nj sj); [lia|done|done| |done].
        destruct Hcond as [Hc|Hno]; [by left|right].
        intros k nk sk Hk Hlk. eapply (Hno (S k)); [lia|exact Hlk].
    + intros [= <- <-] i j ni si nj sj Hij Hi Hj _ Hstop.
      destruct i as [|i], j as [|j]; cbn in Hi, Hj; try done.
      injection Hi as <- <-. by injection Hj as <- <-.
Qed.

(** The shape of a run: nothing, the fetch stage alone, or the fetch
    stage, the completeness stage and then the path that the routing
    function selects on the state merged after the completeness stage. *)
Lemma invoke_trace_shape (w : World) (stages : Stages)
  (input : WorkflowState.t) :
  let trace := (invoke_trace w stages input).1 in
  trace = []
  \/ (exists s0, trace = [(Node.fetch_ticket, s0)])
  \/ (exists s0 update s1 rest,
        trace = (Node.fetch_ticket, s0) :: (Node.completeness_check, s1) :: rest
        /\ node_fn w stages Node.completeness_check s0 = Ok update
        /\ s1 = WorkflowState.merge s0 update
        /\ trace.*1 `prefix_of` routed_path (route_after_completeness s1)
        /\ (forall final,
              invoke w stages input = Ok final ->
              trace.*1 = routed_path (route_after_completeness s1))).
Proof.
  cbn zeta. unfold invoke. rewrite invoke_trace_rank.
  change (rank Node.fetch_ticket) with (S (S 7)). rewrite walk_S.
  destruct (node_fn w stages Node.fetch_ticket _) as [update0|exc0];
    [|by left].
  cbn [edges]. rewrite walk_S.
  set (s0 := WorkflowState.merge (WorkflowState.merge WorkflowState.empty input)
               update0).
  destruct (node_fn w stages Node.completeness_check s0) as [update|exc]
    eqn:Hnode; [|right; left; by exists s0].
  cbn [edges].
  set (s1 := WorkflowState.merge s0 update).
  destruct (walk w stages 7 (path_map (route_after_completeness s1)) s1)
    as [rest result] eqn:Hwalk.
  right. right. exists s0, update, s1, rest. cbn [fst snd].
  split; [done|]. split; [done|]. split; [done|].
  assert (Hrank : rank (path_map (route_after_completeness s1)) <= 7).
  { destruct (route_after_completeness s1); cbn; lia. }
  destruct (walk_on_path w stages 7 _ _ rest result Hrank Hwalk)
    as (p & Hp & Hpre & Hres).
  assert (Hpath : routed_path (route_after_completeness s1)
                  = Node.fetch_ticket :: Node.completeness_check :: p).
  { destruct (route_after_completeness s1); cbn [path_map] in Hp.
    - replace (paths_from 7 Node.post_clarification)
        with [[Node.post_clarification; Node.end_workflow]] in Hp
        by reflexivity.
      by apply list_elem_of_singleton in Hp as ->.
    - replace (paths_from 7 Node.repo_scout)
        with [[Node.repo_scout; Node.confluence_docs; Node.planner;
               Node.code_proposal; Node.test_suggestion; Node.pr_composer;
               Node.end_workflow]] in Hp by reflexivity.
      by apply list_elem_of_singleton in Hp as ->. }
  rewrite Hpath. cbn [fmap list_fmap fst]. split.
  - by do 2 apply prefix_cons.
  - intros final ->. destruct Hres as [-> _]. done.
Qed.

(** C5. The stop flag within one run.  The reducer overwrites the flag,
    so it is sticky only because of what the stages write: along the
    states merged during a run, once a state has the flag set every later
    state has it too, for the stages of the sources without condition and
    across the [pr_composer] stage if that stage never writes [False].
    The flag is read once, by the routing decision after the completeness
    stage: the nodes executed are those of the path this decision selects.
    So a flag set by the fetch or the completeness stage keeps every
    pipeline stage from running, while a flag set by a later stage skips
    nothing. *)
Theorem should_stop_sticky (w : World) (input : WorkflowState.t) :
  let trace := (invoke_trace w (source_stages w) input).1 in
  (forall i j ni si nj sj,
     i <= j ->
     trace !! i = Some (ni, si) ->
     trace !! j = Some (nj, sj) ->
     pr_composer_contract w
     \/ (forall k nk sk,
           i < k <= j -> trace !! k = Some (nk, sk) ->
           nk <> Node.pr_composer) ->
     WorkflowState.should_stop si = Some true ->
     WorkflowState.should_stop sj = Some true)
  /\ (forall s1,
        trace !! 1 = Some (Node.completeness_check, s1) ->
        trace.*1 `prefix_of` routed_path (route_after_completeness s1)
        /\ (forall final,
              invoke w (source_stages w) input = Ok final ->
              trace.*1 = routed_path (route_after_completeness s1)))
  /\ (forall i ni si,
        i <= 1 ->
        trace !! i = Some (ni, si) ->
        WorkflowState.should_stop si = Some true ->
        trace.*1 `prefix_of` clarification_path
        /\ (forall n, n ∈ trace.*1 -> n ∉ pipeline_stages)).
Proof.
  cbn zeta.
  pose proof (invoke_trace_shape w (source_stages w) input) as Hshape.
  cbn zeta in Hshape.
  split; [|split].
  - intros i j ni si nj sj.
    eapply (walk_sticky w recursion_limit Node.fetch_ticket
              (WorkflowState.merge WorkflowState.empty input)).
    unfold invoke_trace. apply surjective_pairing.
  - intros s1 Hs1.
    destruct Hshape as [Hnil|[(s0 & Hone)|(s0 & update & s1' & rest & Htrace
                                           & _ & _ & Hpre & Hret)]].
    + by rewrite Hnil in Hs1.
    + by rewrite Hone in Hs1.
    + rewrite Htrace in Hs1. cbn in Hs1. injection Hs1 as <-. by split.
  - intros i ni si Hi Hlookup Hstop.
    assert (Hclar : (invoke_trace w (source_stages w) input).1.*1
                    `prefix_of` clarification_path).
    { destruct Hshape as [Hnil|[(s0 & Hone)|(s0 & update & s1 & rest & Htrace
                                             & Hnode & Hs1 & Hpre & _)]].
      - rewrite Hnil. apply prefix_nil.
      - rewrite Hone. by exists [Node.completeness_check;
                                 Node.post_clarification; Node.end_workflow].
      - assert (Hflag : WorkflowState.should_stop s1 = Some true).
        { rewrite Htrace in Hlookup.
          destruct i as [|[|i]]; cbn in Hlookup; [| |lia].
          - injection Hlookup as <- <-. rewrite Hs1.
            apply merge_keeps_stop; [done|].
            eapply stage_keeps_stop; [|exact Hnode]. by right.
          - by injection Hlookup as <- <-. }
        unfold route_after_completeness in Hpre. rewrite Hflag in Hpre.
        exact Hpre. }
    split; [exact Hclar|].
    intros n Hn. destruct Hclar as [rest Hrest].
    assert (Hin : n ∈ clarification_path).
    { rewrite Hrest. apply elem_of_app. by left. }
    unfold clarification_path in Hin. unfold pipeline_stages.
    rewrite !elem_of_cons, elem_of_nil in Hin.
    rewrite !elem_of_cons, elem_of_nil.
    intuition congruence.
Qed.

(** The failed fetch sets the flag, and no pipeline stage is run. *)
Lemma should_stop_sticky_witness :
  (invoke_trace ticket_not_found_world (source_stages ticket_not_found_world)
     (initial_state ticket_not_found_world "run-0001" "PROJ-1")).1.*1
  `prefix_of` clarification_path.
Proof.
  destruct (should_stop_sticky ticket_not_found_world
              (initial_state ticket_not_found_world "run-0001" "PROJ-1"))
    as (_ & _ & Hshort).
  eapply (Hshort 0); [lia|reflexivity|reflexivity].
Defined.

(** C5, as stated, fails: in a run whose ticket is judged complete and
    whose scouting stage fails, the flag is first set by [repo_scout],
    after the only routing decision, and the five pipeline stages that
    remain are all executed. *)
Lemma stop_after_routing_skips_nothing :
  let input := initial_state complete_ticket_world "run-0001" "PROJ-1" in
  let trace :=
    (invoke_trace complete_ticket_world (source_stages complete_ticket_world)
       input).1 in
  WorkflowState.should_stop input = Some false
  /\ (exists s1 s2,
        trace !! 1 = Some (Node.completeness_check, s1)
        /\ WorkflowState.should_stop s1 = Some false
        /\ trace !! 2 = Some (Node.repo_scout, s2)
        /\ WorkflowState.should_stop s2 = Some true)
  /\ drop 3 trace.*1
     = [Node.confluence_docs; Node.planner; Node.code_proposal;
        Node.test_suggestion; Node.pr_composer; Node.end_workflow]
  /\ ~ (forall n, n ∈ drop 3 trace.*1 -> n ∉ pipeline_stages).
Proof.
  cbn zeta.
  assert (Hrest : drop 3
                    (invoke_trace complete_ticket_world
                       (source_stages complete_ticket_world)
                       (initial_state complete_ticket_world "run-0001"
                          "PROJ-1")).1.*1
                  = [Node.confluence_docs; Node.planner; Node.code_proposal;
                     Node.test_suggestion; Node.pr_composer;
                     Node.end_workflow])
    by (vm_compute; reflexivity).
  split; [reflexivity|].
  split.
  { eexists _, _. split; [vm_compute; reflexivity|].
    split; [reflexivity|]. split; [vm_compute; reflexivity|]. reflexivity. }
  split; [exact Hrest|].
  rewrite Hrest. intros Hskip. apply (Hskip Node.planner).
  - rewrite !elem_of_cons. tauto.
  - unfold pipeline_stages. rewrite !elem_of_cons. tauto.
Qed.

(** ** The end-to-end failure scenario *)

Lemma prefix_append (p s : string) : String.prefix p (p ++ s) = true.
Proof.
  induction p as [|c p IH]; simpl.
  - by destruct s.
  - destruct (Ascii.ascii_dec c c); [exact IH | congruence].
Qed.

(** The run of the graph when the ticket fetch fails: the four nodes
    executed and the state returned. *)
Lemma invoke_failed_fetch (w : World) (run_id ticket_id exc : string) :
  _fetch_ticket_via_mcp w ticket_id = Raised exc ->
  exists trace final,
    invoke_trace w (source_stages w) (initial_state w run_id ticket_id)
    = (trace, Ok final)
    /\ trace.*1 = [Node.fetch_ticket; Node.completeness_check;
                   Node.post_clarification; Node.end_workflow]
    /\ final =
       WorkflowState.mk (Some run_id) (Some ticket_id) (Some (now_at_start w))
         None None None None None None None None
         (Some WorkflowPhase.COMPLETED) None (Some true)
         [("ticket_fetcher: " ++ exc)%string;
          "completeness_agent: ticket_context is None";
          "post_clarification: completeness_result is None"]
         [] [] (Some (now_at_end w)) (Some 0%Z) (Some 0%Z).
Proof.
  intros Hfetch. unfold invoke_trace. rewrite merge_empty_l.
  unfold recursion_limit. cbn [walk node_fn source_stages].
  unfold Agents.fetch_ticket_node at 1. cbn [initial_state
    WorkflowState.ticket_id WorkflowState.run_id Agents.getitem bind].
  rewrite Hfetch. cbn.
  eexists _, _. split; [reflexivity|]. split; reflexivity.
Qed.

(** C1, as the code has it.  When the ticket fetch fails, the state
    [run_workflow] returns has [should_stop] set, the phase [completed]
    written by the terminal node, and three [errors] entries: the fetch
    stage's, the only one prefixed with that stage's name, then those of
    the completeness and clarification stages, which both ran without
    their input; no later stage's result slot is populated. *)
Theorem failed_fetch_final_state (env : Env) (w : World)
  (ticket_id exc : string) (db : Store) :
  startup_ok env db ->
  _fetch_ticket_via_mcp w ticket_id = Raised exc ->
  exists final db',
    run_workflow env w (source_stages w) ticket_id db = (Ok final, db')
    /\ WorkflowState.current_phase final = Some WorkflowPhase.COMPLETED
    /\ WorkflowState.should_stop final = Some true
    /\ WorkflowState.errors final
       = [("ticket_fetcher: " ++ exc)%string;
          "completeness_agent: ticket_context is None";
          "post_clarification: completeness_result is None"]
    /\ entries_prefixed "ticket_fetcher" (WorkflowState.errors final)
       = [("ticket_fetcher: " ++ exc)%string]
    /\ later_slots_empty final.
Proof.
  intros Hstart Hfetch.
  destruct (run_workflow_after_startup env w (source_stages w) ticket_id db
              Hstart) as [db' Hrun].
  destruct (invoke_failed_fetch w (uuid4 env) ticket_id exc Hfetch)
    as (trace & final & Hinvoke & _ & Hfinal).
  exists final, db'.
  assert (Htry : try_invoke w (source_stages w)
                   (initial_state w (uuid4 env) ticket_id) = final).
  { unfold try_invoke, invoke. by rewrite Hinvoke. }
  rewrite Htry in Hrun. split; [exact Hrun|].
  rewrite Hfinal. cbn.
  split; [reflexivity|]. split; [reflexivity|]. split; [reflexivity|].
  split; [|repeat split].
  unfold entries_prefixed. cbn [List.filter].
  change ("ticket_fetcher: " ++ exc)%string
    with ("ticket_fetcher" ++ (": " ++ exc))%string.
  rewrite (prefix_append "ticket_fetcher" (": " ++ exc)). reflexivity.
Qed.

Lemma failed_fetch_final_state_witness :
  exists final db',
    run_workflow healthy_env ticket_not_found_world
      (source_stages ticket_not_found_world) "PROJ-1" empty_store
    = (Ok final, db')
    /\ WorkflowState.current_phase final = Some WorkflowPhase.COMPLETED
    /\ WorkflowState.should_stop final = Some true
    /\ length (WorkflowState.errors final) = 3
    /\ later_slots_empty final.
Proof.
  destruct (failed_fetch_final_state healthy_env ticket_not_found_world
              "PROJ-1" "Ticket PROJ-1 not found via JQL search" empty_store)
    as (final & db' & Hrun & Hphase & Hstop & Herrors & _ & Hslots).
  - unfold startup_ok. cbn. auto.
  - reflexivity.
  - exists final, db'. split; [exact Hrun|]. split; [exact Hphase|].
    split; [exact Hstop|]. split; [|exact Hslots].
    by rewrite Herrors.
Defined.

(** C1, as stated, fails: for a ticket the tracker does not know, the
    state returned has the phase [completed], not [failed], and carries
    three error entries. *)
Lemma failed_fetch_not_reported_failed :
  exists final db',
    run_workflow healthy_env ticket_not_found_world
      (source_stages ticket_not_found_world) "PROJ-1" empty_store
    = (Ok final, db')
    /\ WorkflowState.current_phase final = Some WorkflowPhase.COMPLETED
    /\ WorkflowState.errors final
       = ["ticket_fetcher: Ticket PROJ-1 not found via JQL search";
          "completeness_agent: ticket_context is None";
          "post_clarification: completeness_result is None"]
    /\ ~ failed_fetch_report final.
Proof.
  eexists _, _. split; [vm_compute; reflexivity|].
  split; [reflexivity|]. split; [reflexivity|].
  intros (Hphase & _). discriminate Hphase.
Qed.

(** * Further properties of the code *)

(** ** The executor and the graph *)

(** X1. Every run of the graph executes the clarification path or the
    pipeline path, in that order and never both branches: the nodes
    executed are a prefix of one of the two paths, the whole path exactly
    when [invoke] returns, in which case it returns the state merged after
    the terminal node. *)
Theorem invoke_follows_graph (w : World) (stages : Stages)
  (input : WorkflowState.t) :
  let trace := (invoke_trace w stages input).1 in
  let result := invoke w stages input in
  (trace.*1 `prefix_of` clarification_path
   \/ trace.*1 `prefix_of` pipeline_path)
  /\ (forall final,
        result = Ok final ->
        (trace.*1 = clarification_path \/ trace.*1 = pipeline_path)
        /\ (snd <$> last trace) = Some final)
  /\ (forall exc,
        result = Raised exc ->
        trace.*1 <> clarification_path /\ trace.*1 <> pipeline_path).
Proof.
  cbn zeta. unfold invoke. rewrite invoke_trace_rank.
  destruct (walk w stages (rank Node.fetch_ticket) Node.fetch_ticket
              (WorkflowState.merge WorkflowState.empty input))
    as [trace result] eqn:Hwalk.
  destruct (walk_on_path w stages _ _ _ trace result (le_n _) Hwalk)
    as (p & Hp & Hpre & Hres).
  assert (Hpaths : p = clarification_path \/ p = pipeline_path).
  { replace (paths_from (rank Node.fetch_ticket) Node.fetch_ticket)
      with [clarification_path; pipeline_path] in Hp by reflexivity.
    rewrite !elem_of_cons, elem_of_nil in Hp.
    destruct Hp as [->|[->|[]]]; [left|right]; reflexivity. }
  cbn [fst snd]. split; [|split].
  - destruct Hpaths as [<-|<-]; [left|right]; done.
  - intros final ->. destruct Hres as [-> Hlast]. done.
  - intros exc ->.
    assert (Hlen : length trace.*1 < length p) by (by rewrite length_fmap).
    split; intros Heq; rewrite Heq in Hpre, Hlen;
      destruct Hpaths as [-> | ->]; cbn in Hlen; try lia;
      destruct Hpre as [k Hk]; discriminate Hk.
Qed.

Lemma invoke_follows_graph_witness :
  (invoke_trace ticket_not_found_world (source_stages ticket_not_found_world)
     (initial_state ticket_not_found_world "run-0001" "PROJ-1")).1.*1
  = clarification_path.
Proof.
  destruct (invoke_follows_graph ticket_not_found_world
              (source_stages ticket_not_found_world)
              (initial_state ticket_not_found_world "run-0001" "PROJ-1"))
    as (_ & Hok & _).
  destruct (Hok _ eq_refl) as [[H|H] _]; [exact H|].
  vm_compute in H. discriminate H.
Defined.

Section AuditLists.

#[local] Instance audit_extends_refl : Reflexive audit_extends.
Proof. intros s. by repeat split. Qed.

#[local] Instance audit_extends_trans : Transitive audit_extends.
Proof.
  intros a b c (H1 & H2 & H3) (H1' & H2' & H3').
  repeat split; by etrans.
Qed.

Lemma merge_audit_extends (state update : WorkflowState.t) :
  audit_extends state (WorkflowState.merge state update).
Proof. repeat split; cbn; by apply prefix_app_r. Qed.

(** Every state of a walk extends the state the walk started from, and
    every later state extends every earlier one. *)
Lemma walk_audit_extends (w : World) (stages : Stages) (limit : nat) :
  forall n state trace result,
    walk w stages limit n state = (trace, result) ->
    Forall (audit_extends state) trace.*2
    /\ (forall i j si sj,
          i <= j -> trace.*2 !! i = Some si -> trace.*2 !! j = Some sj ->
          audit_extends si sj).
Proof.
  induction limit as [|limit IH]; intros n state trace result; cbn [walk].
  - intros [= <- _]. split; [constructor|]. intros i j si sj _ [=].
  - destruct (node_fn w stages n state) as [update|exc].
    2: { intros [= <- _]. split; [constructor|]. intros i j si sj _ [=]. }
    cbn zeta.
    destruct (edges n (WorkflowState.merge state update)) as [next|].
    + destruct (walk w stages limit next (WorkflowState.merge state update))
        as [trace' result'] eqn:Hwalk.
      intros [= <- _]. destruct (IH _ _ _ _ Hwalk) as [Hall Hpairs].
      split.
      * cbn. constructor; [apply merge_audit_extends|].
        eapply Forall_impl; [exact Hall|]. intros s Hs.
        etrans; [apply merge_audit_extends|exact Hs].
      * intros [|i] [|j] si sj Hij; cbn; try lia.
        -- by intros [= <-] [= <-].
        -- intros [= <-] Hj. rewrite Forall_lookup in Hall. by eapply Hall.
        -- apply Hpairs. lia.
    + intros [= <- _]. split.
      * cbn. constructor; [apply merge_audit_extends|constructor].
      * intros [|i] [|j] si sj Hij; cbn; try lia.
        -- by intros [= <-] [= <-].
        -- intros _ [=].
        -- intros [=].
Qed.

End AuditLists.

(** X2. The audit lists only grow during a run, whatever the stage bodies
    do: in the sequence of states merged by the executor, [errors],
    [llm_call_ids] and [mcp_tool_calls] of an earlier state are prefixes of
    those of every later state, and those of the input are prefixes of all
    of them. *)
Theorem audit_lists_append_only (w : World) (stages : Stages)
  (input : WorkflowState.t) :
  let states := (invoke_trace w stages input).1.*2 in
  Forall (audit_extends input) states
  /\ (forall i j si sj,
        i <= j -> states !! i = Some si -> states !! j = Some sj ->
        audit_extends si sj)
  /\ (forall final, invoke w stages input = Ok final -> audit_extends input final).
Proof.
  cbn zeta. unfold invoke, invoke_trace. rewrite merge_empty_l.
  destruct (walk w stages recursion_limit Node.fetch_ticket input)
    as [trace result] eqn:Hwalk.
  destruct (walk_audit_extends _ _ _ _ _ _ _ Hwalk) as [Hall Hpairs].
  cbn [fst snd]. split; [exact Hall|]. split; [exact Hpairs|].
  intros final ->.
  assert (Hrank : rank Node.fetch_ticket <= recursion_limit)
    by (unfold recursion_limit; cbn; lia).
  destruct (walk_on_path w stages _ _ _ trace (Ok final) Hrank Hwalk)
    as (p & _ & _ & _ & Hlast).
  rewrite Forall_forall in Hall. apply Hall.
  rewrite <- fmap_last in Hlast. apply last_Some in Hlast as [l ->].
  apply elem_of_app. right. by apply list_elem_of_singleton.
Qed.

Lemma audit_lists_append_only_witness :
  Forall (audit_extends (initial_state ticket_not_found_world "run-0001" "PROJ-1"))
    (invoke_trace ticket_not_found_world (source_stages ticket_not_found_world)
       (initial_state ticket_not_found_world "run-0001" "PROJ-1")).1.*2.
Proof.
  exact (proj1 (audit_lists_append_only ticket_not_found_world
                  (source_stages ticket_not_found_world)
                  (initial_state ticket_not_found_world "run-0001"
                     "PROJ-1"))).
Defined.

(** ** The stage bodies *)

Ltac unfold_stages H :=
  unfold source_stages, Agents.fetch_ticket_node,
    Agents.completeness_check_node, Agents.post_clarification_node,
    Agents.repo_scout_node, Agents.confluence_agent_node, Agents.planner_node,
    Agents.code_proposal_node, Agents.test_suggestion_node,
    Agents.getitem, bind in H.

(** X3. The stage contract of the seven stages that can stop a run: an
    update either reports a failure - phase [failed], [should_stop] set,
    exactly one [errors] entry, prefixed with the stage's name, and no
    result slot written - or reports none: no [errors] entry, and neither
    the flag nor the phase [failed] written. *)
Theorem stage_failure_contract (w : World) (n : Node.t) (name : string)
  (state update : WorkflowState.t) :
  n ∈ stopping_stages ->
  stage_name n = Some name ->
  source_stages w n state = Ok update ->
  (WorkflowState.current_phase update = Some WorkflowPhase.FAILED
   /\ WorkflowState.should_stop update = Some true
   /\ (exists detail,
         WorkflowState.errors update = [(name ++ ": " ++ detail)%string])
   /\ no_slot_written update)
  \/ (WorkflowState.current_phase update <> Some WorkflowPhase.FAILED
      /\ WorkflowState.current_phase update <> None
      /\ WorkflowState.should_stop update = None
      /\ WorkflowState.errors update = []).
Proof.
  intros Hn Hname Hrun. unfold stopping_stages in Hn.
  rewrite !elem_of_cons, elem_of_nil in Hn.
  destruct Hn as [->|[->|[->|[->|[->|[->|[->|[]]]]]]]];
    injection Hname as <-; unfold_stages Hrun;
    repeat case_match; simplify_eq;
    first
      [ right; cbn; repeat split; congruence
      | left; cbn; split; [reflexivity|]; split; [reflexivity|];
        split; [eexists; reflexivity | by repeat split] ].
Qed.

Lemma stage_failure_contract_witness :
  WorkflowState.errors
    (Agents.failed_update "completeness_agent: ticket_context is None")
  = ["completeness_agent: ticket_context is None"]
  /\ WorkflowState.should_stop
       (Agents.failed_update "completeness_agent: ticket_context is None")
     = Some true.
Proof.
  destruct (stage_failure_contract ticket_not_found_world
              Node.completeness_check "completeness_agent"
              (initial_state ticket_not_found_world "run-0001" "PROJ-1")
              (Agents.failed_update
                 "completeness_agent: ticket_context is None"))
    as [(_ & Hstop & _ & _)|(_ & _ & Hnone & _)].
  - unfold stopping_stages. rewrite !elem_of_cons. tauto.
  - reflexivity.
  - reflexivity.
  - split; [reflexivity | exact Hstop].
  - discriminate Hnone.
Defined.

(** X4. The scouting branch is taken exactly for a ticket judged complete.
    For a state on which no stage has asked to stop, after the
    completeness stage the routing selects [repo_scout] if and only if the
    ticket was fetched and the model returned a verdict [COMPLETE] with a
    score at or above the threshold; in every other case (no ticket, model
    failure, no verdict, verdict [INCOMPLETE], low score) it selects the
    clarification branch. *)
Theorem scouting_iff_judged_complete (w : World)
  (state update : WorkflowState.t) :
  WorkflowState.should_stop state <> Some true ->
  Agents.completeness_check_node w state = Ok update ->
  route_after_completeness (WorkflowState.merge state update)
  = Branch.repo_scout
  <-> exists ticket verdict call_id,
        WorkflowState.ticket_context state = Some ticket
        /\ llm_completeness w ticket = Ok (Some verdict, call_id)
        /\ (completeness_threshold w
            <= CompletenessResult.completeness_score verdict)%Q
        /\ CompletenessResult.decision verdict = CompletenessDecision.COMPLETE.
Proof.
  intros Hstop Hrun. unfold route_after_completeness.
  unfold Agents.completeness_check_node, Agents.getitem, bind in Hrun.
  destruct (WorkflowState.run_id state); [|discriminate].
  destruct (WorkflowState.ticket_id state); [|discriminate].
  destruct (WorkflowState.ticket_context state) as [ticket|] eqn:Hticket.
  2: { injection Hrun as <-. cbn. split; [discriminate|].
       intros (? & ? & ? & [=] & _). }
  assert (Hinv : forall P : Prop,
            (forall verdict call_id,
               llm_completeness w ticket = Ok (Some verdict, call_id) ->
               (completeness_threshold w
                <= CompletenessResult.completeness_score verdict)%Q ->
               CompletenessResult.decision verdict
               = CompletenessDecision.COMPLETE -> P) ->
            (exists ticket' verdict call_id,
               Some ticket = Some ticket'
               /\ llm_completeness w ticket' = Ok (Some verdict, call_id)
               /\ (completeness_threshold w
                   <= CompletenessResult.completeness_score verdict)%Q
               /\ CompletenessResult.decision verdict
                  = CompletenessDecision.COMPLETE) -> P).
  { intros P HP (t & v & c & [= <-] & Hl & Hq & Hd). by eapply HP. }
  destruct (llm_completeness w ticket) as [[[verdict|] call_id]|exc] eqn:Hllm.
  - injection Hrun as <-. cbn.
    destruct (WorkflowState.should_stop state) as [[|]|]; [congruence| |];
      cbn;
      destruct (Qle_bool (completeness_threshold w)
                  (CompletenessResult.completeness_score verdict)) eqn:Hle;
      destruct (CompletenessResult.decision verdict) eqn:Hdec; cbn;
      (split;
       [ first [ discriminate
               | intros _; exists ticket, verdict, call_id;
                 repeat split; try done; by apply Qle_bool_iff ]
       | first [ done
               | apply Hinv; intros v c [= <- <-] Hq Hd;
                 apply Qle_bool_iff in Hq; congruence ] ]).
  - injection Hrun as <-. cbn. split; [discriminate|]. apply Hinv.
    intros v c [=].
  - injection Hrun as <-. cbn. split; [discriminate|]. apply Hinv.
    intros v c [=].
Qed.

Lemma scouting_iff_judged_complete_witness :
  exists update,
    Agents.completeness_check_node complete_ticket_world fetched_state
    = Ok update
    /\ route_after_completeness (WorkflowState.merge fetched_state update)
       = Branch.repo_scout.
Proof.
  assert (Hrun : exists update,
            Agents.completeness_check_node complete_ticket_world fetched_state
            = Ok update) by (eexists; reflexivity).
  destruct Hrun as [update Hrun]. exists update. split; [exact Hrun|].
  apply (scouting_iff_judged_complete complete_ticket_world fetched_state
           update); [discriminate | exact Hrun |].
  exists demo_ticket,
    (demo_verdict CompletenessDecision.COMPLETE (9 # 10)%Q), "call-1".
  split; [reflexivity|]. split; [reflexivity|].
  split; [|reflexivity]. unfold Qle. cbn. lia.
Defined.

(** An invariant of every merge of a walk holds in all its states. *)
Lemma walk_invariant (P : WorkflowState.t -> Prop) (w : World)
  (stages : Stages) :
  (forall n state update,
     P state -> node_fn w stages n state = Ok update ->
     P (WorkflowState.merge state update)) ->
  forall limit n state trace result,
    P state ->
    walk w stages limit n state = (trace, result) ->
    Forall P trace.*2 /\ (forall final, result = Ok final -> P final).
Proof.
  intros Hstep. induction limit as [|limit IH];
    intros n state trace result HP; cbn [walk].
  - intros [= <- <-]. split; [constructor|discriminate].
  - destruct (node_fn w stages n state) as [update|exc] eqn:Hnode.
    2: { intros [= <- <-]. split; [constructor|discriminate]. }
    cbn zeta. pose proof (Hstep _ _ _ HP Hnode) as HP'.
    destruct (edges n (WorkflowState.merge state update)) as [next|].
    + destruct (walk w stages limit next (WorkflowState.merge state update))
        as [trace' result'] eqn:Hwalk.
      intros [= <- <-]. destruct (IH _ _ _ _ HP' Hwalk) as [Hall Hfinal].
      split; [cbn; by constructor | exact Hfinal].
    + intros [= <- <-]. split; [cbn; by repeat constructor|].
      by intros final [= <-].
Qed.

Lemma source_stage_keeps_identity (w : World) (n : Node.t)
  (state update : WorkflowState.t) :
  (forall s u, pr_composer_node w s = Ok u -> keeps_identity u) ->
  node_fn w (source_stages w) n state = Ok update ->
  keeps_identity update.
Proof.
  intros Hpr Hnode.
  destruct n; cbn in Hnode; try (by eapply Hpr);
    unfold_stages Hnode; repeat case_match; simplify_eq;
    by repeat split.
Qed.

(** X5. The state [run_workflow] returns carries the identity of the run:
    the run id drawn at the start, the ticket id it was called with and
    the start time, whichever path the run took and also when the graph
    raised (no stage of the sources writes these keys; the stage outside
    the sources is assumed not to either). *)
Theorem run_identity_preserved (env : Env) (w : World) (ticket_id : string)
  (db : Store) :
  startup_ok env db ->
  (forall s u, pr_composer_node w s = Ok u -> keeps_identity u) ->
  exists final db',
    run_workflow env w (source_stages w) ticket_id db = (Ok final, db')
    /\ WorkflowState.run_id final = Some (uuid4 env)
    /\ WorkflowState.ticket_id final = Some ticket_id
    /\ WorkflowState.started_at final = Some (now_at_start w).
Proof.
  intros Hstart Hpr.
  destruct (run_workflow_after_startup env w (source_stages w) ticket_id db
              Hstart) as [db' Hrun].
  do 2 eexists. split; [exact Hrun|].
  unfold try_invoke, invoke, invoke_trace. rewrite merge_empty_l.
  destruct (walk w (source_stages w) recursion_limit Node.fetch_ticket
              (initial_state w (uuid4 env) ticket_id))
    as [trace [final|exc]] eqn:Hwalk; cbn [snd]; [|by repeat split].
  pose (P := fun s : WorkflowState.t =>
               WorkflowState.run_id s = Some (uuid4 env)
               /\ WorkflowState.ticket_id s = Some ticket_id
               /\ WorkflowState.started_at s = Some (now_at_start w)).
  assert (HP : P final); [|exact HP].
  eapply (walk_invariant P); [| |exact Hwalk|reflexivity].
  - intros n state update (H1 & H2 & H3) Hnode.
    destruct (source_stage_keeps_identity w n state update Hpr Hnode)
      as (K1 & K2 & K3).
    unfold P. cbn. by rewrite H1, H2, H3, K1, K2, K3.
  - by repeat split.
Qed.

Lemma run_identity_preserved_witness :
  exists final db',
    run_workflow healthy_env complete_ticket_world
      (source_stages complete_ticket_world) "PROJ-1" empty_store
    = (Ok final, db')
    /\ WorkflowState.run_id final = Some "run-0001"
    /\ WorkflowState.ticket_id final = Some "PROJ-1".
Proof.
  destruct (run_identity_preserved healthy_env complete_ticket_world "PROJ-1"
              empty_store) as (final & db' & Hrun & Hid & Htid & _).
  - unfold startup_ok. cbn. auto.
  - intros s u [= <-]. by repeat split.
  - exists final, db'. split; [exact Hrun|]. split; [exact Hid | exact Htid].
Defined.

Lemma source_stage_counts_calls (w : World) (n : Node.t)
  (state update : WorkflowState.t) :
  n <> Node.pr_composer ->
  calls_counted state ->
  node_fn w (source_stages w) n state = Ok update ->
  calls_counted (WorkflowState.merge state update).
Proof.
  intros Hn Hcount Hnode. unfold calls_counted in *.
  destruct n; cbn in Hnode; try congruence;
    unfold_stages Hnode; repeat case_match; simplify_eq; cbn;
    rewrite ?app_nil_r; try exact Hcount;
    unfold Agents.next_llm_calls; rewrite length_app; cbn; lia.
Qed.

(** X6. The call counter of a run agrees with its list of call ids: in the
    state [run_workflow] returns, [total_llm_calls] is the length of
    [llm_call_ids] - each stage of the sources that records a call id
    adds one to the counter, and a stage that fails records neither. *)
Theorem llm_calls_counted (env : Env) (w : World) (ticket_id : string)
  (db : Store) :
  startup_ok env db ->
  (forall s u, pr_composer_node w s = Ok u ->
     calls_counted s -> calls_counted (WorkflowState.merge s u)) ->
  exists final db',
    run_workflow env w (source_stages w) ticket_id db = (Ok final, db')
    /\ WorkflowState.total_llm_calls final
       = Some (Z.of_nat (length (WorkflowState.llm_call_ids final))).
Proof.
  intros Hstart Hpr.
  destruct (run_workflow_after_startup env w (source_stages w) ticket_id db
              Hstart) as [db' Hrun].
  do 2 eexists. split; [exact Hrun|].
  unfold try_invoke, invoke, invoke_trace. rewrite merge_empty_l.
  destruct (walk w (source_stages w) recursion_limit Node.fetch_ticket
              (initial_state w (uuid4 env) ticket_id))
    as [trace [final|exc]] eqn:Hwalk; cbn [snd]; [|reflexivity].
  pose (P := fun s : WorkflowState.t =>
               calls_counted s /\ WorkflowState.total_llm_calls s <> None).
  assert (HP : P final).
  { eapply (walk_invariant P); [| |exact Hwalk|reflexivity].
    - intros n state update [Hc Hsome] Hnode. split.
      + assert (Hcases : n = Node.pr_composer \/ n <> Node.pr_composer)
          by (destruct n; (by left) || (by right)).
        destruct Hcases as [->|Hn].
        * cbn in Hnode. by apply Hpr.
        * by eapply source_stage_counts_calls.
      + cbn. destruct (WorkflowState.total_llm_calls update); [done|].
        by destruct (WorkflowState.total_llm_calls state).
    - split; [reflexivity|discriminate]. }
  destruct HP as [Hc Hsome]. unfold calls_counted in Hc.
  destruct (WorkflowState.total_llm_calls final); [|done].
  cbn in Hc. by rewrite Hc.
Qed.

Lemma llm_calls_counted_witness :
  exists final db',
    run_workflow healthy_env complete_ticket_world
      (source_stages complete_ticket_world) "PROJ-1" empty_store
    = (Ok final, db')
    /\ WorkflowState.total_llm_calls final = Some 1%Z
    /\ WorkflowState.llm_call_ids final = ["call-1"].
Proof.
  destruct (llm_calls_counted healthy_env complete_ticket_world "PROJ-1"
              empty_store) as (final & db' & Hrun & Hcount).
  - unfold startup_ok. cbn. auto.
  - intros s u [= <-] Hc. unfold calls_counted in *. cbn.
    by rewrite app_nil_r.
  - exists final, db'. split; [exact Hrun|].
    assert (Hids : WorkflowState.llm_call_ids final = ["call-1"]).
    { assert (Heq : Ok final
                    = (run_workflow healthy_env complete_ticket_world
                         (source_stages complete_ticket_world) "PROJ-1"
                         empty_store).1) by (by rewrite Hrun).
      vm_compute in Heq. by injection Heq as ->. }
    split; [|exact Hids]. by rewrite Hcount, Hids.
Defined.

(** X7. The clarification stage does not lose a posted comment: once the
    tracker has accepted the comment (a non-empty comment id, no dry
    run), the completeness result the stage returns records it as posted
    with that id, and the stage neither asks to stop nor reports the phase
    [failed], whether the labelling that follows succeeds (phase
    [completed], no error) or raises (one error entry prefixed with
    [post_clarification]). *)
Theorem posted_comment_is_recorded (w : World) (state : WorkflowState.t)
  (ticket_id run_id comment_id : string) (verdict : CompletenessResult.t) :
  WorkflowState.ticket_id state = Some ticket_id ->
  WorkflowState.run_id state = Some run_id ->
  WorkflowState.completeness_result state = Some verdict ->
  dry_run w = false ->
  _post_jira_comment w ticket_id verdict = Ok (Some comment_id) ->
  comment_id <> "" ->
  exists update,
    Agents.post_clarification_node w state = Ok update
    /\ WorkflowState.completeness_result update
       = Some (CompletenessResult.set_comment comment_id verdict)
    /\ WorkflowState.should_stop update = None
    /\ WorkflowState.current_phase update <> Some WorkflowPhase.FAILED
    /\ match _apply_jira_label w ticket_id "needs-clarification" with
       | Ok _ =>
           WorkflowState.current_phase update = Some WorkflowPhase.COMPLETED
           /\ WorkflowState.errors update = []
           /\ WorkflowState.mcp_tool_calls update = [jira_add_comment ticket_id]
       | Raised exc =>
           WorkflowState.current_phase update
           = Some WorkflowPhase.POSTING_CLARIFICATION
           /\ WorkflowState.errors update
              = [("post_clarification: " ++ exc)%string]
           /\ WorkflowState.mcp_tool_calls update = []
       end.
Proof.
  intros Htid Hrid Hverdict Hdry Hpost Hid.
  unfold Agents.post_clarification_node, Agents.getitem, bind.
  rewrite Htid, Hrid, Hverdict, Hdry, Hpost.
  assert (Htruthy : truthy_str (Some comment_id) = true)
    by (by destruct comment_id).
  rewrite Htruthy. cbn [default].
  destruct (_apply_jira_label w ticket_id "needs-clarification");
    eexists; (split; [reflexivity|]); cbn; by repeat split.
Qed.

Lemma posted_comment_is_recorded_witness :
  exists update,
    Agents.post_clarification_node complete_ticket_world
      (WorkflowState.with_completeness_result
         (demo_verdict CompletenessDecision.INCOMPLETE (3 # 10)%Q)
         fetched_state) = Ok update
    /\ WorkflowState.completeness_result update
       = Some (CompletenessResult.set_comment "10001"
                 (demo_verdict CompletenessDecision.INCOMPLETE (3 # 10)%Q))
    /\ WorkflowState.errors update = ["post_clarification: label rejected"].
Proof.
  destruct (posted_comment_is_recorded complete_ticket_world
              (WorkflowState.with_completeness_result
                 (demo_verdict CompletenessDecision.INCOMPLETE (3 # 10)%Q)
                 fetched_state)
              "PROJ-1" "run-0001" "10001"
              (demo_verdict CompletenessDecision.INCOMPLETE (3 # 10)%Q))
    as (update & Hrun & Hresult & _ & _ & Hlabel);
    try reflexivity; [discriminate|].
  exists update. split; [exact Hrun|]. split; [exact Hresult|].
  cbn in Hlabel. by destruct Hlabel as (_ & Herr & _).
Defined.

(** ** The run repository, continued *)

(** X8. [create_run] inserts the record of a run under a fresh id - status
    [running], no error, no pull request - and touches nothing else; under
    an id that is already taken it raises and the transaction is rolled
    back: the store is left as it was. *)
Theorem create_run_fresh_or_rejected (clock : Clock)
  (run_id ticket_id : string) (db : Store) :
  (ticket_runs db !! run_id = None ->
   exists db',
     TicketRepository.create_run None clock run_id ticket_id db = (Ok tt, db')
     /\ ticket_runs db' !! run_id
        = Some (running_record clock run_id ticket_id)
     /\ same_but_run run_id db db'
     /\ (store_wf db -> store_wf db'))
  /\ (is_Some (ticket_runs db !! run_id) ->
      exists exc,
        TicketRepository.create_run None clock run_id ticket_id db
        = (Raised exc, db)).
Proof.
  unfold TicketRepository.create_run, get_db_session. split.
  - intros Hfresh. rewrite Hfresh. eexists. split; [reflexivity|]. cbn.
    split; [apply lookup_insert_eq|]. split.
    + split; [|done]. intros other Hother. by apply lookup_insert_ne.
    + intros Hwf key run. cbn.
      destruct (decide (key = run_id)) as [->|Hne].
      * rewrite lookup_insert_eq. by intros [= <-].
      * rewrite lookup_insert_ne by done. apply Hwf.
  - intros [run Hrun]. rewrite Hrun. by eexists.
Qed.

Lemma create_run_fresh_or_rejected_witness :
  exists exc,
    TicketRepository.create_run None demo_clock "run-0001" "PROJ-2"
      one_run_store = (Raised exc, one_run_store).
Proof.
  apply (proj2 (create_run_fresh_or_rejected demo_clock "run-0001" "PROJ-2"
                  one_run_store)).
  eexists. vm_compute. reflexivity.
Defined.

(** X9. The dedup marker can be reopened and closed again.  After
    [mark_ticket_queued] the ticket counts as processed; after
    [request_reprocess] it does not, while the marker still names the last
    run; after another [mark_ticket_queued] it counts as processed again.
    For a ticket without a marker [request_reprocess] creates none. *)
Theorem reprocess_round_trip (clock clock' : Clock)
  (ticket_id r r' : string) (db : Store) :
  exists db1 db2 db3 marker,
    TicketRepository.mark_ticket_queued None clock ticket_id r db = (Ok tt, db1)
    /\ TicketRepository.is_ticket_processed None ticket_id db1 = (Ok true, db1)
    /\ TicketRepository.request_reprocess None ticket_id db1 = (Ok tt, db2)
    /\ TicketRepository.is_ticket_processed None ticket_id db2 = (Ok false, db2)
    /\ processed_tickets db2 !! ticket_id = Some marker
    /\ ProcessedTicket.last_run_id marker = Some r
    /\ TicketRepository.mark_ticket_queued None clock' ticket_id r' db2
       = (Ok tt, db3)
    /\ TicketRepository.is_ticket_processed None ticket_id db3 = (Ok true, db3)
    /\ (processed_tickets db !! ticket_id = None ->
        TicketRepository.request_reprocess None ticket_id db = (Ok tt, db)
        /\ TicketRepository.is_ticket_processed None ticket_id db
           = (Ok false, db)).
Proof.
  unfold TicketRepository.mark_ticket_queued,
    TicketRepository.is_ticket_processed,
    TicketRepository.request_reprocess, get_db_session.
  destruct (processed_tickets db !! ticket_id) as [existing|] eqn:Hdb;
    do 4 eexists; (split; [reflexivity|]); cbn;
    rewrite lookup_insert_eq; (split; [reflexivity|]);
    (split; [reflexivity|]); cbn;
    rewrite lookup_insert_eq; (split; [reflexivity|]);
    (split; [reflexivity|]); (split; [reflexivity|]);
    (split; [reflexivity|]); cbn;
    rewrite lookup_insert_eq; (split; [reflexivity|]);
    intros Hnone; first [discriminate Hnone | done].
Qed.

Lemma reprocess_round_trip_witness :
  TicketRepository.request_reprocess None "PROJ-404" one_run_store
  = (Ok tt, one_run_store)
  /\ TicketRepository.is_ticket_processed None "PROJ-404" one_run_store
     = (Ok false, one_run_store).
Proof.
  destruct (reprocess_round_trip demo_clock demo_clock "PROJ-404" "run-1"
              "run-2" one_run_store)
    as (db1 & db2 & db3 & marker & _ & _ & _ & _ & _ & _ & _ & _ & Hnone).
  apply Hnone. vm_compute. reflexivity.
Defined.

(** X10. Queuing a ticket again keeps the time the ticket was first seen
    and leaves the markers of all other tickets, the run records and the
    ground-truth labels untouched. *)
Theorem mark_ticket_queued_frame (clock : Clock) (ticket_id run_id : string)
  (db : Store) :
  exists db' marker,
    TicketRepository.mark_ticket_queued None clock ticket_id run_id db
    = (Ok tt, db')
    /\ same_but_marker ticket_id db db'
    /\ processed_tickets db' !! ticket_id = Some marker
    /\ ProcessedTicket.first_seen_at marker
       = match processed_tickets db !! ticket_id with
         | Some existing => ProcessedTicket.first_seen_at existing
         | None => utcnow clock
         end.
Proof.
  unfold TicketRepository.mark_ticket_queued, get_db_session.
  destruct (processed_tickets db !! ticket_id) as [existing|] eqn:Hdb;
    do 2 eexists; (split; [reflexivity|]); cbn;
    (split; [split; [|done]; intros other Hother;
             by apply lookup_insert_ne|]);
    rewrite lookup_insert_eq; by split.
Qed.

Lemma foldl_setattr_identity (kwargs : list Kwarg.t) (run : TicketRun.t) :
  TicketRun.id (foldl TicketRun.setattr run kwargs) = TicketRun.id run
  /\ TicketRun.ticket_id (foldl TicketRun.setattr run kwargs)
     = TicketRun.ticket_id run
  /\ TicketRun.started_at (foldl TicketRun.setattr run kwargs)
     = TicketRun.started_at run.
Proof.
  revert run. induction kwargs as [|kw kwargs IH]; intros run; [done|].
  cbn. destruct (IH (TicketRun.setattr run kw)) as (-> & -> & ->).
  by destruct kw.
Qed.

(** What [update_run] does to the store, whatever the outcome. *)
Lemma update_run_frame (fault : option string) (run_id : string)
  (kwargs : list Kwarg.t) (db : Store) :
  let db' := (TicketRepository.update_run fault run_id kwargs db).2 in
  same_but_run run_id db db'
  /\ (ticket_runs db' !! run_id = ticket_runs db !! run_id
      \/ exists run,
           ticket_runs db !! run_id = Some run
           /\ ticket_runs db' !! run_id
              = Some (foldl TicketRun.setattr run kwargs)).
Proof.
  cbn zeta. unfold TicketRepository.update_run, get_db_session.
  destruct fault; [by repeat split; auto|].
  destruct (ticket_runs db !! run_id) as [run|] eqn:Hrun; cbn.
  - split.
    + split; [|done]. intros other Hother. by apply lookup_insert_ne.
    + right. exists run. split; [done|]. apply lookup_insert_eq.
  - split; [by repeat split|]. left. done.
Qed.

(** The record [finalize_run] writes. *)
Lemma finalize_run_record (clock : Clock) (run_id : string)
  (state : WorkflowState.t) (db : Store) (run : TicketRun.t) :
  ticket_runs db !! run_id = Some run ->
  started_at_iso8601 clock state = true ->
  exists run',
    TicketRepository.finalize_run None clock run_id state db
    = (Ok tt, with_ticket_runs (<[run_id := run']> (ticket_runs db)) db)
    /\ TicketRun.error_occurred run'
       = match WorkflowState.errors state with [] => false | _ => true end
    /\ TicketRun.status run'
       = match WorkflowState.errors state with
         | _ :: _ => RunStatus.FAILED
         | [] => match WorkflowState.is_complete_ticket state with
                 | Some false => RunStatus.COMPLETED_INCOMPLETE
                 | _ => RunStatus.COMPLETED_COMPLETE
                 end
         end
    /\ TicketRun.error_message run'
       = match WorkflowState.errors state with
         | [] => None
         | errors => Some (String.concat "; " errors)
         end
    /\ (is_Some (TicketRun.error_phase run')
        <-> WorkflowState.errors state <> [])
    /\ TicketRun.pr_outcome run'
       = match WorkflowState.pr_result state with
         | Some pr =>
             if truthy_str (PRCompositionResult.pr_url pr)
             then PROutcome.PENDING else PROutcome.NOT_CREATED
         | None => PROutcome.NOT_CREATED
         end
    /\ TicketRun.pr_url run'
       = WorkflowState.pr_result state ≫= PRCompositionResult.pr_url
    /\ TicketRun.pr_number run'
       = WorkflowState.pr_result state ≫= PRCompositionResult.pr_number
    /\ TicketRun.completed_at run' = Some (utcnow clock)
    /\ TicketRun.total_llm_calls run'
       = default 0%Z (WorkflowState.total_llm_calls state)
    /\ TicketRun.final_state_snapshot run' = Some state.
Proof.
  intros Hrun Hiso.
  unfold TicketRepository.finalize_run, TicketRepository.update_run,
    get_db_session, TicketRepository.finalize_updates.
  unfold started_at_iso8601 in Hiso.
  destruct (truthy_str (WorkflowState.started_at state)) eqn:Ht; cbn in Hiso.
  - apply bool_decide_eq_true in Hiso. destruct Hiso as [dt ->]. cbn.
    rewrite Hrun.
    destruct (WorkflowState.pr_result state) as [pr|]; cbn;
      eexists; (split; [reflexivity|]); cbn;
      destruct (WorkflowState.errors state); cbn;
      repeat split; try done; try (by intros [? [=]]); by eauto.
  - cbn. rewrite Hrun.
    destruct (WorkflowState.pr_result state) as [pr|]; cbn;
      eexists; (split; [reflexivity|]); cbn;
      destruct (WorkflowState.errors state); cbn;
      repeat split; try done; try (by intros [? [=]]); by eauto.
Qed.

(** What [finalize_run] does to the store, whatever the outcome. *)
Lemma finalize_run_store (fault : option string) (clock : Clock)
  (run_id : string) (state : WorkflowState.t) (db : Store) :
  let db' := (TicketRepository.finalize_run fault clock run_id state db).2 in
  same_but_run run_id db db'
  /\ (ticket_runs db !! run_id = None -> ticket_runs db' !! run_id = None)
  /\ (forall run,
        ticket_runs db !! run_id = Some run ->
        exists run',
          ticket_runs db' !! run_id = Some run'
          /\ TicketRun.id run' = TicketRun.id run
          /\ TicketRun.ticket_id run' = TicketRun.ticket_id run
          /\ TicketRun.started_at run' = TicketRun.started_at run)
  /\ (store_wf db -> store_wf db').
Proof.
  cbn zeta. unfold TicketRepository.finalize_run.
  destruct (TicketRepository.finalize_updates clock state) as [updates|exc].
  2: { cbn. split; [by repeat split|]. split; [done|]. split; [|done].
       intros run Hrun. by exists run. }
  destruct (update_run_frame fault run_id updates db) as [Hframe Hrow].
  split; [exact Hframe|].
  assert (Hsame : forall run,
            ticket_runs db !! run_id = Some run ->
            exists run',
              ticket_runs
                (TicketRepository.update_run fault run_id updates db).2
                !! run_id = Some run'
              /\ TicketRun.id run' = TicketRun.id run
              /\ TicketRun.ticket_id run' = TicketRun.ticket_id run
              /\ TicketRun.started_at run' = TicketRun.started_at run).
  { intros run Hrun. destruct Hrow as [Heq|(run0 & Hrun0 & Hrow)].
    - exists run. by rewrite Heq.
    - rewrite Hrun in Hrun0. injection Hrun0 as <-.
      eexists. split; [exact Hrow|]. apply foldl_setattr_identity. }
  split; [|split; [exact Hsame|]].
  - intros Hnone. destruct Hrow as [Heq|(run0 & Hrun0 & _)]; [|congruence].
    by rewrite Heq.
  - intros Hwf key run'.
    destruct (decide (key = run_id)) as [->|Hne].
    + destruct (ticket_runs db !! run_id) as [run|] eqn:Hrun.
      * destruct (Hsame run eq_refl) as (run'' & Hrow'' & Hid & _).
        rewrite Hrow''. intros [= <-]. rewrite Hid. by apply Hwf.
      * destruct Hrow as [Heq|(run0 & [=] & _)]. rewrite Heq. by intros [=].
    + destruct Hframe as [Hother _]. rewrite Hother by done. apply Hwf.
Qed.

(** X11. [finalize_run] only ever touches the record of its run: whatever
    the final state and whether or not the database fails, every other
    run record, all dedup markers and all ground-truth labels are
    unchanged, no record appears or disappears, and the record itself
    keeps its id, ticket id and start time. *)
Theorem finalize_run_frame (fault : option string) (clock : Clock)
  (run_id : string) (state : WorkflowState.t) (db : Store) :
  let db' := (TicketRepository.finalize_run fault clock run_id state db).2 in
  same_but_run run_id db db'
  /\ (ticket_runs db !! run_id = None -> ticket_runs db' !! run_id = None)
  /\ (forall run,
        ticket_runs db !! run_id = Some run ->
        exists run',
          ticket_runs db' !! run_id = Some run'
          /\ TicketRun.id run' = TicketRun.id run
          /\ TicketRun.ticket_id run' = TicketRun.ticket_id run
          /\ TicketRun.started_at run' = TicketRun.started_at run)
  /\ (store_wf db -> store_wf db').
Proof. apply finalize_run_store. Qed.

Lemma finalize_run_frame_witness :
  ticket_runs
    (TicketRepository.finalize_run None demo_clock "run-9999" errored_state
       one_run_store).2 !! "run-9999" = None.
Proof.
  apply (proj1 (proj2 (finalize_run_frame None demo_clock "run-9999"
                         errored_state one_run_store))).
  vm_compute. reflexivity.
Defined.

(** X12. The error columns [finalize_run] writes agree with each other and
    with the status: [error_occurred] is set exactly when the state has an
    [errors] entry, which is exactly when the status is [failed] and when
    [error_message] and [error_phase] are set; the message is the entries
    joined with "; ".  The finalized record is never left [running] and
    has its completion time. *)
Theorem finalize_error_columns (clock : Clock) (run_id : string)
  (state : WorkflowState.t) (db : Store) (run : TicketRun.t) :
  ticket_runs db !! run_id = Some run ->
  started_at_iso8601 clock state = true ->
  exists db' run',
    TicketRepository.finalize_run None clock run_id state db = (Ok tt, db')
    /\ ticket_runs db' !! run_id = Some run'
    /\ (TicketRun.error_occurred run' = true
        <-> WorkflowState.errors state <> [])
    /\ (TicketRun.error_occurred run' = true
        <-> TicketRun.status run' = RunStatus.FAILED)
    /\ (TicketRun.error_occurred run' = true
        <-> TicketRun.error_message run'
            = Some (String.concat "; " (WorkflowState.errors state)))
    /\ (TicketRun.error_occurred run' = false
        <-> TicketRun.error_message run' = None)
    /\ (TicketRun.error_occurred run' = true
        <-> is_Some (TicketRun.error_phase run'))
    /\ TicketRun.status run' <> RunStatus.RUNNING
    /\ TicketRun.completed_at run' = Some (utcnow clock).
Proof.
  intros Hrun Hiso.
  destruct (finalize_run_record clock run_id state db run Hrun Hiso)
    as (run' & Hfin & Herr & Hstatus & Hmsg & Hphase & _ & _ & _ & Hdone & _).
  do 2 eexists. split; [exact Hfin|]. cbn.
  split; [apply lookup_insert_eq|].
  rewrite Herr, Hstatus, Hmsg, Hdone.
  destruct (WorkflowState.errors state) as [|e es] eqn:Herrors.
  - destruct (WorkflowState.is_complete_ticket state) as [[|]|];
      repeat split; try done; intros H; try done;
      apply Hphase in H; done.
  - repeat split; try done. intros _. by apply Hphase.
Qed.

Lemma finalize_error_columns_witness :
  exists db' run',
    TicketRepository.finalize_run None demo_clock "run-0001" errored_state
      one_run_store = (Ok tt, db')
    /\ ticket_runs db' !! "run-0001" = Some run'
    /\ TicketRun.error_message run' = Some "ticket_fetcher: timeout".
Proof.
  destruct (finalize_error_columns demo_clock "run-0001" errored_state
              one_run_store
              (running_record demo_clock "run-0001" "PROJ-1"))
    as (db' & run' & Hfin & Hrow & Herr & _ & Hmsg & _).
  - vm_compute. reflexivity.
  - vm_compute. reflexivity.
  - exists db', run'. split; [exact Hfin|]. split; [exact Hrow|].
    apply Hmsg, Herr. discriminate.
Defined.

(** The pending runs are the records whose outcome is [pending]. *)
Lemma get_pending_pr_runs_spec (db : Store) :
  exists pending,
    TicketRepository.get_pending_pr_runs None db = (Ok pending, db)
    /\ forall run,
         run ∈ pending
         <-> (exists key, ticket_runs db !! key = Some run)
             /\ TicketRun.pr_outcome run = PROutcome.PENDING.
Proof.
  unfold TicketRepository.get_pending_pr_runs, get_db_session.
  eexists. split; [reflexivity|]. intros run.
  rewrite list_elem_of_In, filter_In, <- list_elem_of_In, list_elem_of_fmap.
  split.
  - intros [([key run'] & -> & Hin) Hp]. apply elem_of_map_to_list in Hin.
    cbn in *. split; [by exists key|].
    by destruct (TicketRun.pr_outcome run').
  - intros [[key Hkey] Hp]. split.
    + exists (key, run). split; [done|]. by apply elem_of_map_to_list.
    + by rewrite Hp.
Qed.

(** X13. The pull-request columns [finalize_run] writes: the outcome is
    [pending] exactly when the state carries a pull-request result with a
    non-empty URL, and [not_created] otherwise - never a resolved outcome;
    URL and number are copied from the result; and the finalized record is
    among the runs [get_pending_pr_runs] returns exactly in the [pending]
    case. *)
Theorem finalize_pr_columns (clock : Clock) (run_id : string)
  (state : WorkflowState.t) (db : Store) (run : TicketRun.t) :
  ticket_runs db !! run_id = Some run ->
  started_at_iso8601 clock state = true ->
  exists db' run' pending,
    TicketRepository.finalize_run None clock run_id state db = (Ok tt, db')
    /\ ticket_runs db' !! run_id = Some run'
    /\ (TicketRun.pr_outcome run' = PROutcome.PENDING
        \/ TicketRun.pr_outcome run' = PROutcome.NOT_CREATED)
    /\ (TicketRun.pr_outcome run' = PROutcome.PENDING
        <-> exists pr url,
              WorkflowState.pr_result state = Some pr
              /\ PRCompositionResult.pr_url pr = Some url /\ url <> "")
    /\ TicketRun.pr_url run'
       = WorkflowState.pr_result state ≫= PRCompositionResult.pr_url
    /\ TicketRun.pr_number run'
       = WorkflowState.pr_result state ≫= PRCompositionResult.pr_number
    /\ TicketRepository.get_pending_pr_runs None db' = (Ok pending, db')
    /\ (run' ∈ pending <-> TicketRun.pr_outcome run' = PROutcome.PENDING).
Proof.
  intros Hrun Hiso.
  destruct (finalize_run_record clock run_id state db run Hrun Hiso)
    as (run' & Hfin & _ & _ & _ & _ & Hout & Hurl & Hnum & _).
  destruct (get_pending_pr_runs_spec
              (with_ticket_runs (<[run_id := run']> (ticket_runs db)) db))
    as (pending & Hpending & Hin).
  exists (with_ticket_runs (<[run_id := run']> (ticket_runs db)) db),
    run', pending.
  split; [exact Hfin|]. split; [apply lookup_insert_eq|].
  split; [|split; [|split; [exact Hurl|split; [exact Hnum|split;
    [exact Hpending|]]]]].
  - rewrite Hout. destruct (WorkflowState.pr_result state) as [pr|]; [|by right].
    destruct (truthy_str (PRCompositionResult.pr_url pr)); [by left|by right].
  - rewrite Hout. destruct (WorkflowState.pr_result state) as [pr|].
    + destruct (PRCompositionResult.pr_url pr) as [url|] eqn:Hpr; cbn.
      * destruct url as [|c url]; cbn.
        -- split; [discriminate|]. intros (? & ? & [= <-] & Hu & Hne).
           rewrite Hpr in Hu. by injection Hu as <-.
        -- split; [|done]. intros _. exists pr, (String c url). by rewrite Hpr.
      * split; [discriminate|]. intros (? & ? & [= <-] & Hu & _).
        by rewrite Hpr in Hu.
    + split; [discriminate|]. by intros (? & ? & [=] & _).
  - rewrite Hin. split; [by intros [_ ?]|].
    intros Hp. split; [|done]. exists run_id. apply lookup_insert_eq.
Qed.

Lemma finalize_pr_columns_witness :
  exists db' run',
    TicketRepository.finalize_run None demo_clock "run-0001" pr_created_state
      one_run_store = (Ok tt, db')
    /\ ticket_runs db' !! "run-0001" = Some run'
    /\ TicketRun.pr_outcome run' = PROutcome.PENDING.
Proof.
  destruct (finalize_pr_columns demo_clock "run-0001" pr_created_state
              one_run_store (running_record demo_clock "run-0001" "PROJ-1"))
    as (db' & run' & pending & Hfin & Hrow & _ & Hpending & _).
  - vm_compute. reflexivity.
  - vm_compute. reflexivity.
  - exists db', run'. split; [exact Hfin|]. split; [exact Hrow|].
    apply Hpending.
    exists demo_pr, "https://github.com/org/repo/pull/7".
    split; [reflexivity|]. split; [reflexivity|discriminate].
Defined.

(** X14. [set_pr_outcome], the call behind the approve and reject
    endpoints and the reconciler, rewrites the outcome column of the one
    record and nothing else in it; the last call wins, also over an
    outcome that was already resolved. *)
Theorem set_pr_outcome_last_wins (run_id : string) (first second : PROutcome.t)
  (db : Store) (run : TicketRun.t) :
  ticket_runs db !! run_id = Some run ->
  exists db1 db2,
    TicketRepository.set_pr_outcome None run_id first db = (Ok tt, db1)
    /\ TicketRepository.set_pr_outcome None run_id second db1 = (Ok tt, db2)
    /\ ticket_runs db1 !! run_id
       = Some (TicketRun.setattr run (Kwarg.pr_outcome first))
    /\ ticket_runs db2 !! run_id
       = Some (TicketRun.setattr run (Kwarg.pr_outcome second))
    /\ TicketRun.pr_outcome (TicketRun.setattr run (Kwarg.pr_outcome second))
       = second
    /\ TicketRun.status (TicketRun.setattr run (Kwarg.pr_outcome second))
       = TicketRun.status run
    /\ same_but_run run_id db db2.
Proof.
  intros Hrun.
  unfold TicketRepository.set_pr_outcome, TicketRepository.update_run,
    get_db_session.
  rewrite Hrun. eexists _, _. split; [reflexivity|]. cbn.
  rewrite lookup_insert_eq. split; [reflexivity|]. cbn.
  split; [reflexivity|]. rewrite lookup_insert_eq.
  split; [reflexivity|]. split; [reflexivity|]. split; [reflexivity|].
  split; [|done]. intros other Hother. cbn.
  by rewrite !lookup_insert_ne.
Qed.

Lemma set_pr_outcome_last_wins_witness :
  exists db1 db2,
    TicketRepository.set_pr_outcome None "run-0001" PROutcome.APPROVED
      pending_pr_store = (Ok tt, db1)
    /\ TicketRepository.set_pr_outcome None "run-0001" PROutcome.REJECTED db1
       = (Ok tt, db2)
    /\ (TicketRun.pr_outcome <$> ticket_runs db2 !! "run-0001")
       = Some PROutcome.REJECTED.
Proof.
  assert (Hrow : exists run, ticket_runs pending_pr_store !! "run-0001"
                             = Some run) by (eexists; vm_compute; reflexivity).
  destruct Hrow as [run Hrow].
  destruct (set_pr_outcome_last_wins "run-0001" PROutcome.APPROVED
              PROutcome.REJECTED pending_pr_store run Hrow)
    as (db1 & db2 & H1 & H2 & _ & Hrow2 & Hout & _).
  exists db1, db2. split; [exact H1|]. split; [exact H2|].
  rewrite Hrow2. cbn [fmap option_fmap option_map]. by rewrite Hout.
Defined.

(** X15. How [_check_pr_state] reads the code host's answer: merged wins
    over everything (a closed, merged pull request is [merged]); an
    unmerged closed one is [rejected] even with approving reviews; an open
    one is [approved] when some review is; every other case - no tool, an
    exception, an answer that is no dict - is [pending].  It never
    answers [not_created]. *)
Theorem check_pr_state_precedence (get_pr_tool : GetPullRequest)
  (pr_number : Z) :
  let outcome := PRReconciler._check_pr_state get_pr_tool pr_number in
  let answer :=
    match get_pr_tool with
    | Some tool => match tool pr_number with Ok (Some pr) => Some pr | _ => None end
    | None => None
    end in
  let approving pr := exists r, r ∈ reviews pr /\ r = Some "APPROVED" in
  outcome <> PROutcome.NOT_CREATED
  /\ (outcome = PROutcome.MERGED
      <-> exists pr, answer = Some pr /\ merged pr = true)
  /\ (outcome = PROutcome.REJECTED
      <-> exists pr, answer = Some pr /\ merged pr = false
                     /\ state pr = "closed")
  /\ (outcome = PROutcome.APPROVED
      <-> exists pr, answer = Some pr /\ merged pr = false
                     /\ state pr <> "closed" /\ approving pr).
Proof.
  cbn zeta. unfold PRReconciler._check_pr_state.
  destruct get_pr_tool as [tool|].
  2: { repeat split; try done; by intros (? & [=] & _). }
  destruct (tool pr_number) as [[pr|]|exc].
  2,3: repeat split; try done; by intros (? & [=] & _).
  destruct (merged pr) eqn:Hmerged.
  { repeat split; try done;
      first [ intros _; by exists pr
            | intros (? & [= <-] & Hrest); intuition congruence ]. }
  destruct (String.eqb (state pr) "closed") eqn:Hstate.
  { apply String.eqb_eq in Hstate.
    repeat split; try done;
      first [ intros _; by exists pr
            | intros (? & [= <-] & Hrest); intuition congruence ]. }
  apply String.eqb_neq in Hstate.
  destruct (existsb _ (reviews pr)) eqn:Hrev.
  - apply existsb_exists in Hrev as (r & Hin & Hr).
    destruct r as [s|]; [|done]. apply String.eqb_eq in Hr as ->.
    repeat split; try done;
      try (intros (? & [= <-] & Hrest); intuition congruence).
    intros _. exists pr. repeat split; try done.
    exists (Some "APPROVED"). split; [by apply list_elem_of_In|done].
  - repeat split; try done;
      try (intros (? & [= <-] & Hrest); intuition congruence).
    intros (? & [= <-] & _ & _ & r & Hin & ->).
    assert (Hex : existsb
                    (fun r => match r with
                              | Some s => String.eqb s "APPROVED"
                              | None => false
                              end) (reviews pr) = true).
    { apply existsb_exists. exists (Some "APPROVED").
      split; [by apply list_elem_of_In|]. by apply String.eqb_eq. }
    congruence.
Qed.

Lemma check_pr_state_precedence_witness :
  PRReconciler._check_pr_state merged_pr_tool 7 = PROutcome.MERGED.
Proof.
  apply (proj1 (proj2 (check_pr_state_precedence merged_pr_tool 7))).
  eexists. split; reflexivity.
Defined.

Lemma check_pr_state_created (tool : GetPullRequest) (pr_number : Z) :
  PRReconciler._check_pr_state tool pr_number <> PROutcome.NOT_CREATED.
Proof.
  unfold PRReconciler._check_pr_state.
  destruct tool as [tool|]; [|done].
  destruct (tool pr_number) as [[pr|]|]; try done.
  destruct (merged pr); [done|].
  destruct (String.eqb (state pr) "closed"); [done|].
  by destruct (existsb _ (reviews pr)).
Qed.

Section Reconciler.
Import PRReconciler.

Lemma reconciled_from_refl (tool : GetPullRequest) (db : Store) :
  reconciled_from tool db db.
Proof.
  split; [done|]. split; [done|]. intros key.
  destruct (ticket_runs db !! key); [by left|done].
Qed.

Lemma setattr_pr_outcome_twice (run : TicketRun.t) (o o' : PROutcome.t) :
  TicketRun.setattr (TicketRun.setattr run (Kwarg.pr_outcome o))
    (Kwarg.pr_outcome o')
  = TicketRun.setattr run (Kwarg.pr_outcome o').
Proof. reflexivity. Qed.

(** One write of the loop keeps the relation to the store the pending runs
    were read from. *)
Lemma reconcile_step (tool : GetPullRequest) (fault : option string)
  (db0 db : Store) (run : TicketRun.t) (pr_number : Z) :
  store_wf db0 ->
  reconciled_from tool db0 db ->
  (exists key, ticket_runs db0 !! key = Some run) ->
  TicketRun.pr_outcome run = PROutcome.PENDING ->
  TicketRun.pr_number run = Some pr_number ->
  pr_number <> 0%Z ->
  resolved (_check_pr_state tool pr_number) ->
  reconciled_from tool db0
    (TicketRepository.set_pr_outcome fault (TicketRun.id run)
       (_check_pr_state tool pr_number) db).2.
Proof.
  intros Hwf (Hp & Hg & Hrows) [key Hkey] Hpending Hnum Hnz Hres.
  rewrite (Hwf _ _ Hkey).
  unfold TicketRepository.set_pr_outcome, TicketRepository.update_run,
    get_db_session.
  destruct fault; [by repeat split|].
  pose proof (Hrows key) as Hrow. rewrite Hkey in Hrow.
  assert (Hcur : exists cur,
            ticket_runs db !! key = Some cur
            /\ TicketRun.setattr cur
                 (Kwarg.pr_outcome (_check_pr_state tool pr_number))
               = TicketRun.setattr run
                   (Kwarg.pr_outcome (_check_pr_state tool pr_number))).
  { destruct Hrow as [Hsame|(_ & n & o & _ & _ & _ & _ & Hset)].
    - by exists run.
    - eexists. split; [exact Hset|]. apply setattr_pr_outcome_twice. }
  destruct Hcur as (cur & Hcur & Hset). rewrite Hcur.
  cbn [snd foldl]. rewrite Hset.
  split; [done|]. split; [done|]. intros key'.
  unfold with_ticket_runs. cbn [ticket_runs].
  destruct (decide (key' = key)) as [->|Hne].
  - rewrite Hkey, lookup_insert_eq. right. split; [done|].
    exists pr_number, (_check_pr_state tool pr_number).
    by repeat split.
  - rewrite lookup_insert_ne by done. apply Hrows.
Qed.

Lemma reconcile_loop_from (tool : GetPullRequest)
  (set_fault : string -> option string) (db0 : Store)
  (pending : list TicketRun.t) :
  store_wf db0 ->
  (forall run, run ∈ pending ->
     (exists key, ticket_runs db0 !! key = Some run)
     /\ TicketRun.pr_outcome run = PROutcome.PENDING) ->
  forall db,
    reconciled_from tool db0 db ->
    reconciled_from tool db0 (reconcile_loop tool set_fault pending db).2.
Proof.
  intros Hwf. induction pending as [|run pending IH]; intros Hpending db Hrel;
    [done|].
  assert (Hrest : forall r, r ∈ pending ->
            (exists key, ticket_runs db0 !! key = Some r)
            /\ TicketRun.pr_outcome r = PROutcome.PENDING).
  { intros r Hr. apply Hpending. by right. }
  destruct (Hpending run) as [Hkey Hout]; [by left|].
  cbn [reconcile_loop].
  destruct (TicketRun.pr_number run) as [pr_number|] eqn:Hnum; [|by apply IH].
  assert (Hstep : pr_number <> 0%Z ->
            resolved (_check_pr_state tool pr_number) ->
            reconciled_from tool db0
              (match TicketRepository.set_pr_outcome
                       (set_fault (TicketRun.id run)) (TicketRun.id run)
                       (_check_pr_state tool pr_number) db with
               | (Raised exc, db) => (Raised exc, db)
               | (Ok _, db) => reconcile_loop tool set_fault pending db
               end).2).
  { intros Hnz Hres.
    pose proof (reconcile_step tool (set_fault (TicketRun.id run)) db0 db run
                  pr_number Hwf Hrel Hkey Hout Hnum Hnz Hres) as Hnext.
    destruct (TicketRepository.set_pr_outcome _ _ _ db) as [[[]|exc] db1];
      [by apply IH | exact Hnext]. }
  destruct pr_number as [|p|p]; [by apply IH| |];
    destruct (_check_pr_state tool _) eqn:Hcheck;
    first
      [ by apply IH
      | by (apply Hstep; [done|unfold resolved; auto])
      | exfalso; by eapply check_pr_state_created ].
Qed.

End Reconciler.

(** X16. One pass of the reconciler only resolves pending pull requests.
    Whatever the code host and the database do, [reconcile_pr_outcomes]
    raises nothing, creates and deletes no record, and leaves every record
    as it was except that a record that was [pending] with a pull-request
    number may now carry the [merged], [rejected] or [approved] outcome
    read from the code host - all its other columns, the dedup markers
    and the ground-truth labels being unchanged. *)
Theorem reconcile_only_resolves_pending (pending_fault : option string)
  (mcp : Result GetPullRequest) (set_fault : string -> option string)
  (db : Store) :
  store_wf db ->
  reconciled_from (match mcp with Ok tool => tool | Raised _ => None end) db
    (PRReconciler.reconcile_pr_outcomes pending_fault mcp set_fault db).
Proof.
  intros Hwf.
  unfold PRReconciler.reconcile_pr_outcomes, PRReconciler._reconcile_all.
  destruct pending_fault as [exc|].
  { cbn. apply reconciled_from_refl. }
  destruct (get_pending_pr_runs_spec db) as (pending & -> & Hpending).
  destruct pending as [|run pending]; [apply reconciled_from_refl|].
  destruct mcp as [tool|exc]; [|apply reconciled_from_refl].
  apply reconcile_loop_from; [done| |apply reconciled_from_refl].
  intros r Hr. by apply Hpending.
Qed.

Lemma store_wf_singleton (key : string) (run : TicketRun.t) (db : Store) :
  TicketRun.id run = key -> ticket_runs db = {[key := run]} -> store_wf db.
Proof.
  intros Hid Hruns key' run'. rewrite Hruns.
  intros [-> ->]%lookup_singleton_Some. exact Hid.
Qed.

Lemma reconcile_only_resolves_pending_witness :
  reconciled_from merged_pr_tool pending_pr_store
    (PRReconciler.reconcile_pr_outcomes None (Ok merged_pr_tool)
       (fun _ => None) pending_pr_store)
  /\ (TicketRun.pr_outcome
        <$> ticket_runs
              (PRReconciler.reconcile_pr_outcomes None (Ok merged_pr_tool)
                 (fun _ => None) pending_pr_store) !! "run-0001")
     = Some PROutcome.MERGED.
Proof.
  split; [|vm_compute; reflexivity].
  apply (reconcile_only_resolves_pending None (Ok merged_pr_tool)
           (fun _ => None) pending_pr_store).
  assert (Hrow : exists run, ticket_runs pending_pr_store = {["run-0001" := run]}
                             /\ TicketRun.id run = "run-0001").
  { eexists. split; [vm_compute; reflexivity|reflexivity]. }
  destruct Hrow as (run & Hruns & Hid).
  by eapply store_wf_singleton.
Defined.

(** ** The KPI collector, continued *)

Lemma filter_length_le {A} (p q : A -> bool) (l : list A) :
  (forall x, p x = true -> q x = true) ->
  length (List.filter p l) <= length (List.filter q l) <= length l.
Proof.
  intros Hpq. induction l as [|x l IH]; cbn; [lia|].
  destruct (p x) eqn:Hp.
  - rewrite (Hpq x Hp). cbn. lia.
  - destruct (q x); cbn; lia.
Qed.

(** X17. KPI1 never divides by zero and stays within bounds: the approved
    pull requests are among the resolved ones, the approval rate is their
    quotient and lies between 0 and 1, and without any resolved pull
    request the rate is 0 and the KPI is not met. *)
Theorem kpi1_approval_rate (session : Store) (m : POCMetrics.t) :
  exists m',
    POCMetricsCollector._compute_kpi1 session m = Ok m'
    /\ POCMetrics.total_prs_approved m' <= POCMetrics.total_prs_resolved m'
    /\ POCMetrics.total_prs_resolved m' <= size (ticket_runs session)
    /\ (0 <= POCMetrics.pr_approval_rate m' <= 1)%Q
    /\ (POCMetrics.total_prs_resolved m' = 0 ->
        POCMetrics.pr_approval_rate m' = 0%Q
        /\ POCMetrics.kpi1_met m' = false)
    /\ (0 < POCMetrics.total_prs_resolved m' ->
        (POCMetrics.pr_approval_rate m'
         == inject_Z (Z.of_nat (POCMetrics.total_prs_approved m'))
            / inject_Z (Z.of_nat (POCMetrics.total_prs_resolved m')))%Q).
Proof.
  unfold POCMetricsCollector._compute_kpi1, POCMetricsCollector.count_where,
    POCMetricsCollector.rows.
  set (l := (map_to_list (ticket_runs session)).*2).
  set (approved := length (List.filter
                     (fun tr => match TicketRun.pr_outcome tr with
                                | PROutcome.APPROVED | PROutcome.MERGED => true
                                | _ => false
                                end) l)).
  set (resolved := length (List.filter
                     (fun tr => match TicketRun.pr_outcome tr with
                                | PROutcome.APPROVED | PROutcome.MERGED
                                | PROutcome.REJECTED => true
                                | _ => false
                                end) l)).
  assert (Hle : approved <= resolved <= length l).
  { apply filter_length_le. intros tr.
    by destruct (TicketRun.pr_outcome tr). }
  assert (Hsize : length l = size (ticket_runs session)).
  { unfold l. by rewrite length_fmap, length_map_to_list. }
  clearbody approved resolved.
  destruct resolved as [|n]; cbn.
  - eexists. split; [reflexivity|]. cbn.
    split; [lia|]. split; [lia|]. split; [by split|].
    split; [done|lia].
  - eexists. split; [reflexivity|]. cbn.
    split; [lia|]. split; [lia|]. split; [|split; [lia|]].
    + unfold Qle. cbn. split; [lia|].
      destruct n; cbn; lia.
    + intros _. apply Qmake_of_nat.
Qed.

Lemma kpi1_approval_rate_witness :
  exists m',
    POCMetricsCollector._compute_kpi1 kpi3_scenario_store POCMetrics.new = Ok m'
    /\ POCMetrics.pr_approval_rate m' = 0%Q
    /\ POCMetrics.kpi1_met m' = false.
Proof.
  destruct (kpi1_approval_rate kpi3_scenario_store POCMetrics.new)
    as (m' & Hcompute & _ & _ & _ & Hzero & _).
  exists m'. split; [exact Hcompute|]. apply Hzero.
  assert (Hm : Ok m' = POCMetricsCollector._compute_kpi1 kpi3_scenario_store
                         POCMetrics.new) by (by rewrite Hcompute).
  vm_compute in Hm. by injection Hm as ->.
Defined.

(** The approval scenario of the unit tests: two approved, one rejected. *)
Example kpi1_two_of_three :
  exists m',
    POCMetricsCollector._compute_kpi1 kpi1_scenario_store POCMetrics.new = Ok m'
    /\ POCMetrics.total_prs_approved m' = 2
    /\ POCMetrics.total_prs_resolved m' = 3
    /\ (POCMetrics.pr_approval_rate m' == 2 # 3)%Q
    /\ POCMetrics.kpi1_met m' = true.
Proof. eexists. split; [vm_compute; reflexivity|]. by repeat split. Qed.

Lemma filter_snd_length {A B} (f : B -> bool) (l : list (A * B)) :
  length (List.filter f l.*2)
  = length (List.filter (fun kv => f kv.2) l).
Proof.
  induction l as [|[a b] l IH]; cbn; [done|].
  destruct (f b); cbn; by rewrite IH.
Qed.

(** The labelled tickets that are truly incomplete are as many as the rows
    counted by the query. *)
Lemma truly_incomplete_keys (gt : gmap string TicketGroundTruth.t) :
  exists keys : list string,
    NoDup keys
    /\ length keys
       = POCMetricsCollector.count_where TicketGroundTruth.truly_incomplete gt
    /\ forall key,
         key ∈ keys
         <-> exists label, gt !! key = Some label
                           /\ TicketGroundTruth.truly_incomplete label = true.
Proof.
  exists (List.filter
            (fun kv : string * TicketGroundTruth.t =>
               TicketGroundTruth.truly_incomplete kv.2)
            (map_to_list gt)).*1.
  split; [|split].
  - assert (Hnodup : NoDup (map_to_list gt).*1) by apply NoDup_fst_map_to_list.
    revert Hnodup. induction (map_to_list gt) as [|[k v] l IH]; cbn;
      [constructor|].
    intros [Hnotin Hnodup]%NoDup_cons.
    destruct (TicketGroundTruth.truly_incomplete v); cbn; [|by apply IH].
    apply NoDup_cons. split; [|by apply IH].
    intros Hin. apply Hnotin.
    apply list_elem_of_fmap in Hin as ([k' v'] & -> & Hin).
    apply list_elem_of_In, filter_In in Hin as [Hin _].
    apply list_elem_of_fmap. exists (k', v'). split; [done|].
    by apply list_elem_of_In.
  - unfold POCMetricsCollector.count_where, POCMetricsCollector.rows.
    by rewrite length_fmap, filter_snd_length.
  - intros key. rewrite list_elem_of_fmap. split.
    + intros ([k v] & -> & Hin).
      apply list_elem_of_In, filter_In in Hin as [Hin Hp].
      exists v. split; [|done].
      by apply elem_of_map_to_list, list_elem_of_In.
    + intros (label & Hlabel & Htrue). exists (key, label).
      split; [done|]. apply list_elem_of_In, filter_In.
      split; [|done]. by apply list_elem_of_In, elem_of_map_to_list.
Qed.

(** X18. KPI2 stays within bounds: the true positives are at most the
    tickets labelled truly incomplete, so the detection rate lies between
    0 and 1; and the KPI is met exactly when there is such a label and at
    least half of the labelled tickets were flagged by some run. *)
Theorem kpi2_rate_bounds (session : Store) (m : POCMetrics.t) :
  POCMetrics.true_positive_detections m = 0 ->
  exists m',
    POCMetricsCollector._compute_kpi2 session m = Ok m'
    /\ POCMetrics.true_positive_detections m'
       <= POCMetrics.total_ground_truth_incomplete m'
    /\ (0 <= POCMetrics.incomplete_detection_rate m' <= 1)%Q
    /\ (POCMetrics.kpi2_met m' = true
        <-> 0 < POCMetrics.total_ground_truth_incomplete m'
            /\ POCMetrics.total_ground_truth_incomplete m'
               <= 2 * POCMetrics.true_positive_detections m').
Proof.
  intros Hnew.
  destruct (truly_incomplete_keys (ticket_ground_truth session))
    as (keys & Hnodup & Hlen & Hkeys).
  unfold POCMetricsCollector._compute_kpi2.
  rewrite <- Hlen.
  destruct (length keys) as [|n] eqn:Hn.
  - eexists. split; [reflexivity|]. cbn.
    rewrite Hnew. split; [lia|]. split; [by split|].
    split; [discriminate|lia].
  - eexists. split; [reflexivity|]. cbn.
    set (tp := size _).
    assert (Hbound : tp <= S n).
    { unfold tp.
      rewrite <- Hn, <- (size_list_to_set (C := gset string) keys Hnodup).
      apply subseteq_size. intros ticket Hin.
      apply elem_of_list_to_set, Hkeys.
      apply joined_true_positive in Hin as [_ Hlabel]. exact Hlabel. }
    clearbody tp.
    split; [lia|].
    assert (Hd : Z.pos (Pos.of_nat (S n)) = Z.of_nat (S n)).
    { rewrite <- Pos.of_nat_succ, Zpos_P_of_succ_nat. lia. }
    revert Hd. generalize (Pos.of_nat (S n)). intros d Hd.
    rewrite Qle_bool_iff. unfold Qle. cbn [Qnum Qden]. lia.
Qed.

Lemma kpi2_rate_bounds_witness :
  exists m',
    POCMetricsCollector._compute_kpi2 kpi2_scenario_store POCMetrics.new = Ok m'
    /\ POCMetrics.true_positive_detections m' = 1
    /\ POCMetrics.total_ground_truth_incomplete m' = 2
    /\ POCMetrics.kpi2_met m' = true.
Proof.
  destruct (kpi2_rate_bounds kpi2_scenario_store POCMetrics.new eq_refl)
    as (m' & Hcompute & _ & _ & Hmet).
  exists m'. split; [exact Hcompute|].
  assert (Hm : Ok m' = POCMetricsCollector._compute_kpi2 kpi2_scenario_store
                         POCMetrics.new) by (by rewrite Hcompute).
  vm_compute in Hm. injection Hm as Hm.
  assert (Htp : POCMetrics.true_positive_detections m' = 1) by (by rewrite Hm).
  assert (Hgt : POCMetrics.total_ground_truth_incomplete m' = 2)
    by (by rewrite Hm).
  split; [exact Htp|]. split; [exact Hgt|].
  apply Hmet. rewrite Htp, Hgt. lia.
Defined.

Section KPI3Counts.
Import POCMetricsCollector.

Lemma error_free_negb (r : bool * RunStatus.t) :
  error_free r = negb (r.1 || RunStatus.eqb r.2 RunStatus.FAILED).
Proof. destruct r as [[] s]; by destruct s. Qed.

Lemma count_trailing_le_error_free (l : list (bool * RunStatus.t)) :
  count_trailing l 0 <= length (List.filter error_free l).
Proof.
  induction l as [|r l IH]; cbn; [lia|].
  destruct (error_free r); [|lia].
  rewrite count_trailing_acc. cbn. lia.
Qed.

Lemma filter_split_length {A} (p : A -> bool) (l : list A) :
  length (List.filter p l) + length (List.filter (fun x => negb (p x)) l)
  = length l.
Proof.
  induction l as [|x l IH]; cbn; [done|]. destruct (p x); cbn; lia.
Qed.

Lemma filter_length_rev {A} (p : A -> bool) (l : list A) :
  length (List.filter p (rev l)) = length (List.filter p l).
Proof.
  induction l as [|x l IH]; cbn; [done|].
  rewrite List.filter_app, length_app, IH. cbn. destruct (p x); cbn; lia.
Qed.

Lemma count_trailing_all (l : list (bool * RunStatus.t)) :
  Forall (fun r => error_free r = true) l -> count_trailing l 0 = length l.
Proof.
  induction 1 as [|r l Hr _ IH]; cbn; [done|].
  by rewrite Hr, count_trailing_acc, IH.
Qed.

End KPI3Counts.

(** X19. The counters of KPI3 fit together: every run is counted either
    as an error run or as error-free, the trailing streak never exceeds
    the number of error-free runs, it equals the number of runs exactly
    when there is no error run, and it is 0 exactly when there is no run
    at all or the most recent run has an error. *)
Theorem kpi3_counters (session : Store) (m : POCMetrics.t) :
  let runs := POCMetricsCollector.select_error_status session in
  let m' := POCMetricsCollector._compute_kpi3 session m in
  let streak := POCMetrics.consecutive_error_free_runs m' in
  POCMetrics.total_runs m' = size (ticket_runs session)
  /\ POCMetrics.total_error_runs m' <= POCMetrics.total_runs m'
  /\ streak + POCMetrics.total_error_runs m' <= POCMetrics.total_runs m'
  /\ (streak = POCMetrics.total_runs m' <-> POCMetrics.total_error_runs m' = 0)
  /\ (streak = 0
      <-> runs = []
          \/ exists latest, last runs = Some latest
                            /\ POCMetricsCollector.error_free latest = false).
Proof.
  cbn zeta. unfold POCMetricsCollector._compute_kpi3,
    POCMetricsCollector.kpi3_of_runs.
  cbn [POCMetrics.total_runs POCMetrics.total_error_runs
       POCMetrics.consecutive_error_free_runs].
  assert (Hsize : length (POCMetricsCollector.select_error_status session)
                  = size (ticket_runs session)).
  { unfold POCMetricsCollector.select_error_status,
      POCMetricsCollector.runs_by_start, POCMetricsCollector.rows.
    rewrite length_fmap.
    rewrite (Permutation_length (merge_sort_Permutation _ _)).
    by rewrite length_fmap, length_map_to_list. }
  set (runs := POCMetricsCollector.select_error_status session) in *.
  clearbody runs.
  set (errs := length (List.filter _ runs)).
  assert (Hsplit : length (List.filter POCMetricsCollector.error_free runs)
                   + errs = length runs).
  { unfold errs. rewrite <- (filter_split_length
                               POCMetricsCollector.error_free runs).
    f_equal. f_equal. apply filter_ext. intros r.
    rewrite error_free_negb. by rewrite negb_involutive. }
  pose proof (count_trailing_le_error_free (rev runs)) as Hle.
  rewrite filter_length_rev in Hle.
  split; [done|]. split; [lia|]. split; [lia|]. split; [split|].
  - intros Heq. lia.
  - intros Hzero.
    rewrite <- (length_rev runs). apply count_trailing_all.
    apply Forall_rev. apply Forall_forall. intros r Hin.
    destruct (POCMetricsCollector.error_free r) eqn:Hr; [done|].
    exfalso. assert (Hpos : 0 < errs); [|lia].
    unfold errs.
    assert (Hin' : In r (List.filter
                          (fun r => r.1 || RunStatus.eqb r.2 RunStatus.FAILED)
                          runs)).
    { apply filter_In. split; [by apply list_elem_of_In|].
      rewrite error_free_negb in Hr. by apply negb_false_iff in Hr. }
    destruct (List.filter _ runs); [done|cbn; lia].
  - destruct runs as [|r runs _] using rev_ind.
    + cbn. split; [by left|done].
    + rewrite rev_app_distr, last_snoc. cbn.
      destruct (POCMetricsCollector.error_free r) eqn:Hr.
      * rewrite count_trailing_acc. split; [lia|].
        intros [Hnil|(latest & [= <-] & Hfalse)]; [|congruence].
        by destruct runs.
      * split; [|done]. intros _. right. by exists r.
Qed.

Lemma kpi3_counters_witness :
  POCMetrics.consecutive_error_free_runs
    (POCMetricsCollector._compute_kpi3 empty_store POCMetrics.new) = 0.
Proof.
  apply (proj2 (proj2 (proj2 (proj2 (kpi3_counters empty_store
                                       POCMetrics.new))))).
  left. reflexivity.
Defined.

(** ** A whole run and the store *)

(** The store [run_workflow] hands to [finalize_run]: the store it was
    given plus the record of the run and the marker of the ticket. *)
Lemma run_workflow_startup_store (env : Env) (w : World) (stages : Stages)
  (ticket_id : string) (db : Store) :
  startup_ok env db ->
  exists db1 marker,
    (forall fault,
       run_workflow (with_finalize_run_fault fault env) w stages ticket_id db
       = (Ok (try_invoke w stages (initial_state w (uuid4 env) ticket_id)),
          (TicketRepository.finalize_run fault (clock_at_end env) (uuid4 env)
             (try_invoke w stages (initial_state w (uuid4 env) ticket_id))
             db1).2))
    /\ ticket_runs db1
       = <[uuid4 env := running_record (clock_at_start env) (uuid4 env)
                          ticket_id]> (ticket_runs db)
    /\ processed_tickets db1
       = <[ticket_id := marker]> (processed_tickets db)
    /\ ProcessedTicket.last_run_id marker = Some (uuid4 env)
    /\ ProcessedTicket.reprocess_requested marker = false
    /\ ticket_ground_truth db1 = ticket_ground_truth db.
Proof.
  intros (Hinit & Hcreate & Hmark & Hfresh).
  unfold run_workflow, init_db, TicketRepository.create_run,
    TicketRepository.mark_ticket_queued, get_db_session. cbn.
  rewrite Hinit, Hcreate, Hmark, Hfresh. cbn.
  destruct (processed_tickets db !! ticket_id); cbn;
    eexists _, _; (split; [intros fault; reflexivity|]); cbn;
    by repeat split.
Qed.

Lemma with_finalize_run_fault_id (env : Env) :
  with_finalize_run_fault (finalize_run_fault env) env = env.
Proof. by destruct env. Qed.

(** X20. After [run_workflow] has returned, the ticket counts as
    processed and its marker names this run, the record of the run exists
    under the run id with the ticket id, and nothing else in the store has
    changed: not the records of other runs, not the markers of other
    tickets, not the ground-truth labels.  This holds whatever the stages
    did and whether or not finalizing failed. *)
Theorem run_workflow_marks_ticket (env : Env) (w : World) (stages : Stages)
  (ticket_id : string) (db : Store) :
  startup_ok env db ->
  exists final db' run marker,
    run_workflow env w stages ticket_id db = (Ok final, db')
    /\ TicketRepository.is_ticket_processed None ticket_id db' = (Ok true, db')
    /\ processed_tickets db' !! ticket_id = Some marker
    /\ ProcessedTicket.last_run_id marker = Some (uuid4 env)
    /\ ticket_runs db' !! uuid4 env = Some run
    /\ TicketRun.id run = uuid4 env
    /\ TicketRun.ticket_id run = ticket_id
    /\ (forall other, other <> uuid4 env ->
          ticket_runs db' !! other = ticket_runs db !! other)
    /\ (forall other, other <> ticket_id ->
          processed_tickets db' !! other = processed_tickets db !! other)
    /\ ticket_ground_truth db' = ticket_ground_truth db
    /\ (store_wf db -> store_wf db').
Proof.
  intros Hstart.
  destruct (run_workflow_startup_store env w stages ticket_id db Hstart)
    as (db1 & marker & Hrun & Hruns & Hmarkers & Hlast & Hflag & Hgt).
  specialize (Hrun (finalize_run_fault env)).
  rewrite with_finalize_run_fault_id in Hrun.
  set (final := try_invoke w stages (initial_state w (uuid4 env) ticket_id))
    in *.
  destruct (finalize_run_store (finalize_run_fault env) (clock_at_end env)
              (uuid4 env) final db1)
    as ((Hother & Hp & Hg) & _ & Hrow & Hwf).
  set (db' := (TicketRepository.finalize_run (finalize_run_fault env)
                 (clock_at_end env) (uuid4 env) final db1).2) in *.
  destruct (Hrow (running_record (clock_at_start env) (uuid4 env) ticket_id))
    as (run & Hrun' & Hid & Htid & _).
  { rewrite Hruns. apply lookup_insert_eq. }
  exists final, db', run, marker. split; [exact Hrun|].
  assert (Hmarker : processed_tickets db' !! ticket_id = Some marker).
  { rewrite Hp, Hmarkers. apply lookup_insert_eq. }
  split.
  { unfold TicketRepository.is_ticket_processed, get_db_session.
    by rewrite Hmarker, Hflag. }
  split; [exact Hmarker|]. split; [exact Hlast|]. split; [exact Hrun'|].
  split; [exact Hid|]. split; [exact Htid|]. split.
  { intros other Hne. rewrite Hother by done. rewrite Hruns.
    by apply lookup_insert_ne. }
  split.
  { intros other Hne. rewrite Hp, Hmarkers. by apply lookup_insert_ne. }
  split; [by rewrite Hg|].
  intros Hwf0. apply Hwf. intros key r. rewrite Hruns.
  destruct (decide (key = uuid4 env)) as [->|Hne].
  - rewrite lookup_insert_eq. by intros [= <-].
  - rewrite lookup_insert_ne by done. apply Hwf0.
Qed.

Lemma run_workflow_marks_ticket_witness :
  exists final db',
    run_workflow locked_at_finalize_env ticket_not_found_world raising_stages
      "PROJ-1" empty_store = (Ok final, db')
    /\ TicketRepository.is_ticket_processed None "PROJ-1" db' = (Ok true, db').
Proof.
  destruct (run_workflow_marks_ticket locked_at_finalize_env
              ticket_not_found_world raising_stages "PROJ-1" empty_store)
    as (final & db' & run & marker & Hrun & Hprocessed & _).
  - unfold startup_ok. cbn. auto.
  - exists final, db'. split; [exact Hrun | exact Hprocessed].
Defined.

(** X21. What a finished run leaves in its record.  When the database
    accepts the final write and the start time reads back, the record of
    the run is no longer [running]: its status is [failed] exactly when
    the returned state has an [errors] entry, and its snapshot is the
    returned state.  When the final write fails, the record stays as it
    was created: [running], without completion time. *)
Theorem run_workflow_record (env : Env) (w : World) (stages : Stages)
  (ticket_id : string) (db : Store) :
  startup_ok env db ->
  exists final db' run,
    run_workflow env w stages ticket_id db = (Ok final, db')
    /\ ticket_runs db' !! uuid4 env = Some run
    /\ (finalize_run_fault env = None ->
        started_at_iso8601 (clock_at_end env) final = true ->
        TicketRun.status run <> RunStatus.RUNNING
        /\ (TicketRun.status run = RunStatus.FAILED
            <-> WorkflowState.errors final <> [])
        /\ TicketRun.completed_at run = Some (utcnow (clock_at_end env))
        /\ TicketRun.final_state_snapshot run = Some final)
    /\ (is_Some (finalize_run_fault env)
        \/ started_at_iso8601 (clock_at_end env) final = false ->
        run = running_record (clock_at_start env) (uuid4 env) ticket_id).
Proof.
  intros Hstart.
  destruct (run_workflow_startup_store env w stages ticket_id db Hstart)
    as (db1 & marker & Hrun & Hruns & _).
  specialize (Hrun (finalize_run_fault env)).
  rewrite with_finalize_run_fault_id in Hrun.
  set (final := try_invoke w stages (initial_state w (uuid4 env) ticket_id))
    in *.
  assert (Hrow : ticket_runs db1 !! uuid4 env
                 = Some (running_record (clock_at_start env) (uuid4 env)
                           ticket_id)).
  { rewrite Hruns. apply lookup_insert_eq. }
  destruct (started_at_iso8601 (clock_at_end env) final) eqn:Hiso;
    destruct (finalize_run_fault env) as [exc|] eqn:Hfault.
  - exists final, db1, (running_record (clock_at_start env) (uuid4 env)
                          ticket_id).
    destruct (finalize_run_fault_raises exc (clock_at_end env) (uuid4 env)
                final db1) as [raised Hraise].
    rewrite Hraise in Hrun. by repeat split.
  - destruct (finalize_run_record (clock_at_end env) (uuid4 env) final db1 _
                Hrow Hiso)
      as (run & Hfin & _ & Hstatus & _ & _ & _ & _ & _ & Hdone & _ & Hsnap).
    rewrite Hfin in Hrun. cbn [snd] in Hrun.
    exists final,
      (with_ticket_runs (<[uuid4 env := run]> (ticket_runs db1)) db1), run.
    split; [exact Hrun|]. cbn.
    split; [apply lookup_insert_eq|]. split.
    + intros _ _. rewrite Hstatus, Hdone, Hsnap.
      destruct (WorkflowState.errors final);
        destruct (WorkflowState.is_complete_ticket final) as [[|]|];
        by repeat split.
    + intros [Hs|Hf]; [by destruct Hs | congruence].
  - exists final, db1, (running_record (clock_at_start env) (uuid4 env)
                          ticket_id).
    destruct (finalize_run_fault_raises exc (clock_at_end env) (uuid4 env)
                final db1) as [raised Hraise].
    rewrite Hraise in Hrun. by repeat split.
  - exists final, db1, (running_record (clock_at_start env) (uuid4 env)
                          ticket_id).
    assert (Hraise : exists raised,
              TicketRepository.finalize_run None (clock_at_end env)
                (uuid4 env) final db1 = (Raised raised, db1)).
    { unfold TicketRepository.finalize_run, TicketRepository.finalize_updates.
      unfold started_at_iso8601 in Hiso.
      apply orb_false_iff in Hiso as [Ht Hparse].
      apply negb_false_iff in Ht. rewrite Ht.
      apply bool_decide_eq_false in Hparse.
      destruct (fromisoformat (clock_at_end env) _) as [dt|] eqn:Hdt;
        [exfalso; by apply Hparse|]. cbn. by eexists. }
    destruct Hraise as [raised Hraise]. rewrite Hraise in Hrun.
    split; [exact Hrun|]. split; [exact Hrow|].
    split; [intros; congruence | done].
Qed.

Lemma run_workflow_record_witness :
  exists final db' run,
    run_workflow locked_at_finalize_env ticket_not_found_world
      (source_stages ticket_not_found_world) "PROJ-1" empty_store
    = (Ok final, db')
    /\ ticket_runs db' !! "run-0001" = Some run
    /\ TicketRun.status run = RunStatus.RUNNING.
Proof.
  destruct (run_workflow_record locked_at_finalize_env ticket_not_found_world
              (source_stages ticket_not_found_world) "PROJ-1" empty_store)
    as (final & db' & run & Hrun & Hrow & _ & Hkept).
  - unfold startup_ok. cbn. auto.
  - exists final, db', run. split; [exact Hrun|]. split; [exact Hrow|].
    rewrite Hkept; [reflexivity|]. left. by eexists.
Defined.

(** X22. A ticket that cannot be fetched leaves a failed run behind: with
    a working database, the record of the run ends with status [failed],
    the error flag set, the three error entries of the run joined in
    [error_message], no pull request and no model call counted. *)
Theorem failed_fetch_record (env : Env) (w : World) (ticket_id exc : string)
  (db : Store) :
  startup_ok env db ->
  finalize_run_fault env = None ->
  _fetch_ticket_via_mcp w ticket_id = Raised exc ->
  is_Some (fromisoformat (clock_at_end env) (now_at_start w)) ->
  exists final db' run,
    run_workflow env w (source_stages w) ticket_id db = (Ok final, db')
    /\ ticket_runs db' !! uuid4 env = Some run
    /\ TicketRun.status run = RunStatus.FAILED
    /\ TicketRun.error_occurred run = true
    /\ TicketRun.error_message run
       = Some (String.concat "; "
                 [("ticket_fetcher: " ++ exc)%string;
                  "completeness_agent: ticket_context is None";
                  "post_clarification: completeness_result is None"])
    /\ TicketRun.pr_outcome run = PROutcome.NOT_CREATED
    /\ TicketRun.pr_url run = None
    /\ TicketRun.total_llm_calls run = 0%Z.
Proof.
  intros Hstart Hfault Hfetch Hparse.
  destruct (run_workflow_startup_store env w (source_stages w) ticket_id db
              Hstart) as (db1 & marker & Hrun & Hruns & _).
  specialize (Hrun (finalize_run_fault env)).
  rewrite with_finalize_run_fault_id in Hrun.
  destruct (invoke_failed_fetch w (uuid4 env) ticket_id exc Hfetch)
    as (trace & final & Hinvoke & _ & Hfinal).
  assert (Htry : try_invoke w (source_stages w)
                   (initial_state w (uuid4 env) ticket_id) = final).
  { unfold try_invoke, invoke. by rewrite Hinvoke. }
  rewrite Htry, Hfault in Hrun.
  assert (Hrow : ticket_runs db1 !! uuid4 env
                 = Some (running_record (clock_at_start env) (uuid4 env)
                           ticket_id)).
  { rewrite Hruns. apply lookup_insert_eq. }
  assert (Hiso : started_at_iso8601 (clock_at_end env) final = true).
  { unfold started_at_iso8601. rewrite Hfinal. cbn.
    apply orb_true_iff. right. by apply bool_decide_eq_true. }
  destruct (finalize_run_record (clock_at_end env) (uuid4 env) final db1 _
              Hrow Hiso)
    as (run & Hfin & Herr & Hstatus & Hmsg & _ & Hout & Hurl & _ & _ & Hcalls
        & _).
  rewrite Hfin in Hrun. cbn [snd] in Hrun.
  exists final,
    (with_ticket_runs (<[uuid4 env := run]> (ticket_runs db1)) db1), run.
  split; [exact Hrun|]. cbn [ticket_runs with_ticket_runs].
  split; [apply lookup_insert_eq|].
  rewrite Hstatus, Herr, Hmsg, Hout, Hurl, Hcalls, Hfinal.
  by repeat split.
Qed.

Lemma failed_fetch_record_witness :
  exists final db' run,
    run_workflow healthy_env ticket_not_found_world
      (source_stages ticket_not_found_world) "PROJ-1" empty_store
    = (Ok final, db')
    /\ ticket_runs db' !! "run-0001" = Some run
    /\ TicketRun.status run = RunStatus.FAILED.
Proof.
  destruct (failed_fetch_record healthy_env ticket_not_found_world "PROJ-1"
              "Ticket PROJ-1 not found via JQL search" empty_store)
    as (final & db' & run & Hrun & Hrow & Hstatus & _).
  - unfold startup_ok. cbn. auto.
  - reflexivity.
  - reflexivity.
  - by eexists.
  - exists final, db', run. split; [exact Hrun|]. by split.
Defined.

(** ** The poller *)

Section PollerFacts.
Import Poller.

(** What one run does to the markers and to the run ids still unused. *)
Lemma run_workflow_effect (env : Env) (w : World) (stages : Stages)
  (ticket_id : string) (db : Store) :
  startup_ok env db ->
  let db' := (run_workflow env w stages ticket_id db).2 in
  processed db' ticket_id
  /\ (forall other, other <> ticket_id ->
        processed_tickets db' !! other = processed_tickets db !! other)
  /\ (forall other, other <> uuid4 env ->
        ticket_runs db' !! other = ticket_runs db !! other)
  /\ ticket_ground_truth db' = ticket_ground_truth db.
Proof.
  intros Hstart. cbn zeta.
  destruct (run_workflow_startup_store env w stages ticket_id db Hstart)
    as (db1 & marker & Hrun & Hruns & Hmarkers & Hlast & Hflag & Hgt).
  specialize (Hrun (finalize_run_fault env)).
  rewrite with_finalize_run_fault_id in Hrun. rewrite Hrun. cbn [snd].
  destruct (finalize_run_store (finalize_run_fault env) (clock_at_end env)
              (uuid4 env)
              (try_invoke w stages (initial_state w (uuid4 env) ticket_id))
              db1)
    as ((Hother & Hp & Hg) & _).
  split; [|split; [|split]].
  - exists marker. split; [|done]. rewrite Hp, Hmarkers.
    apply lookup_insert_eq.
  - intros other Hne. rewrite Hp, Hmarkers. by apply lookup_insert_ne.
  - intros other Hne. rewrite Hother, Hruns by done.
    by apply lookup_insert_ne.
  - by rewrite Hg.
Qed.



(** The runs triggered for a list of tickets leave each of them processed
    and touch no other marker. *)
Lemma trigger_effect (run_of : nat -> Env * World) (ids : list string) :
  forall k db,
    (forall j, init_db_fault (run_of j).1 = None
               /\ create_run_fault (run_of j).1 = None
               /\ mark_ticket_queued_fault (run_of j).1 = None) ->
    (forall j, k <= j -> ticket_runs db !! uuid4 (run_of j).1 = None) ->
    (forall i j, uuid4 (run_of i).1 = uuid4 (run_of j).1 -> i = j) ->
    let db' := trigger run_of k ids db in
    (forall t, t ∈ ids -> processed db' t)
    /\ (forall t, t ∉ ids ->
          processed_tickets db' !! t = processed_tickets db !! t)
    /\ ticket_ground_truth db' = ticket_ground_truth db.
Proof.
  induction ids as [|tid ids IH]; intros k db Hfaults Hfresh Hinj; cbn zeta.
  - cbn. split; [by intros t ?%elem_of_nil|]. by split.
  - cbn [trigger]. destruct (run_of k) as [env w] eqn:Hk.
    assert (Hstart : startup_ok env db).
    { destruct (Hfaults k) as (H1 & H2 & H3). rewrite Hk in H1, H2, H3.
      repeat split; try done. specialize (Hfresh k (le_n _)).
      by rewrite Hk in Hfresh. }
    destruct (run_workflow_effect env w (source_stages w) tid db Hstart)
      as (Hproc & Hmarkers & Hruns & Hgt).
    set (db1 := (run_workflow env w (source_stages w) tid db).2) in *.
    destruct (IH (S k) db1 Hfaults) as (Hall & Hframe & Hgt'); [|done|].
    { intros j Hj. rewrite Hruns; [apply Hfresh; lia|].
      intros Heq. assert (j = k); [|lia]. apply Hinj.
      by rewrite Hk. }
    split; [|split].
    + intros t [->|Hin]%elem_of_cons; [|by apply Hall].
      destruct (decide (tid ∈ ids)) as [Hin|Hnotin]; [by apply Hall|].
      destruct Hproc as (m & Hm & Hflag). exists m.
      by rewrite Hframe.
    + intros t Hnotin. apply not_elem_of_cons in Hnotin as [Hne Hnotin].
      rewrite Hframe by done. by apply Hmarkers.
    + by rewrite Hgt'.
Qed.

End PollerFacts.

Lemma zeros_inj (j k : nat) : zeros j = zeros k -> j = k.
Proof.
  revert k. induction j as [|j IH]; intros [|k]; cbn.
  - done.
  - intros [= H]. by destruct k.
  - intros [= H]. by destruct j.
  - intros [= H]. f_equal. by apply IH.
Qed.

Lemma numbered_runs_fresh (db : Store) :
  ticket_runs db = ∅ -> fresh_runs numbered_runs db.
Proof.
  intros Hdb. split; [done|]. split.
  - intros k. rewrite Hdb. apply lookup_empty.
  - intros j k [= H]. by apply zeros_inj.
Qed.



(** X24.  A poll touches only the tickets it triggers: the marker of a
    ticket that was already processed, or that the search answer does not
    name, is after the poll what it was before, and no ground-truth label
    changes. *)
Theorem poll_skips_processed_tickets (search : SearchAnswer)
  (fault : string -> option string) (run_of : nat -> Env * World)
  (db : Store) (ticket_id : string) :
  fresh_runs run_of db ->
  processed db ticket_id
  \/ (forall keys, search = issues keys -> Some ticket_id ∉ keys) ->
  let db' := (Poller.poll_and_trigger search fault run_of db).2 in
  processed_tickets db' !! ticket_id = processed_tickets db !! ticket_id
  /\ ticket_ground_truth db' = ticket_ground_truth db.
Proof.
  intros (Hfaults & Hfresh & Hinj) Hskip. cbn zeta.
  assert (Hsub : forall ids todo,
    Poller.unprocessed fault db ids = Ok todo ->
    forall t, t ∈ todo -> t ∈ ids /\ ~ processed db t).
  { induction ids as [|tid ids IH]; cbn [Poller.unprocessed].
    - intros todo [= <-] t Ht. by apply elem_of_nil in Ht.
    - intros todo.
      unfold TicketRepository.is_ticket_processed at 1, get_db_session.
      destruct (fault tid); [done|].
      destruct (Poller.unprocessed fault db ids) as [rest|] eqn:Hrest;
        [|by destruct (processed_tickets db !! tid)].
      specialize (IH rest eq_refl).
      assert (Hright : forall t, t ∈ rest -> t ∈ tid :: ids /\ ~ processed db t).
      { intros t Ht. destruct (IH t Ht). split; [by right|done]. }
      unfold processed.
      destruct (processed_tickets db !! tid) as [row|] eqn:Hrow; cbn.
      + destruct (ProcessedTicket.reprocess_requested row) eqn:Hflag; cbn;
          intros [= <-]; [|done].
        intros t [->|Ht]%elem_of_cons; [|by apply Hright].
        split; [by left|]. intros (m & Hm & Hm').
        rewrite Hrow in Hm. injection Hm as <-. congruence.
      + intros [= <-] t [->|Ht]%elem_of_cons; [|by apply Hright].
        split; [by left|]. intros (m & Hm & _). congruence. }
  assert (Hids : forall ids,
    (processed db ticket_id \/ ticket_id ∉ ids) ->
    let db' := match Poller.unprocessed fault db ids with
               | Ok todo => Poller.trigger run_of 0 todo db
               | Raised _ => db
               end in
    processed_tickets db' !! ticket_id = processed_tickets db !! ticket_id
    /\ ticket_ground_truth db' = ticket_ground_truth db).
  { intros ids Hcase. cbn zeta.
    destruct (Poller.unprocessed fault db ids) as [todo|] eqn:Htodo; [|done].
    destruct (trigger_effect run_of todo 0 db Hfaults) as (_ & Hframe & Hgt);
      [by intros; apply Hfresh | done |].
    split; [|done]. apply Hframe. intros Hin.
    destruct (Hsub ids todo Htodo ticket_id Hin) as [Hin' Hnot].
    by destruct Hcase. }
  unfold Poller.poll_and_trigger, Poller._fetch_ready_ticket_ids.
  destruct search as [| exc | | keys];
    cbn [snd Poller.unprocessed Poller.all_ids omap Poller.trigger];
    try done.
  specialize (Hids (Poller.all_ids keys)). cbn zeta in Hids.
  destruct (Poller.unprocessed fault db (Poller.all_ids keys)) as [todo|];
    cbn [snd]; apply Hids.
  all: destruct Hskip as [Hproc|Hnone]; [by left|right].
  all: specialize (Hnone keys eq_refl); intros Hin; apply Hnone.
  all: unfold Poller.all_ids in Hin; apply list_elem_of_omap in Hin
         as (key & Hkey & Hsome).
  all: destruct (truthy_str key); [|done]; by subst.
Qed.

Lemma poll_skips_processed_tickets_witness :
  let search := issues [Some "PROJ-1"; Some "PROJ-2"] in
  let db' := (Poller.poll_and_trigger search (fun _ => None) numbered_runs
                queued_store).2 in
  (fresh_runs numbered_runs queued_store /\ processed queued_store "PROJ-1")
  /\ processed_tickets db' !! "PROJ-1" = processed_tickets queued_store !! "PROJ-1"
  /\ ticket_ground_truth db' = ticket_ground_truth queued_store.
Proof.
  assert (Hproc : processed queued_store "PROJ-1").
  { unfold processed. eexists. split; [vm_compute; reflexivity | reflexivity]. }
  split; [split; [by apply numbered_runs_fresh | exact Hproc]|].
  apply (poll_skips_processed_tickets _ _ numbered_runs queued_store "PROJ-1").
  - by apply numbered_runs_fresh.
  - by left.
Defined.

(** ** The pages gathered from Confluence *)




(** ** Writes to the store, as the metrics see them *)

Section WritesAndMetrics.
Import POCMetricsCollector.

Lemma filter_length_Permutation {A} (p : A -> bool) (l k : list A) :
  l ≡ₚ k -> length (List.filter p l) = length (List.filter p k).
Proof.
  induction 1 as [|x l k _ IH|x y l|l k j _ IH1 _ IH2]; cbn.
  - done.
  - destruct (p x); cbn; by rewrite IH.
  - by destruct (p x), (p y).
  - by rewrite IH1.
Qed.

Lemma count_where_insert_fresh {V} (p : V -> bool) (table : gmap string V)
  (key : string) (v : V) :
  table !! key = None ->
  count_where p (<[key := v]> table) = Nat.b2n (p v) + count_where p table.
Proof.
  intros Hnone. unfold count_where, rows.
  rewrite (filter_length_Permutation p _ (v :: (map_to_list table).*2)).
  - cbn. by destruct (p v).
  - by rewrite (map_to_list_insert table key v Hnone).
Qed.

Lemma count_where_insert {V} (p : V -> bool) (table : gmap string V)
  (key : string) (v : V) :
  count_where p (<[key := v]> table)
  + Nat.b2n (match table !! key with Some old => p old | None => false end)
  = count_where p table + Nat.b2n (p v).
Proof.
  destruct (table !! key) as [old|] eqn:Hold.
  - assert (Hnew : count_where p (<[key := v]> table)
                   = Nat.b2n (p v) + count_where p (delete key table)).
    { rewrite <- insert_delete_eq.
      apply count_where_insert_fresh, lookup_delete_eq. }
    assert (Hwas : count_where p table
                   = Nat.b2n (p old) + count_where p (delete key table)).
    { rewrite <- (insert_delete_id table key old Hold) at 1.
      apply count_where_insert_fresh, lookup_delete_eq. }
    rewrite Hnew, Hwas. lia.
  - rewrite count_where_insert_fresh by done. cbn. lia.
Qed.

Lemma count_where_all {V} (table : gmap string V) :
  count_where (fun _ => true) table = size table.
Proof.
  unfold count_where, rows.
  assert (H : forall l : list V, List.filter (fun _ => true) l = l).
  { induction l as [|x l IH]; cbn; by rewrite ?IH. }
  by rewrite H, length_fmap, length_map_to_list.
Qed.

(** [_compute_kpi2] raises nothing, and its three plain counters. *)
Lemma compute_kpi2_counts (session : Store) (m : POCMetrics.t) :
  exists m',
    _compute_kpi2 session m = Ok m'
    /\ POCMetrics.total_tickets_processed m' = size (ticket_runs session)
    /\ POCMetrics.total_detected_incomplete m'
       = count_where (fun tr => truthy (TicketRun.ticket_deemed_incomplete tr))
           (ticket_runs session)
    /\ POCMetrics.total_ground_truth_incomplete m'
       = count_where TicketGroundTruth.truly_incomplete
           (ticket_ground_truth session).
Proof.
  unfold _compute_kpi2. rewrite count_where_all.
  destruct (count_where TicketGroundTruth.truly_incomplete
              (ticket_ground_truth session)) as [|n];
    eexists; (split; [reflexivity|]); by cbn.
Qed.

(** A run that starts adds one record under its run id. *)
Lemma run_workflow_runs (env : Env) (w : World) (stages : Stages)
  (ticket_id : string) (db : Store) :
  startup_ok env db ->
  let db' := (run_workflow env w stages ticket_id db).2 in
  ticket_runs db !! uuid4 env = None
  /\ (exists run, ticket_runs db' = <[uuid4 env := run]> (ticket_runs db))
  /\ ticket_ground_truth db' = ticket_ground_truth db.
Proof.
  intros Hstart. cbn zeta.
  assert (Hfresh : ticket_runs db !! uuid4 env = None) by apply Hstart.
  destruct (run_workflow_startup_store env w stages ticket_id db Hstart)
    as (db1 & marker & Hrun & Hruns & _ & _ & _ & Hgt).
  specialize (Hrun (finalize_run_fault env)).
  rewrite with_finalize_run_fault_id in Hrun. rewrite Hrun. cbn [snd].
  destruct (finalize_run_store (finalize_run_fault env) (clock_at_end env)
              (uuid4 env)
              (try_invoke w stages (initial_state w (uuid4 env) ticket_id))
              db1)
    as ((Hother & _ & Hg) & _ & Hsame & _).
  split; [done|]. split; [|by rewrite Hg].
  destruct (Hsame (running_record (clock_at_start env) (uuid4 env) ticket_id))
    as (run & Hrow & _).
  { rewrite Hruns. apply lookup_insert_eq. }
  exists run. apply map_eq. intros key.
  destruct (decide (key = uuid4 env)) as [->|Hne].
  - by rewrite Hrow, lookup_insert_eq.
  - rewrite Hother, Hruns by done. by rewrite !lookup_insert_ne.
Qed.

End WritesAndMetrics.

(** X26.  A ground-truth label is counted by KPI2 exactly as given: after
    [set_ground_truth], the number of tickets labelled truly incomplete is
    the old number, less the ticket's old label, plus the new one; the
    other labels, the number of processed tickets and the number of
    flagged ones stay as they were. *)
Theorem label_is_counted_by_kpi2 (clock : Clock) (ticket_id : string)
  (truly_incomplete : bool) (labeled_by notes : option string) (db : Store)
  (m : POCMetrics.t) :
  let was :=
    match ticket_ground_truth db !! ticket_id with
    | Some label => TicketGroundTruth.truly_incomplete label
    | None => false
    end in
  let db' :=
    (TicketRepository.set_ground_truth None clock ticket_id truly_incomplete
       labeled_by notes db).2 in
  exists before after,
    POCMetricsCollector._compute_kpi2 db m = Ok before
    /\ POCMetricsCollector._compute_kpi2 db' m = Ok after
    /\ POCMetrics.total_ground_truth_incomplete after + Nat.b2n was
       = POCMetrics.total_ground_truth_incomplete before
         + Nat.b2n truly_incomplete
    /\ POCMetrics.total_tickets_processed after
       = POCMetrics.total_tickets_processed before
    /\ POCMetrics.total_detected_incomplete after
       = POCMetrics.total_detected_incomplete before
    /\ (forall other, other <> ticket_id ->
          ticket_ground_truth db' !! other = ticket_ground_truth db !! other).
Proof.
  cbn zeta.
  destruct (compute_kpi2_counts db m) as (before & -> & Hp & Hd & Hg).
  destruct (compute_kpi2_counts
              (TicketRepository.set_ground_truth None clock ticket_id
                 truly_incomplete labeled_by notes db).2 m)
    as (after & -> & Hp' & Hd' & Hg').
  exists before, after. split; [done|]. split; [done|].
  rewrite Hp, Hd, Hg, Hp', Hd', Hg'. cbn.
  split; [|split; [done|split; [done|]]].
  - rewrite (count_where_insert TicketGroundTruth.truly_incomplete). by cbn.
  - intros other Hne. by apply lookup_insert_ne.
Qed.

(** X27.  Every run that starts is counted once: after [run_workflow],
    whatever the outcome of the run and of its final write, KPI3 counts one
    run more and KPI2 one processed ticket more, while the number of
    tickets labelled truly incomplete stays the same. *)
Theorem started_run_is_counted_once (env : Env) (w : World)
  (ticket_id : string) (db : Store) (m : POCMetrics.t) :
  startup_ok env db ->
  let db' := (run_workflow env w (source_stages w) ticket_id db).2 in
  POCMetrics.total_runs (POCMetricsCollector._compute_kpi3 db' m)
  = S (POCMetrics.total_runs (POCMetricsCollector._compute_kpi3 db m))
  /\ exists before after,
       POCMetricsCollector._compute_kpi2 db m = Ok before
       /\ POCMetricsCollector._compute_kpi2 db' m = Ok after
       /\ POCMetrics.total_tickets_processed after
          = S (POCMetrics.total_tickets_processed before)
       /\ POCMetrics.total_ground_truth_incomplete after
          = POCMetrics.total_ground_truth_incomplete before.
Proof.
  intros Hstart. cbn zeta.
  destruct (run_workflow_runs env w (source_stages w) ticket_id db Hstart)
    as (Hfresh & (run & Hruns) & Hgt).
  assert (Hsize : size (ticket_runs
                          (run_workflow env w (source_stages w) ticket_id db).2)
                  = S (size (ticket_runs db))).
  { rewrite Hruns. by apply map_size_insert_None. }
  assert (Htotal : forall session,
            POCMetrics.total_runs (POCMetricsCollector._compute_kpi3 session m)
            = size (ticket_runs session)).
  { intros session.
    unfold POCMetricsCollector._compute_kpi3, POCMetricsCollector.kpi3_of_runs,
      POCMetricsCollector.select_error_status,
      POCMetricsCollector.runs_by_start, POCMetricsCollector.rows.
    cbn [POCMetrics.total_runs].
    rewrite length_fmap, (Permutation_length (merge_sort_Permutation _ _)).
    by rewrite length_fmap, length_map_to_list. }
  split; [by rewrite !Htotal|].
  destruct (compute_kpi2_counts db m) as (before & -> & Hp & _ & Hg).
  destruct (compute_kpi2_counts
              (run_workflow env w (source_stages w) ticket_id db).2 m)
    as (after & -> & Hp' & _ & Hg').
  exists before, after. split; [done|]. split; [done|].
  rewrite Hp, Hp', Hg, Hg', Hsize, Hgt. by split.
Qed.

Lemma started_run_is_counted_once_witness :
  let db' := (run_workflow healthy_env ticket_not_found_world
                (source_stages ticket_not_found_world) "PROJ-1"
                empty_store).2 in
  startup_ok healthy_env empty_store
  /\ POCMetrics.total_runs (POCMetricsCollector._compute_kpi3 db' POCMetrics.new)
     = S (POCMetrics.total_runs
            (POCMetricsCollector._compute_kpi3 empty_store POCMetrics.new)).
Proof.
  assert (Hstart : startup_ok healthy_env empty_store) by by repeat split.
  split; [exact Hstart|].
  apply (started_run_is_counted_once healthy_env ticket_not_found_world
           "PROJ-1" empty_store POCMetrics.new Hstart).
Defined.
